(** * Logseq MCP tools: block parser and block reconciliation

    A shallow embedding of the outline parser ([parseBlocks], [readPageFile],
    [getAllPages]) and of the tools that read or rewrite the note files
    ([search], [insert_block], [create_journal_page], [update_block],
    [delete_block], the page tools and the reports) of the "Logseq Complete
    MCP" server, version 4.0.0, with the [update_block] of version 2.1.0,
    followed by the properties of the specification that concern them.

    Conventions of the embedding.
    - A JavaScript string is the list of its UTF-16 code units; the
      development keeps the code units below 256, so a code unit is an
      [ascii].  The blanks of "\s" and [trim()] in that range are the codes
      9 to 13, 32 and 160; the line terminators that [.] refuses are 10 and 13.
    - [uuidv4()] is an oracle [nat -> str] read through a counter that every
      call advances.
    - The file system is a store of (path, text) entries kept in directory
      walk order, with the list of the directories where a tool depends on
      one: a file is written into a directory that exists.  The entries are
      regular files that can be read and written: an entry that [statSync]
      or [readFileSync] refuses, at which the walk of [findMarkdownFiles]
      gives up the rest of its directory, is not represented, and neither
      are the permissions and the limits of the file system.  Time stamps
      are left out. *)

From Stdlib Require Import Ascii String List Arith PeanoNat NArith ZArith Lia Bool.
Import ListNotations.
Open Scope list_scope.

(** ** JavaScript string primitives *)

Module Js.

Definition str := list ascii.

Definition lit (s : string) : str := list_ascii_of_string s.
Arguments lit s%_string.

Definition code (c : ascii) : N := N_of_ascii c.

Definition inRange (lo hi : N) (c : ascii) : bool :=
  ((lo <=? code c) && (code c <=? hi))%N.

(** "\s", also the characters removed by [trim()]. *)
Definition isSpace (c : ascii) : bool :=
  inRange 9 13 c || (code c =? 32)%N || (code c =? 160)%N.

(** The characters [.] does not match. *)
Definition isLineTerminator (c : ascii) : bool :=
  (code c =? 10)%N || (code c =? 13)%N.

Definition isDigit (c : ascii) : bool := inRange 48 57 c.
Definition isLower (c : ascii) : bool := inRange 97 122 c.
Definition isUpper (c : ascii) : bool := inRange 65 90 c.
Definition isLetter (c : ascii) : bool := isLower c || isUpper c.

Definition isEmpty (s : str) : bool :=
  match s with [] => true | _ :: _ => false end.

Fixpoint str_eqb (a b : str) : bool :=
  match a, b with
  | [], [] => true
  | x :: a', y :: b' => Ascii.eqb x y && str_eqb a' b'
  | _, _ => false
  end.

(** Longest prefix of [s] whose characters satisfy [p], and what follows. *)
Fixpoint span (p : ascii -> bool) (s : str) : str * str :=
  match s with
  | c :: r => if p c then let (a, b) := span p r in (c :: a, b) else ([], s)
  | [] => ([], [])
  end.

Definition takeWhile (p : ascii -> bool) (s : str) : str := fst (span p s).
Definition dropWhile (p : ascii -> bool) (s : str) : str := snd (span p s).

(** [stripPrefix p s] is what follows [p] when [s] starts with [p]. *)
Fixpoint stripPrefix (p s : str) : option str :=
  match p, s with
  | [], _ => Some s
  | a :: p', b :: s' => if Ascii.eqb a b then stripPrefix p' s' else None
  | _ :: _, [] => None
  end.

(** [s.startsWith(p)] *)
Definition startsWith (s p : str) : bool :=
  match stripPrefix p s with Some _ => true | None => false end.

(** [s.includes(sub)] *)
Fixpoint includes (s sub : str) : bool :=
  startsWith s sub || match s with [] => false | _ :: r => includes r sub end.

(** [s.endsWith(p)] *)
Definition endsWith (s p : str) : bool := startsWith (rev s) (rev p).

(** [s.indexOf(sub)] and [s.indexOf(sub, from)]; [None] stands for -1. *)
Fixpoint indexOf (s sub : str) : option nat :=
  if startsWith s sub then Some 0
  else match s with [] => None | _ :: r => option_map S (indexOf r sub) end.

Definition indexOfFrom (s sub : str) (from : nat) : option nat :=
  option_map (Nat.add from) (indexOf (skipn from s) sub).

(** [s.slice(a)] and [s.slice(a, b)] for indices within the usual order. *)
Definition sliceFrom (a : nat) (s : str) : str := skipn a s.
Definition slice (a b : nat) (s : str) : str := firstn (b - a) (skipn a s).

(** [s.trim()] *)
Definition trimStart (s : str) : str := dropWhile isSpace s.
Definition trimEnd (s : str) : str := rev (dropWhile isSpace (rev s)).
Definition trim (s : str) : str := trimEnd (trimStart s).

Definition newline : ascii := ascii_of_N 10.

(** [s.split('\n')]: never empty, the empty text has one empty line. *)
Fixpoint split (s : str) : list str :=
  match s with
  | [] => [[]]
  | c :: r =>
      if Ascii.eqb c newline then [] :: split r
      else match split r with
           | l :: ls => (c :: l) :: ls
           | [] => [[c]]
           end
  end.

(** [lines.join('\n')] *)
Fixpoint join (ls : list str) : str :=
  match ls with
  | [] => []
  | [l] => l
  | l :: rest => l ++ newline :: join rest
  end.

(** [s.toLowerCase()] on the code units kept here. *)
Definition lowerChar (c : ascii) : ascii :=
  if isUpper c || (inRange 192 222 c && negb (code c =? 215)%N)
  then ascii_of_N (code c + 32) else c.
Definition toLowerCase (s : str) : str := map lowerChar s.

End Js.
Import Js.

(** ** The regular expressions of the source

    Each pattern is written as the function that a backtracking matcher
    computes for it.  Where a greedy class is followed by a character outside
    that class, giving characters back can never help, so the longest run is
    the only candidate; the comments quote the pattern each function stands
    for, with DOTS written for the pattern "." followed by a star. *)

Module Rx.

(** "(DOTS)$" from the current position: the rest of the text, which the dot
    must match to its end. *)
Definition dotsToEnd (s : str) : bool :=
  forallb (fun c => negb (isLineTerminator c)) s.

(** "\s+(DOTS)$": at least one blank, then the rest.  A shorter run of blanks
    would leave the dots with the same terminators to cross. *)
Definition blanksThenRest (s : str) : option str :=
  match span isSpace s with
  | ([], _) => None
  | (_ :: _, rest) => if dotsToEnd rest then Some rest else None
  end.

(** "p{n}": exactly [n] characters of class [p]. *)
Fixpoint takeN (n : nat) (p : ascii -> bool) (s : str) : option (str * str) :=
  match n with
  | O => Some ([], s)
  | S k =>
      match s with
      | c :: r =>
          if p c then
            match takeN k p r with
            | Some (a, b) => Some (c :: a, b)
            | None => None
            end
          else None
      | [] => None
      end
  end.

(** Leftmost match of an unanchored pattern: the pattern is tried at every
    position from the left. *)
Fixpoint firstMatch {A : Type} (at_ : str -> option A) (s : str) : option A :=
  match at_ s with
  | Some r => Some r
  | None => match s with [] => None | _ :: r => firstMatch at_ r end
  end.

(** One pass of a [g] pattern over the text: the captures of the successive
    matches, and the text outside them.  [skip] counts the characters of
    the current match still to pass.  None of the patterns below matches
    the empty text. *)
Fixpoint scan {A : Type} (at_ : str -> option (A * str)) (skip : nat) (s : str)
  : list A * str :=
  match s with
  | [] => ([], [])
  | c :: r =>
      match skip with
      | S k => scan at_ k r
      | O =>
          match at_ s with
          | Some (a, rest) =>
              let (caps, out) := scan at_ (length r - length rest) r in
              (a :: caps, out)
          | None =>
              let (caps, out) := scan at_ 0 r in (caps, c :: out)
          end
      end
  end.

(** [s.matchAll(re)] (the captures) and [s.replace(re, empty)] for a [g] pattern. *)
Definition matchAll {A : Type} (at_ : str -> option (A * str)) (s : str) : list A :=
  fst (scan at_ 0 s).
Definition removeAll {A : Type} (at_ : str -> option (A * str)) (s : str) : str :=
  snd (scan at_ 0 s).

(** "/^[-*+]\s*/" replaced by nothing. *)
Definition isBullet (c : ascii) : bool :=
  Ascii.eqb c "-" || Ascii.eqb c "*" || Ascii.eqb c "+".

Definition stripBullet (s : str) : str :=
  match s with
  | c :: r => if isBullet c then dropWhile isSpace r else s
  | [] => []
  end.

(** "[a-f0-9]" and "[a-f0-9-]" *)
Definition isHex (c : ascii) : bool := inRange 97 102 c || isDigit c.
Definition isUuidChar (c : ascii) : bool := isHex c || Ascii.eqb c "-".

(** "/^([a-f0-9-]{36})\s+(DOTS)$/" *)
Definition fullUuidMatch (s : str) : option (str * str) :=
  match takeN 36 isUuidChar s with
  | Some (u, r) => option_map (pair u) (blanksThenRest r)
  | None => None
  end.

(** "/^([a-f0-9]{8})\s+(DOTS)$/" *)
Definition shortUuidMatch (s : str) : option (str * str) :=
  match takeN 8 isHex s with
  | Some (u, r) => option_map (pair u) (blanksThenRest r)
  | None => None
  end.

(** The task keywords, in the order of the alternation. *)
Inductive Todo := TODO | DOING | DONE | LATER | NOW | WAITING | IN_PROGRESS.

Definition todoText (t : Todo) : str :=
  match t with
  | TODO => lit "TODO"
  | DOING => lit "DOING"
  | DONE => lit "DONE"
  | LATER => lit "LATER"
  | NOW => lit "NOW"
  | WAITING => lit "WAITING"
  | IN_PROGRESS => lit "IN-PROGRESS"
  end.

Definition todoWords : list Todo :=
  [TODO; DOING; DONE; LATER; NOW; WAITING; IN_PROGRESS].

(** "(TODO|DOING|...)\s+(DOTS)$" at the current position: the alternatives are
    tried in order, each with the rest of the pattern. *)
Fixpoint todoAlternatives (ws : list Todo) (s : str) : option (Todo * str) :=
  match ws with
  | [] => None
  | w :: ws' =>
      match stripPrefix (todoText w) s with
      | Some r =>
          match blanksThenRest r with
          | Some rest => Some (w, rest)
          | None => todoAlternatives ws' s
          end
      | None => todoAlternatives ws' s
      end
  end.

(** "/^(TODO|DOING|DONE|LATER|NOW|WAITING|IN-PROGRESS)\s+(DOTS)$/" *)
Definition todoMatch (s : str) : option (Todo * str) :=
  todoAlternatives todoWords s.

(** The keyword alone, "/^(TODO|...)\s+/", as the delete strategy strips it:
    what follows the keyword and its blanks. *)
Fixpoint todoPrefix (ws : list Todo) (s : str) : option str :=
  match ws with
  | [] => None
  | w :: ws' =>
      match stripPrefix (todoText w) s with
      | Some r =>
          match span isSpace r with
          | (_ :: _, rest) => Some rest
          | ([], _) => todoPrefix ws' s
          end
      | None => todoPrefix ws' s
      end
  end.

Inductive Priority := PriorityA | PriorityB | PriorityC.

Definition priorityOfChar (c : ascii) : option Priority :=
  if Ascii.eqb c "A" then Some PriorityA
  else if Ascii.eqb c "B" then Some PriorityB
  else if Ascii.eqb c "C" then Some PriorityC
  else None.

Definition priorityLetter (p : Priority) : ascii :=
  match p with PriorityA => "A" | PriorityB => "B" | PriorityC => "C" end%char.

(** "\[#([ABC])\]" at the current position. *)
Definition cookieAt (s : str) : option (Priority * str) :=
  match stripPrefix (lit "[#") s with
  | Some (x :: r1) =>
      match priorityOfChar x, stripPrefix (lit "]") r1 with
      | Some p, Some r => Some (p, r)
      | _, _ => None
      end
  | _ => None
  end.

(** "\[#([ABC])]\s*(DOTS)$" at the current position. *)
Definition priorityAt (s : str) : option (Priority * str) :=
  match cookieAt s with
  | Some (p, r) =>
      let rest := dropWhile isSpace r in
      if dotsToEnd rest then Some (p, rest) else None
  | None => None
  end.

(** "/\[#([ABC])]\s*(DOTS)$/": the leftmost cookie that the rest of the pattern
    accepts; the second capture is what follows it. *)
Definition priorityMatch (s : str) : option (Priority * str) :=
  firstMatch priorityAt s.

(** "KEYWORD\s*<([^>]+)>" at the current position, for "SCHEDULED:" and
    "DEADLINE:"; the capture and what follows the closing bracket. *)
Definition markerAt (keyword : str) (s : str) : option (str * str) :=
  match stripPrefix keyword s with
  | Some r =>
      match stripPrefix (lit "<") (dropWhile isSpace r) with
      | Some r2 =>
          match span (fun c => negb (Ascii.eqb c ">")) r2 with
          | ((_ :: _) as d, r3) => option_map (pair d) (stripPrefix (lit ">") r3)
          | ([], _) => None
          end
      | None => None
      end
  | None => None
  end.

Definition scheduledAt : str -> option (str * str) := markerAt (lit "SCHEDULED:").
Definition deadlineAt : str -> option (str * str) := markerAt (lit "DEADLINE:").

(** "/SCHEDULED:\s*<([^>]+)>/" and "/DEADLINE:\s*<([^>]+)>/", first capture. *)
Definition scheduledMatch (s : str) : option str :=
  option_map fst (firstMatch scheduledAt s).
Definition deadlineMatch (s : str) : option str :=
  option_map fst (firstMatch deadlineAt s).

(** "[a-zA-Z_]" and "[a-zA-Z0-9_-]" *)
Definition isKeyStart (c : ascii) : bool := isLetter c || Ascii.eqb c "_".
Definition isKeyChar (c : ascii) : bool :=
  isLetter c || isDigit c || Ascii.eqb c "_" || Ascii.eqb c "-".

(** "(KEY):\s*([^\s]+)" at the current position, where KEY is
    "[a-zA-Z_][a-zA-Z0-9_-]*". *)
Definition propertyAt (s : str) : option ((str * str) * str) :=
  match s with
  | c :: _ =>
      if isKeyStart c then
        let (key, r) := span isKeyChar s in
        match stripPrefix (lit ":") r with
        | Some r1 =>
            match span (fun c => negb (isSpace c)) (dropWhile isSpace r1) with
            | ((_ :: _) as value, r2) => Some ((key, value), r2)
            | ([], _) => None
            end
        | None => None
        end
      else None
  | [] => None
  end.

(** "\(\(([a-f0-9-]{36})\)\)" at the current position. *)
Definition blockRefAt (s : str) : option (str * str) :=
  match stripPrefix (lit "((") s with
  | Some r =>
      match takeN 36 isUuidChar r with
      | Some (u, r1) => option_map (pair u) (stripPrefix (lit "))") r1)
      | None => None
      end
  | None => None
  end.

(** "\[\[([^\]]+)\]\]" at the current position. *)
Definition pageRefAt (s : str) : option (str * str) :=
  match stripPrefix (lit "[[") s with
  | Some r =>
      match span (fun c => negb (Ascii.eqb c "]")) r with
      | ((_ :: _) as name, r1) => option_map (pair name) (stripPrefix (lit "]]") r1)
      | ([], _) => None
      end
  | None => None
  end.

(** "#([a-zA-Z0-9_-]+)" at the current position. *)
Definition tagAt (s : str) : option (str * str) :=
  match stripPrefix (lit "#") s with
  | Some r =>
      match span isKeyChar r with
      | ((_ :: _) as tag, r1) => Some (tag, r1)
      | ([], _) => None
      end
  | None => None
  end.

(** "/^(\s*- )(DOTS)$/": both captures. *)
Definition dashBulletMatch (s : str) : option (str * str) :=
  let (indent, r) := span isSpace s in
  match stripPrefix (lit "- ") r with
  | Some rest => if dotsToEnd rest then Some (indent ++ lit "- ", rest) else None
  | None => None
  end.

(** The dash pattern of version 2.1.0, "/^(BLANKS-BLANKS)(DOTS)$/" where
    BLANKS is "\s" starred: both captures.  The blanks after the dash are all
    taken: a shorter run would leave the dots with the same terminators to
    cross. *)
Definition dashBlanksMatch (s : str) : option (str * str) :=
  let (indent, r) := span isSpace s in
  match stripPrefix (lit "-") r with
  | Some r1 =>
      let (blanks, rest) := span isSpace r1 in
      if dotsToEnd rest then Some (indent ++ lit "-" ++ blanks, rest) else None
  | None => None
  end.

(** "/^(\d{4})_(\d{2})_(\d{2})$/": the three captures. *)
Definition journalNameMatch (s : str) : option (str * str * str) :=
  match takeN 4 isDigit s with
  | Some (y, r) =>
      match stripPrefix (lit "_") r with
      | Some r1 =>
          match takeN 2 isDigit r1 with
          | Some (m, r2) =>
              match stripPrefix (lit "_") r2 with
              | Some r3 =>
                  match takeN 2 isDigit r3 with
                  | Some (d, []) => Some (y, m, d)
                  | _ => None
                  end
              | None => None
              end
          | None => None
          end
      | None => None
      end
  | None => None
  end.

End Rx.
Import Rx.

(** ** The block parser: [parseBlocks] *)

Module Parser.

(** [LogseqBlock], without the two time stamps. *)
Record LogseqBlock := {
  uuid : str;
  content : str;
  level : nat;
  todo : option Todo;
  priority : option Priority;
  scheduled : option str;
  deadline : option str;
  properties : option (list (str * str));
  refs : option (list str)
}.

(** The number that a key names when it is an array index: the key is the
    decimal text, without sign or leading zero, of a number below 2^32 - 1. *)
Definition arrayIndex (key : str) : option N :=
  match key with
  | [] => None
  | c :: r =>
      if forallb isDigit key && (negb (Ascii.eqb c "0") || isEmpty r) then
        let i := fold_left (fun acc d => 10 * acc + (code d - 48))%N key 0%N in
        if (i <? 4294967295)%N then Some i else None
      else None
  end.

Definition hasKey (obj : list (str * str)) (key : str) : bool :=
  existsb (fun entry => str_eqb key (fst entry)) obj.

(** The value of a key that the object has: the key keeps its place. *)
Fixpoint replaceKey (obj : list (str * str)) (key value : str) : list (str * str) :=
  match obj with
  | [] => []
  | (k, v) :: rest =>
      if str_eqb key k then (k, value) :: rest else (k, v) :: replaceKey rest key value
  end.

(** A key that the object does not have yet.  An object lists the keys that
    are array indices first, in the order of their numbers, and then the
    other keys in the order of their first assignment. *)
Fixpoint addKey (obj : list (str * str)) (key value : str) : list (str * str) :=
  match obj with
  | [] => [(key, value)]
  | (k, v) :: rest =>
      match arrayIndex key, arrayIndex k with
      | Some i, Some j =>
          if (i <? j)%N then (key, value) :: obj else (k, v) :: addKey rest key value
      | Some _, None => (key, value) :: obj
      | None, _ => (k, v) :: addKey rest key value
      end
  end.

(** [obj[key] = value] on an object literal, the keys in the order in which
    the object lists them; assigning a string to the key [__proto__] leaves
    the object without any own key, since the inherited setter ignores it. *)
Definition setKey (obj : list (str * str)) (key value : str) : list (str * str) :=
  if hasKey obj key then replaceKey obj key value else addKey obj key value.

Definition setProperty (obj : list (str * str)) (key value : str) : list (str * str) :=
  if str_eqb key (lit "__proto__") then obj else setKey obj key value.

Definition objectOf (entries : list (str * str)) : list (str * str) :=
  fold_left (fun obj kv => setProperty obj (fst kv) (snd kv)) entries [].

(** [xs.length > 0 ? xs : undefined] *)
Definition orUndefined {A : Type} (xs : list A) : option (list A) :=
  match xs with [] => None | _ :: _ => Some xs end.

(** The chain of replacements that ends in [content_clean]. *)
Definition content_clean (cleanLine : str) : str :=
  trim (removeAll cookieAt
         (removeAll propertyAt
           (removeAll deadlineAt
             (removeAll scheduledAt cleanLine)))).

(** The task keyword and the priority cookie, each leaving the remainder of
    the line to the next step. *)
Definition todoStage (s : str) : option Todo * str :=
  match todoMatch s with
  | Some (t, rest) => (Some t, rest)
  | None => (None, s)
  end.

Definition priorityStage (s : str) : option Priority * str :=
  match priorityMatch s with
  | Some (p, rest) => (Some p, rest)
  | None => (None, s)
  end.

(** What is left of the line when the keyword and the cookie are taken. *)
Definition remainder (afterId : str) : str :=
  snd (priorityStage (snd (todoStage afterId))).

(** The block built from the line once its identity is settled; nothing when
    the cleaned content is empty. *)
Definition blockOf (uid : str) (lvl : nat) (afterId : str) : option LogseqBlock :=
  let (todo_, s1) := todoStage afterId in
  let (priority_, cleanLine) := priorityStage s1 in
  let content_ := content_clean cleanLine in
  if isEmpty content_ then None
  else Some {|
    uuid := uid;
    content := content_;
    level := lvl;
    todo := todo_;
    priority := priority_;
    scheduled := scheduledMatch cleanLine;
    deadline := deadlineMatch cleanLine;
    properties := orUndefined (objectOf (matchAll propertyAt cleanLine));
    refs := orUndefined (matchAll blockRefAt cleanLine
                         ++ matchAll pageRefAt cleanLine
                         ++ matchAll tagAt cleanLine)
  |}.

Section WithUuids.

(** The values that successive calls of [uuidv4()] return. *)
Variable uuidv4 : nat -> str.

Definition generateUUID (n : nat) : str * nat := (uuidv4 n, S n).

(** The identity of the line: an embedded 36 character identity, or an
    embedded 8 character one completed by the tail of a fresh identity, or a
    fresh one. *)
Definition identityOf (cleanLine : str) (n : nat) : str * str * nat :=
  let (fresh, n1) := generateUUID n in
  match fullUuidMatch cleanLine with
  | Some (u, rest) => (u, rest, n1)
  | None =>
      match shortUuidMatch cleanLine with
      | Some (u, rest) =>
          let (fresh2, n2) := generateUUID n1 in
          (u ++ sliceFrom 8 fresh2, rest, n2)
      | None => (fresh, cleanLine, n1)
      end
  end.

(** The body of the loop of [parseBlocks] for one line. *)
Definition parseLine (line : str) (n : nat) : option LogseqBlock * nat :=
  let cleanLine := trim line in
  if isEmpty cleanLine then (None, n)
  else if startsWith cleanLine (lit "#") then (None, n)
  else
    let '(uid, afterId, n1) := identityOf (stripBullet cleanLine) n in
    (blockOf uid (length (takeWhile isSpace line) / 2) afterId, n1).

Fixpoint parseLines (lines : list str) (n : nat) : list LogseqBlock * nat :=
  match lines with
  | [] => ([], n)
  | line :: rest =>
      let (found, n1) := parseLine line n in
      let (blocks, n2) := parseLines rest n1 in
      (match found with Some b => b :: blocks | None => blocks end, n2)
  end.

Definition parseBlocks (text : str) (n : nat) : list LogseqBlock * nat :=
  parseLines (split text) n.

End WithUuids.

End Parser.
Import Parser.

(** ** Pages and the note collection: [readPageFile], [getAllPages] *)

Module Pages.

(** [LogseqPage], without the two time stamps.  The page's own [uuid] and
    [properties] are named apart from the block fields. *)
Record LogseqPage := {
  pageUuid : str;
  name : str;
  title : str;
  path : str;
  blocks : list LogseqBlock;
  pageProperties : option (list (str * str));
  aliases : option (list str);
  namespace : option str;
  isJournal : bool;
  journalDay : option N
}.

(** The store of note files: (path, text), in directory walk order.  Every
    entry is a regular file that can be read. *)
Definition FileSystem := list (str * str).

Fixpoint readFileSync (fs : FileSystem) (p : str) : option str :=
  match fs with
  | [] => None
  | (q, text) :: rest => if str_eqb p q then Some text else readFileSync rest p
  end.

Definition existsSync (fs : FileSystem) (p : str) : bool :=
  match readFileSync fs p with Some _ => true | None => false end.

Fixpoint writeFileSync (fs : FileSystem) (p text : str) : FileSystem :=
  match fs with
  | [] => [(p, text)]
  | (q, old) :: rest =>
      if str_eqb p q then (q, text) :: rest else (q, old) :: writeFileSync rest p text
  end.

(** [path.join(dir, item)] for a directory already in normal form. *)
Definition pathJoin (dir item : str) : str := dir ++ lit "/" ++ item.

Definition notChar (x : ascii) (c : ascii) : bool := negb (Ascii.eqb c x).

(** The directories of the disk, by their paths.  The server makes and
    removes none, so a call leaves them as they are. *)
Definition Directories := list str.

(** A path that holds a NUL character is refused by the calls of [fs]:
    [existsSync] answers false, the others throw.  No directory has one. *)
Definition hasNul (p : str) : bool := existsb (Ascii.eqb Ascii.zero) p.

Definition isDirectory (dirs : Directories) (p : str) : bool :=
  negb (hasNul p) && existsb (str_eqb p) dirs.

(** [fs.existsSync(p)] for a path that may be a directory. *)
Definition pathExists (dirs : Directories) (fs : FileSystem) (p : str) : bool :=
  existsSync fs p || isDirectory dirs p.

(** [path.dirname(p)]: what stands before the last slash. *)
Definition dirname (p : str) : str := rev (skipn 1 (dropWhile (notChar "/") (rev p))).

(** [fs.writeFileSync(p, text)] for a path that may be new: it throws, and
    nothing is written, when [p] holds a NUL character, when [p] is a
    directory and when the directory of [p] does not exist. *)
Definition writeFile (dirs : Directories) (fs : FileSystem) (p text : str)
  : option FileSystem :=
  if negb (hasNul p) && negb (isDirectory dirs p) && isDirectory dirs (dirname p)
  then Some (writeFileSync fs p text)
  else None.

(** The last segment of a path to a file. *)
Definition lastSegment (p : str) : str := rev (takeWhile (notChar "/") (rev p)).

(** [path.extname(p)]: from the last dot of the last segment, unless that dot
    opens the segment or there is none. *)
Definition extname (p : str) : str :=
  let (revExt, revStem) := span (notChar ".") (rev (lastSegment p)) in
  match revStem with
  | _ :: _ :: _ => lit "." ++ rev revExt
  | _ => []
  end.

(** [path.basename(p, ext)] *)
Definition basename (p ext : str) : str :=
  let b := lastSegment p in
  if negb (isEmpty ext) && endsWith b ext && negb (str_eqb b ext)
  then firstn (length b - length ext) b
  else b.

(** [findMarkdownFiles(dir)]: the paths of the files below [dir] named
    [*.md] or [*.org].  On a store of readable files the walk reaches every
    one of them: the [catch] that gives up a directory is never entered. *)
Definition findMarkdownFiles (fs : FileSystem) (dir : str) : list str :=
  filter (fun p =>
            startsWith p (dir ++ lit "/")
            && (endsWith p (lit ".md") || endsWith p (lit ".org")))
         (map fst fs).

Fixpoint lookupKey (obj : list (str * str)) (key : str) : option str :=
  match obj with
  | [] => None
  | (k, v) :: rest => if str_eqb key k then Some v else lookupKey rest key
  end.

(** One line of the header: [key: value] when the colon is not the first
    character, assigned to the object of the properties. *)
Definition frontMatterLine (props : list (str * str)) (line : str) : list (str * str) :=
  match indexOf line (lit ":") with
  | Some (S k) => setProperty props (trim (firstn (S k) line)) (trim (skipn (S (S k)) line))
  | _ => props
  end.

(** The header between the two [---] and the text after it. *)
Definition frontMatter (text : str) : list (str * str) * str :=
  if startsWith text (lit "---") then
    match indexOfFrom text (lit "---") 3 with
    | Some endIndex =>
        (fold_left frontMatterLine (split (trim (slice 3 endIndex text))) [],
         sliceFrom (endIndex + 3) text)
    | None => ([], text)
    end
  else ([], text).

(** [parseInt] of a run of digits. *)
Definition parseInt (digits : str) : N :=
  fold_left (fun acc c => 10 * acc + (code c - 48))%N digits 0%N.

Definition journalDayOf (pageName : str) : option N :=
  match journalNameMatch pageName with
  | Some (y, m, d) => Some (parseInt (y ++ m ++ d))
  | None => None
  end.

(** [pageName.split('/').slice(0, -1).join('/')]: what stands before the last
    slash. *)
Definition namespaceOf (pageName : str) : option str :=
  if includes pageName (lit "/")
  then Some (rev (skipn 1 (dropWhile (notChar "/") (rev pageName))))
  else None.

Section WithUuids.

Variable uuidv4 : nat -> str.

(** [readPageFile]: nothing when the file cannot be read. *)
Definition readPageFile (fs : FileSystem) (filePath : str) (n : nat)
  : option LogseqPage * nat :=
  match readFileSync fs filePath with
  | None => (None, n)
  | Some text =>
      let (props, markdownContent) := frontMatter text in
      let pageName := basename filePath (extname filePath) in
      let (blocks_, n1) := parseBlocks uuidv4 markdownContent n in
      let journal := includes filePath (lit "/journals/") in
      let (uid, n2) := generateUUID uuidv4 n1 in
      (Some {|
         pageUuid := uid;
         name := pageName;
         title := match lookupKey props (lit "title") with
                  | Some ((_ :: _) as t) => t
                  | _ => pageName
                  end;
         path := filePath;
         blocks := blocks_;
         pageProperties := orUndefined props;
         aliases := match lookupKey props (lit "alias") with
                    | Some ((_ :: _) as a) => Some [a]
                    | _ => None
                    end;
         namespace := namespaceOf pageName;
         isJournal := journal;
         journalDay := if journal then journalDayOf pageName else None
       |}, n2)
  end.

Fixpoint readPages (fs : FileSystem) (files : list str) (n : nat)
  : list LogseqPage * nat :=
  match files with
  | [] => ([], n)
  | p :: rest =>
      let (read, n1) := readPageFile fs p n in
      let (pages, n2) := readPages fs rest n1 in
      (match read with Some page => page :: pages | None => pages end, n2)
  end.

(** The root directory found at start-up, [LOGSEQ_PATH]. *)
Variable LOGSEQ_PATH : str.

Definition pagesDir : str := pathJoin LOGSEQ_PATH (lit "pages").
Definition journalsDir : str := pathJoin LOGSEQ_PATH (lit "journals").

(** [getAllPages]: the pages directory first, then the journals. *)
Definition getAllPages (fs : FileSystem) (n : nat) : list LogseqPage * nat :=
  readPages fs (findMarkdownFiles fs pagesDir ++ findMarkdownFiles fs journalsDir) n.

End WithUuids.

End Pages.
Import Pages.

(** ** The tools *)

Module Tools.

(** *** [search] *)

(** The query is escaped before it is compiled, so the expression matches the
    text of the query itself; the flag [i] compares the characters through
    their canonical (upper case) form, the flag [g] makes [test] start at
    [lastIndex] and move it. *)
Definition canonicalize (c : ascii) : ascii :=
  if isLower c || (inRange 224 254 c && negb (code c =? 247)%N)
  then ascii_of_N (code c - 32) else c.

Fixpoint matchesHere (query s : str) : bool :=
  match query, s with
  | [], _ => true
  | a :: q', b :: s' =>
      Ascii.eqb (canonicalize a) (canonicalize b) && matchesHere q' s'
  | _ :: _, [] => false
  end.

(** The first index at or after [i] where the query matches; [s] is the text
    from index [i] on. *)
Fixpoint matchFrom (query s : str) (i : nat) : option nat :=
  if matchesHere query s then Some i
  else match s with [] => None | _ :: r => matchFrom query r (S i) end.

(** [searchRegex.test(s)]: the answer and the new [lastIndex]. *)
Definition regexTest (query s : str) (lastIndex : nat) : bool * nat :=
  if length s <? lastIndex then (false, 0)
  else
    match matchFrom query (skipn lastIndex s) lastIndex with
    | Some i => (true, i + length query)
    | None => (false, 0)
    end.

Inductive SearchResult :=
| PageResult (page : str)
| BlockResult (page content_ blockId : str) (todo_ : option Todo).

Fixpoint searchBlocks (query pageName : str) (bs : list LogseqBlock) (lastIndex : nat)
  : list SearchResult * nat :=
  match bs with
  | [] => ([], lastIndex)
  | b :: rest =>
      let (hit, i1) := regexTest query (content b) lastIndex in
      let (results, i2) := searchBlocks query pageName rest i1 in
      (if hit
       then BlockResult pageName (content b) (slice 0 8 (uuid b)) (todo b) :: results
       else results, i2)
  end.

(** [test(page.name) || (page.title && test(page.title))] *)
Definition pageTest (query : str) (page : LogseqPage) (lastIndex : nat) : bool * nat :=
  let (hit, i1) := regexTest query (name page) lastIndex in
  if hit then (true, i1)
  else if isEmpty (title page) then (false, i1)
  else regexTest query (title page) i1.

Fixpoint searchPages (query : str) (pages : list LogseqPage) (lastIndex : nat)
  : list SearchResult * nat :=
  match pages with
  | [] => ([], lastIndex)
  | page :: rest =>
      let (hit, i1) := pageTest query page lastIndex in
      let (blockResults, i2) := searchBlocks query (name page) (blocks page) i1 in
      let (results, i3) := searchPages query rest i2 in
      ((if hit then [PageResult (name page)] else []) ++ blockResults ++ results, i3)
  end.

(** *** [insert_block]: the line it writes *)

(** [blockContent]: an optional argument counts when it is given and not
    empty. *)
Definition blockContent (uid : str) (todo_ priority_ : option str) (content_ : str) : str :=
  lit "- " ++ slice 0 8 uid ++ lit " "
  ++ match todo_ with
     | Some ((_ :: _) as t) => t ++ lit " "
     | _ => []
     end
  ++ match priority_ with
     | Some ((_ :: _) as p) => lit "[#" ++ p ++ lit "] "
     | _ => []
     end
  ++ content_.

(** *** [create_journal_page]: the date of the page *)

(** The calendar fields, in universal time, of the date the tool settles on. *)
Record Date := { year : Z; month : nat; day : nat }.

Definition digit (d : nat) : ascii := ascii_of_nat (48 + d mod 10).

(** [n] written with [width] digits. *)
Fixpoint pad (width n : nat) : str :=
  match width with
  | O => []
  | S w => pad w (n / 10) ++ [digit n]
  end.

(** The year of [toISOString()]: four digits, or a sign and six digits outside
    of 0..9999. *)
Definition isoYear (y : Z) : str :=
  if ((0 <=? y) && (y <=? 9999))%Z then pad 4 (Z.to_nat y)
  else (if (y <? 0)%Z then lit "-" else lit "+") ++ pad 6 (Z.to_nat (Z.abs y)).

(** [targetDate.toISOString().split('T')[0]] *)
Definition dateStr (d : Date) : str :=
  isoYear (year d) ++ lit "-" ++ pad 2 (month d) ++ lit "-" ++ pad 2 (day d).

(** *** [update_block] and [delete_block]: the line tests *)

Definition lineIncludesUuid (blockUuid line : str) : bool :=
  includes line blockUuid
  || ((8 <=? length blockUuid) && includes line (slice 0 8 blockUuid))
  || ((length blockUuid <=? 8) && includes line blockUuid).

(** The loop of [update_block] over the lines of one file: the lines after
    the first rewrite, if there is one. *)
Fixpoint updateLines (blockUuid content_ : str) (lines : list str) : option (list str) :=
  match lines with
  | [] => None
  | line :: rest =>
      match (if lineIncludesUuid blockUuid line then dashBulletMatch line else None) with
      | Some (bullet, _) => Some ((bullet ++ content_) :: rest)
      | None => option_map (cons line) (updateLines blockUuid content_ rest)
      end
  end.

Definition idMatches (blockUuid : str) (block : LogseqBlock) : bool :=
  str_eqb (uuid block) blockUuid
  || str_eqb (slice 0 8 (uuid block)) blockUuid
  || startsWith (uuid block) blockUuid.

(** The first block, in page order, that the request designates. *)
Fixpoint findTarget (blockUuid : str) (pages : list LogseqPage)
  : option (LogseqPage * LogseqBlock) :=
  match pages with
  | [] => None
  | page :: rest =>
      match find (idMatches blockUuid) (blocks page) with
      | Some block => Some (page, block)
      | None => findTarget blockUuid rest
      end
  end.

Definition looksBulleted (line : str) : bool :=
  includes line (lit "- ") || includes line (lit "* ") || includes line (lit "+ ").

(** "/^[a-f0-9]{8}\s+/" replaced by nothing. *)
Definition stripShortId (s : str) : str :=
  match takeN 8 isHex s with
  | Some (_, r) =>
      match span isSpace r with
      | (_ :: _, rest) => rest
      | ([], _) => s
      end
  | None => s
  end.

(** "/^(TODO|DOING|DONE|LATER|NOW|WAITING|IN-PROGRESS)\s+/" replaced by nothing. *)
Definition stripTodo (s : str) : str :=
  match todoPrefix todoWords s with Some rest => rest | None => s end.

(** "/\[#[ABC]\]\s*/" replaced by nothing, once. *)
Fixpoint stripCookie (s : str) : str :=
  match cookieAt s with
  | Some (_, r) => dropWhile isSpace r
  | None => match s with [] => [] | c :: r => c :: stripCookie r end
  end.

Definition cleaned (line : str) : str :=
  trim (stripCookie (stripTodo (stripShortId (stripBullet (trim line))))).

Definition bulletThenId (bullet : string) (shortUuid : str) : str :=
  lit bullet ++ shortUuid ++ lit " ".

(** [searchStrategies], in their order. *)
Definition searchStrategies (shortUuid blockContent_ : str) : list (string * (str -> bool)) :=
  [ ("UUID at start"%string,
     fun line =>
       startsWith (trim line) (bulletThenId "- " shortUuid)
       || startsWith (trim line) (bulletThenId "* " shortUuid)
       || startsWith (trim line) (bulletThenId "+ " shortUuid));
    ("UUID anywhere in bullet"%string,
     fun line => includes line shortUuid && looksBulleted line);
    ("Content in bullet line"%string,
     fun line => includes line blockContent_ && looksBulleted line);
    ("Content after cleaning"%string,
     fun line =>
       str_eqb (cleaned line) blockContent_ || includes (cleaned line) blockContent_);
    ("Partial content match"%string,
     fun line =>
       if negb (looksBulleted line) then false
       else
         let contentStart := slice 0 (Nat.min 15 (length blockContent_)) blockContent_ in
         (3 <? length contentStart) && includes line contentStart) ].

(** The index of the first line that passes [test]. *)
Fixpoint findIndex (test : str -> bool) (lines : list str) : option nat :=
  match lines with
  | [] => None
  | line :: rest => if test line then Some 0 else option_map S (findIndex test rest)
  end.

(** The two nested loops: the first strategy that some line passes, with the
    first such line. *)
Fixpoint findLine (strategies : list (string * (str -> bool))) (lines : list str)
  : option (nat * string) :=
  match strategies with
  | [] => None
  | (strategyName, test) :: rest =>
      match findIndex test lines with
      | Some i => Some (i, strategyName)
      | None => findLine rest lines
      end
  end.

(** [lines.splice(i, 1)] *)
Definition splice1 (i : nat) (lines : list str) : list str :=
  firstn i lines ++ skipn (S i) lines.

Inductive UpdateOutcome :=
| Updated (pageName : str)
| UpdateNotFound
| UpdateError.

Inductive DeleteOutcome :=
| Deleted (strategy : string) (pageName : str) (lineIndex : nat) (originalLine : str)
          (verified : bool)
| BlockNotFound
| SearchFailed (target : LogseqBlock) (pageName : str) (lines : list str)
| DeleteError.

Inductive InsertOutcome :=
| Inserted (shortUuid line : str)
| PageNotFound
| InsertError.

Inductive JournalOutcome :=
| JournalCreated (filePath : str)
| JournalExists (filePath : str)
| JournalError.

Section WithGraph.

Variable uuidv4 : nat -> str.

(** The graph directory found at start-up; the tools are taken with a graph
    that was found. *)
Variable LOGSEQ_PATH : str.

(** The results of [search], before the text of the answer is laid out (the
    answer prints the first ten). *)
Definition search (fs : FileSystem) (n : nat) (query : str) : list SearchResult :=
  let (pages, _) := getAllPages uuidv4 LOGSEQ_PATH fs n in
  fst (searchPages query pages 0).

Definition insert_block (fs : FileSystem) (n : nat)
    (pageName content_ : str) (todo_ priority_ : option str)
  : InsertOutcome * FileSystem * nat :=
  let (pages, n1) := getAllPages uuidv4 LOGSEQ_PATH fs n in
  match find (fun p => str_eqb (toLowerCase (name p)) (toLowerCase pageName)) pages with
  | None => (PageNotFound, fs, n1)
  | Some page =>
      let (uid, n2) := generateUUID uuidv4 n1 in
      let line := blockContent uid todo_ priority_ content_ in
      match readFileSync fs (path page) with
      | Some existingContent =>
          (Inserted (slice 0 8 uid) line,
           writeFileSync fs (path page) (existingContent ++ newline :: line), n2)
      | None => (InsertError, fs, n2)
      end
  end.

(** [localeDate] is the text of [targetDate.toLocaleDateString()].  The
    write that throws is caught: the answer is an error and the store is as
    before. *)
Definition create_journal_page (dirs : Directories) (fs : FileSystem) (targetDate : Date)
    (localeDate : str) : JournalOutcome * FileSystem :=
  let filePath := pathJoin (journalsDir LOGSEQ_PATH) (dateStr targetDate ++ lit ".md") in
  if pathExists dirs fs filePath then (JournalExists filePath, fs)
  else
    let journalContent :=
      lit "# " ++ dateStr targetDate ++ [newline; newline]
      ++ lit "- Journal entry for " ++ localeDate ++ [newline]
      ++ lit "- TODO Add your thoughts for today" ++ [newline] in
    match writeFile dirs fs filePath journalContent with
    | Some fs' => (JournalCreated filePath, fs')
    | None => (JournalError, fs)
    end.

(** The loop of [update_block] over the pages. *)
Fixpoint updatePages (fs : FileSystem) (blockUuid content_ : str) (pages : list LogseqPage)
  : UpdateOutcome * FileSystem :=
  match pages with
  | [] => (UpdateNotFound, fs)
  | page :: rest =>
      match readFileSync fs (path page) with
      | None => (UpdateError, fs)
      | Some fileContent =>
          match updateLines blockUuid content_ (split fileContent) with
          | Some lines => (Updated (name page), writeFileSync fs (path page) (join lines))
          | None => updatePages fs blockUuid content_ rest
          end
      end
  end.

Definition update_block (fs : FileSystem) (n : nat) (blockUuid content_ : str)
  : UpdateOutcome * FileSystem :=
  let (pages, _) := getAllPages uuidv4 LOGSEQ_PATH fs n in
  updatePages fs blockUuid content_ pages.

Definition delete_block (fs : FileSystem) (n : nat) (blockUuid : str)
  : DeleteOutcome * FileSystem :=
  let (pages, _) := getAllPages uuidv4 LOGSEQ_PATH fs n in
  match findTarget blockUuid pages with
  | None => (BlockNotFound, fs)
  | Some (targetPage, targetBlock) =>
      match readFileSync fs (path targetPage) with
      | None => (DeleteError, fs)
      | Some fileContent =>
          let lines := split fileContent in
          let shortUuid := slice 0 8 (uuid targetBlock) in
          match findLine (searchStrategies shortUuid (content targetBlock)) lines with
          | None => (SearchFailed targetBlock (name targetPage) lines, fs)
          | Some (lineToDelete, matchStrategy) =>
              let originalLine := nth lineToDelete lines [] in
              let newContent := join (splice1 lineToDelete lines) in
              let originalLineGone := negb (includes newContent (trim originalLine)) in
              let uuidGone := negb (includes newContent shortUuid) in
              let contentGone := negb (includes newContent (content targetBlock)) in
              (Deleted matchStrategy (name targetPage) lineToDelete originalLine
                       (originalLineGone && (uuidGone || contentGone)),
               writeFileSync fs (path targetPage) newContent)
          end
      end
  end.

End WithGraph.

End Tools.
Import Tools.

(** ** [update_block] of version 2.1.0 ([index-complete-v3.ts])

    That version reads the pages with the same [findMarkdownFiles],
    [readPageFile] and [getAllPages]; its block parser differs, but
    [update_block] uses the path and the name of the pages only. *)

Module V3.

(** The test of a line: the first 8 characters of the identity. *)
Definition lineIncludesUuid (blockUuid line : str) : bool :=
  includes line (slice 0 8 blockUuid).

(** The loop over the lines of one file: the lines after the first rewrite,
    if there is one. *)
Fixpoint updateLines (blockUuid content_ : str) (lines : list str) : option (list str) :=
  match lines with
  | [] => None
  | line :: rest =>
      match (if lineIncludesUuid blockUuid line then dashBlanksMatch line else None) with
      | Some (bullet, _) => Some ((bullet ++ content_) :: rest)
      | None => option_map (cons line) (updateLines blockUuid content_ rest)
      end
  end.

Inductive UpdateOutcome :=
| Updated (pageName : str)
| ParametersRequired
| UpdateNotFound
| UpdateError.

(** The loop over the pages. *)
Fixpoint updatePages (fs : FileSystem) (blockUuid content_ : str) (pages : list LogseqPage)
  : UpdateOutcome * FileSystem :=
  match pages with
  | [] => (UpdateNotFound, fs)
  | page :: rest =>
      match readFileSync fs (path page) with
      | None => (UpdateError, fs)
      | Some fileContent =>
          match updateLines blockUuid content_ (split fileContent) with
          | Some lines => (Updated (name page), writeFileSync fs (path page) (join lines))
          | None => updatePages fs blockUuid content_ rest
          end
      end
  end.

Section WithGraph.

Variable uuidv4 : nat -> str.
Variable LOGSEQ_PATH : str.

(** [!args.blockUuid || !args.content]: an empty identity and an empty
    content are refused. *)
Definition update_block (fs : FileSystem) (n : nat) (blockUuid content_ : str)
  : UpdateOutcome * FileSystem :=
  if isEmpty blockUuid || isEmpty content_ then (ParametersRequired, fs)
  else
    let (pages, _) := getAllPages uuidv4 LOGSEQ_PATH fs n in
    updatePages fs blockUuid content_ pages.

End WithGraph.

End V3.

(** ** Vocabulary of the statements, and sample graphs *)

Module Statements.

(** No block of any page answers to the identity of the request. *)
Definition NoBlockMatches (blockUuid : str) (pages : list LogseqPage) : Prop :=
  forall page block,
    In page pages -> In block (blocks page) -> idMatches blockUuid block = false.

(** None of the strategies built for [block] passes any of the lines. *)
Definition NoStrategySelects (block : LogseqBlock) (lines : list str) : Prop :=
  forall strategyName test line,
    In (strategyName, test) (searchStrategies (slice 0 8 (uuid block)) (content block)) ->
    In line lines -> test line = false.

(** No line of any page file both names the identity and has the dash
    bullet form. *)
Definition NoDashLineNames (fs : FileSystem) (blockUuid : str) (pages : list LogseqPage)
  : Prop :=
  forall page text line,
    In page pages -> readFileSync fs (path page) = Some text -> In line (split text) ->
    lineIncludesUuid blockUuid line = true -> dashBulletMatch line = None.

(** The two not-found answers of [delete_block]. *)
Definition notFound (outcome : DeleteOutcome) : bool :=
  match outcome with
  | BlockNotFound | SearchFailed _ _ _ => true
  | Deleted _ _ _ _ _ | DeleteError => false
  end.

(** The first character of the line after its indentation is a star or a plus. *)
Definition usesStarOrPlus (line : str) : bool :=
  match trimStart line with
  | c :: _ => Ascii.eqb c "*" || Ascii.eqb c "+"
  | [] => false
  end.

(** Every line of a page file that names the identity is a star or plus line. *)
Definition OnlyStarOrPlusLinesName (fs : FileSystem) (blockUuid : str)
    (pages : list LogseqPage) : Prop :=
  forall page text line,
    In page pages -> readFileSync fs (path page) = Some text -> In line (split text) ->
    lineIncludesUuid blockUuid line = true -> usesStarOrPlus line = true.

(** The pages that one call of a tool works on. *)
Definition pagesOf (uuidv4 : nat -> str) (root : str) (fs : FileSystem) (n : nat)
  : list LogseqPage :=
  fst (getAllPages uuidv4 root fs n).

(** The text does not start with a blank. *)
Definition headOk (s : str) : bool :=
  match s with c :: _ => negb (isSpace c) | [] => true end.

(** The text neither starts nor ends with a blank. *)
Definition Trimmed (s : str) : Prop := headOk s = true /\ headOk (rev s) = true.

(** What [identityOf] leaves of the line, whatever the fresh identities. *)
Definition lineRest (cleanLine : str) : str :=
  match fullUuidMatch cleanLine with
  | Some (_, rest) => rest
  | None =>
      match shortUuidMatch cleanLine with
      | Some (_, rest) => rest
      | None => cleanLine
      end
  end.

(** The remainder of a line: what the parser holds in [cleanLine] when the
    bullet, the identity, the task keyword and the priority cookie are
    taken, and from which it builds the content. *)
Definition remainderOf (line : str) : str :=
  remainder (lineRest (stripBullet (trim line))).

Definition isSome {A : Type} (o : option A) : bool :=
  match o with Some _ => true | None => false end.

(** Some scheduling marker, deadline marker, property token or priority
    cookie stands in the text. *)
Definition hasToken (s : str) : bool :=
  isSome (firstMatch scheduledAt s) || isSome (firstMatch deadlineAt s)
  || isSome (firstMatch propertyAt s) || isSome (firstMatch cookieAt s).

(** The references that the parser extracts from a remainder. *)
Definition referencesOf (cleanLine : str) : list str :=
  matchAll blockRefAt cleanLine ++ matchAll pageRefAt cleanLine ++ matchAll tagAt cleanLine.

(** The line that [insert_block] writes for the fields of a block. *)
Definition blockLine (b : LogseqBlock) : str :=
  blockContent (uuid b)
    (option_map todoText (todo b))
    (option_map (fun p => [priorityLetter p]) (priority b))
    (content b).

(** The keyword and the cookie as [insert_block] writes them. *)
Definition todoPart (t : option Todo) : str :=
  match t with Some k => todoText k ++ lit " " | None => [] end.

Definition cookiePart (p : option Priority) : str :=
  match p with Some q => lit "[#" ++ [priorityLetter q] ++ lit "] " | None => [] end.

(** The characters of the date of a journal file. *)
Definition isDateChar (c : ascii) : bool :=
  isDigit c || Ascii.eqb c "-" || Ascii.eqb c "+".

(** "/^\d{4}-\d{2}-\d{2}$/" *)
Definition hyphenDateMatch (s : str) : bool :=
  match takeN 4 isDigit s with
  | Some (_, r) =>
      match stripPrefix (lit "-") r with
      | Some r1 =>
          match takeN 2 isDigit r1 with
          | Some (_, r2) =>
              match stripPrefix (lit "-") r2 with
              | Some r3 =>
                  match takeN 2 isDigit r3 with
                  | Some (_, []) => true
                  | _ => false
                  end
              | None => false
              end
          | None => false
          end
      | None => false
      end
  | None => false
  end.

(** "/^([+-]\d{6}|\d{4})-\d{2}-\d{2}$/": the date of [toISOString], whose year
    has four digits, or a sign and six digits. *)
Definition isoDateMatch (s : str) : bool :=
  hyphenDateMatch s
  || match s with
     | sign :: r =>
         (Ascii.eqb sign "+" || Ascii.eqb sign "-")
         && match takeN 2 isDigit r with
            | Some (_, r1) => hyphenDateMatch r1
            | None => false
            end
     | [] => false
     end.


Definition noNewline (line : str) : bool :=
  forallb (fun c => negb (Ascii.eqb c newline)) line.

(** No header is cut from the text when it is read: the text does not start
    with three dashes, or no three dashes follow that close the header. *)
Definition noHeader (text : str) : bool :=
  negb (startsWith text (lit "---")) || negb (isSome (indexOfFrom text (lit "---") 3)).

End Statements.
Import Statements.

Module Samples.

(** Identities that differ from call to call. *)
Definition sampleUuid (n : nat) : str := pad 8 n ++ lit "-0000-4000-8000-000000000000".

Definition graph : str := lit "/graph".

Definition notesStore : FileSystem :=
  [(lit "/graph/pages/notes.md", lit "- fixed in commit deadbeef")].

Definition reviewStore : FileSystem :=
  [(lit "/graph/pages/work.md", join [lit "- aaaaaaaa Review PR"; lit "- bbbbbbbb Review PR"])].

Definition propertyStore : FileSystem :=
  [(lit "/graph/pages/plan.md", lit "- draft owner: ana today")].



Definition starStore : FileSystem :=
  [(lit "/graph/pages/work.md", join [lit "* abcdef12 Target"; lit "- see abcdef12"])].

Definition starOnlyStore : FileSystem :=
  [(lit "/graph/pages/work.md", join [lit "* abcdef12 Target"; lit "- another block"])].


(** A page whose sections are set apart by lines of three dashes. *)
Definition sectionStore : FileSystem :=
  [(lit "/graph/pages/notes.md",
    join [lit "- aaaaaaaa intro"; lit "---"; lit "- bbbbbbbb section 1"; lit "---";
          lit "- cccccccc section 2"])].

Definition inboxStore : FileSystem :=
  [(lit "/graph/pages/inbox.md", join [lit "- urgent call"; lit "- urgent mail"])].

Definition urgentStore : FileSystem :=
  [(lit "/graph/pages/Urgent Matters.md", lit "- agenda");
   (lit "/graph/journals/2025_01_10.md", lit "- this is URGENT")].

Definition january10 : Date := {| year := 2025; month := 1; day := 10 |}.

(** The directories of a graph with both folders, and of one without the
    journals folder. *)
Definition graphDirs : Directories :=
  [lit "/graph"; lit "/graph/pages"; lit "/graph/journals"].

Definition pagesOnlyDirs : Directories := [lit "/graph"; lit "/graph/pages"].

(** A day of the year 12345. *)
Definition june7of12345 : Date := {| year := 12345; month := 6; day := 7 |}.

End Samples.
Import Samples.

(** ** The page tools, the journal readers and the reports *)

Module PageTools.

(** [fs.unlinkSync(p)] *)
Definition unlinkSync (fs : FileSystem) (p : str) : FileSystem :=
  filter (fun entry => negb (str_eqb p (fst entry))) fs.

(** [pages.find(p => p.name.toLowerCase() === pageName.toLowerCase())], the
    look-up of every tool that takes a page name. *)
Definition findPage (pageName : str) (pages : list LogseqPage) : option LogseqPage :=
  find (fun p => str_eqb (toLowerCase (name p)) (toLowerCase pageName)) pages.

(** The text that [create_page] and [update_page] write: a heading with the
    page name, an empty line, the body. *)
Definition pageText (pageName body : str) : str :=
  lit "# " ++ pageName ++ [newline; newline] ++ body.

(** The new text of a page file in [set_page_property]: a header is put in
    front of a text that does not start with three dashes; otherwise the
    property is added at the end of the header, which takes a closing
    marker to be found. *)
Definition withProperty (content_ propertyName propertyValue : str) : str :=
  if negb (startsWith content_ (lit "---")) then
    lit "---" ++ [newline] ++ propertyName ++ lit ": " ++ propertyValue ++ [newline]
    ++ lit "---" ++ [newline; newline] ++ content_
  else
    match indexOfFrom content_ (lit "---") 3 with
    | Some endIndex =>
        let frontMatter_ := slice 3 endIndex content_ in
        let restContent := sliceFrom (endIndex + 3) content_ in
        let newFrontMatter :=
          frontMatter_ ++ [newline] ++ propertyName ++ lit ": " ++ propertyValue in
        lit "---" ++ newFrontMatter ++ [newline] ++ lit "---" ++ restContent
    | None => content_
    end.

(** The body of a new page: the content given, or a line with the date
    when there is none or when it is empty. *)
Definition createdBody (content_ : option str) (localeDate : str) : str :=
  match content_ with
  | Some ((_ :: _) as c) => c
  | _ => lit "- Created on " ++ localeDate
  end.

(** [block.todo] taken as a condition. *)
Definition hasTodo (b : LogseqBlock) : bool := isSome (todo b).

(** The numbers that [get_system_info] prints. *)
Record SystemInfo := {
  totalPages : nat;
  regularPages : nat;
  journalPages : nat;
  totalBlocks : nat;
  totalTodos : nat
}.

(** An entry of the list [todos] of [get_todos]: the page name and the block. *)
Definition TodoItem : Type := str * LogseqBlock.

(** The two loops of [get_todos] that fill [todos]. *)
Fixpoint todosOfBlocks (pageName : str) (bs : list LogseqBlock) : list TodoItem :=
  match bs with
  | [] => []
  | b :: rest =>
      if hasTodo b then (pageName, b) :: todosOfBlocks pageName rest
      else todosOfBlocks pageName rest
  end.

Fixpoint todosOfPages (pages : list LogseqPage) : list TodoItem :=
  match pages with
  | [] => []
  | page :: rest => todosOfBlocks (name page) (blocks page) ++ todosOfPages rest
  end.

(** The keys of [grouped] are the keywords as texts. *)
Definition todo_eqb (a b : Todo) : bool := str_eqb (todoText a) (todoText b).

(** [if (!acc[status]) acc[status] = []; acc[status].push(item)]: the keys
    keep the order of their first use. *)
Fixpoint pushTo (acc : list (Todo * list TodoItem)) (status : Todo) (item : TodoItem)
  : list (Todo * list TodoItem) :=
  match acc with
  | [] => [(status, [item])]
  | (k, items) :: rest =>
      if todo_eqb k status then (k, items ++ [item]) :: rest
      else (k, items) :: pushTo rest status item
  end.

(** The [reduce] that groups the entries by status. *)
Definition groupByStatus (todos : list TodoItem) : list (Todo * list TodoItem) :=
  fold_left (fun acc item =>
               match todo (snd item) with
               | Some status => pushTo acc status item
               | None => acc
               end) todos [].

(** What [get_todos] lays out: the total, and for each status its count and
    the entries it shows, five at most. *)
Inductive TodosOutcome :=
| NoTodos
| TodosFound (total : nat) (groups : list (Todo * nat * list TodoItem)).

Inductive PageOutcome :=
| PageCreated (filePath : str)
| PageUpdated (filePath : str)
| PageDeleted (filePath : str)
| PropertySet
| PageMissing
| PageError.

Inductive PropertiesOutcome :=
| PropertiesOf (entries : list (str * str))
| NoProperties
| PropertiesPageMissing.

(** The answers of the two tools that read a journal file. *)
Inductive JournalAnswer :=
| JournalText (content_ : str)
| NoJournalEntry
| JournalReadError.

Section WithGraph.

Variable uuidv4 : nat -> str.
Variable LOGSEQ_PATH : str.

Definition get_system_info (fs : FileSystem) (n : nat) : SystemInfo :=
  let (pages, _) := getAllPages uuidv4 LOGSEQ_PATH fs n in
  let journalPages_ := length (filter isJournal pages) in
  {| totalPages := length pages;
     regularPages := length pages - journalPages_;
     journalPages := journalPages_;
     totalBlocks := fold_left (fun sum page => sum + length (blocks page)) pages 0;
     totalTodos :=
       fold_left (fun sum page => sum + length (filter hasTodo (blocks page))) pages 0 |}.

Definition get_todos (fs : FileSystem) (n : nat) : TodosOutcome :=
  let (pages, _) := getAllPages uuidv4 LOGSEQ_PATH fs n in
  let todos := todosOfPages pages in
  match todos with
  | [] => NoTodos
  | _ :: _ =>
      TodosFound (length todos)
        (map (fun group => (fst group, length (snd group), firstn 5 (snd group)))
             (groupByStatus todos))
  end.

(** [create_page], for a page name that is a plain file name; [localeDate] is
    the text of [new Date().toLocaleDateString()].  The file is written
    whether or not it exists; the write that throws is caught, the answer is
    an error and the store is as before. *)
Definition create_page (dirs : Directories) (fs : FileSystem) (pageName : str)
    (content_ : option str) (localeDate : str) : PageOutcome * FileSystem :=
  let filePath := pathJoin (pagesDir LOGSEQ_PATH) (pageName ++ lit ".md") in
  let pageContent := pageText pageName (createdBody content_ localeDate) in
  match writeFile dirs fs filePath pageContent with
  | Some fs' => (PageCreated filePath, fs')
  | None => (PageError, fs)
  end.

Definition update_page (fs : FileSystem) (n : nat) (pageName content_ : str)
  : PageOutcome * FileSystem :=
  let (pages, _) := getAllPages uuidv4 LOGSEQ_PATH fs n in
  match findPage pageName pages with
  | None => (PageMissing, fs)
  | Some page =>
      (PageUpdated (path page), writeFileSync fs (path page) (pageText pageName content_))
  end.

Definition delete_page (fs : FileSystem) (n : nat) (pageName : str)
  : PageOutcome * FileSystem :=
  let (pages, _) := getAllPages uuidv4 LOGSEQ_PATH fs n in
  match findPage pageName pages with
  | None => (PageMissing, fs)
  | Some page => (PageDeleted (path page), unlinkSync fs (path page))
  end.

Definition get_page_properties (fs : FileSystem) (n : nat) (pageName : str)
  : PropertiesOutcome :=
  let (pages, _) := getAllPages uuidv4 LOGSEQ_PATH fs n in
  match findPage pageName pages with
  | None => PropertiesPageMissing
  | Some page =>
      match pageProperties page with
      | Some ((_ :: _) as entries) => PropertiesOf entries
      | _ => NoProperties
      end
  end.

Definition set_page_property (fs : FileSystem) (n : nat)
    (pageName propertyName propertyValue : str) : PageOutcome * FileSystem :=
  let (pages, _) := getAllPages uuidv4 LOGSEQ_PATH fs n in
  match findPage pageName pages with
  | None => (PageMissing, fs)
  | Some page =>
      match readFileSync fs (path page) with
      | Some content_ =>
          (PropertySet,
           writeFileSync fs (path page) (withProperty content_ propertyName propertyValue))
      | None => (PageError, fs)
      end
  end.

(** [get_journal_by_date]: the text of the journal file of that date, if
    there is one; the read throws, and the answer is an error, when the path
    is a directory. *)
Definition get_journal_by_date (dirs : Directories) (fs : FileSystem) (date : str)
  : JournalAnswer :=
  let filePath := pathJoin (journalsDir LOGSEQ_PATH) (date ++ lit ".md") in
  if negb (pathExists dirs fs filePath) then NoJournalEntry
  else match readFileSync fs filePath with
       | Some content_ => JournalText content_
       | None => JournalReadError
       end.

(** [get_today_journal], [today] being the current date. *)
Definition get_today_journal (dirs : Directories) (fs : FileSystem) (today : Date)
  : JournalAnswer :=
  let filePath := pathJoin (journalsDir LOGSEQ_PATH) (dateStr today ++ lit ".md") in
  if negb (pathExists dirs fs filePath) then NoJournalEntry
  else match readFileSync fs filePath with
       | Some content_ => JournalText content_
       | None => JournalReadError
       end.

(** [get_block]: the page and the block that the two loops stop at. *)
Definition get_block (fs : FileSystem) (n : nat) (blockUuid : str)
  : option (LogseqPage * LogseqBlock) :=
  let (pages, _) := getAllPages uuidv4 LOGSEQ_PATH fs n in
  findTarget blockUuid pages.

End WithGraph.

End PageTools.
Import PageTools.

(** ** Vocabulary of the further statements *)

Module PageStatements.

(** The blocks of the graph with their pages, in reading order. *)
Definition allBlocks (pages : list LogseqPage) : list (LogseqPage * LogseqBlock) :=
  flat_map (fun page => map (pair page) (blocks page)) pages.

(** The query occurs in the text, up to the case of the letters. *)
Definition occursIn (query s : str) : bool := isSome (matchFrom query s 0).

(** The query occurs in the name of the page, in its title or in one of its
    blocks. *)
Definition pageMatches (query : str) (page : LogseqPage) : bool :=
  occursIn query (name page)
  || (negb (isEmpty (title page)) && occursIn query (title page))
  || existsb (fun b => occursIn query (content b)) (blocks page).

(** The block with another level. *)
Definition withLevel (lvl : nat) (b : LogseqBlock) : LogseqBlock :=
  {| uuid := uuid b; content := content b; level := lvl; todo := todo b;
     priority := priority b; scheduled := scheduled b; deadline := deadline b;
     properties := properties b; refs := refs b |}.

(** The name that [readPageFile] gives to the page of a file. *)
Definition pageNameOf (filePath : str) : str := basename filePath (extname filePath).

(** The text is a plain file name: not empty, without a slash. *)
Definition isFileName (s : str) : bool :=
  negb (isEmpty s) && forallb (notChar "/") s.

(** The file of the journal page of a date, and the text that
    [create_journal_page] writes to it. *)
Definition journalFile (root : str) (d : Date) : str :=
  pathJoin (journalsDir root) (dateStr d ++ lit ".md").

Definition journalText (d : Date) (localeDate : str) : str :=
  lit "# " ++ dateStr d ++ [newline; newline]
  ++ lit "- Journal entry for " ++ localeDate ++ [newline]
  ++ lit "- TODO Add your thoughts for today" ++ [newline].

(** The name that Logseq gives to the journal file of a day: year, month and
    day in four, two and two digits, separated by underscores. *)
Definition underscoreDate (y m d : nat) : str :=
  pad 4 y ++ lit "_" ++ pad 2 m ++ lit "_" ++ pad 2 d.

(** The file of a page of the pages directory. *)
Definition pageFile (root pageName : str) : str :=
  root ++ lit "/pages/" ++ pageName ++ lit ".md".

(** A property name that a header line can carry: not empty, without a blank
    at either end, without a colon or a line break, and not the name
    [__proto__], which an object does not take as a key. *)
Definition isPropertyKey (key : str) : bool :=
  negb (isEmpty key) && headOk key && headOk (rev key)
  && forallb (notChar ":") key && noNewline key
  && negb (str_eqb key (lit "__proto__")).

(** The header that [set_page_property] puts in front of a text. *)
Definition headerOf (key value : str) : str :=
  lit "---" ++ [newline] ++ key ++ lit ": " ++ value ++ [newline] ++ lit "---".

(** The groups built so far by [get_todos]: no status twice, no group empty,
    every entry under its own status. *)
Definition wellGrouped (acc : list (Todo * list TodoItem)) : Prop :=
  NoDup (map fst acc)
  /\ Forall (fun group =>
               snd group <> []
               /\ Forall (fun item : TodoItem => todo (snd item) = Some (fst group))
                         (snd group)) acc.

Definition groupedCount (acc : list (Todo * list TodoItem)) : nat :=
  list_sum (map (fun group => length (snd group)) acc).

(** The entries of a status, in reading order. *)
Definition withStatus (status : Todo) (todos : list TodoItem) : list TodoItem :=
  filter (fun item =>
            match todo (snd item) with
            | Some k => todo_eqb k status
            | None => false
            end) todos.

(** The entries that the groups hold under a status. *)
Definition itemsOf (acc : list (Todo * list TodoItem)) (status : Todo) : list TodoItem :=
  match find (fun group => todo_eqb (fst group) status) acc with
  | Some group => snd group
  | None => []
  end.

(** The number of entries that a status counts in the answer of [get_todos]. *)
Definition groupCount (group : Todo * nat * list TodoItem) : nat := snd (fst group).
Definition groupStatus (group : Todo * nat * list TodoItem) : Todo := fst (fst group).

End PageStatements.
Import PageStatements.

Module PageSamples.

Definition projectStore : FileSystem :=
  [(lit "/graph/pages/Project.md", join [lit "- 11111111 TODO write"; lit "- 22222222 DONE read"]);
   (lit "/graph/pages/notes.txt", lit "- not a note");
   (lit "/graph/journals/2025_01_10.md", lit "- 33333333 TODO call")].

(** A page file in a folder of the pages directory. *)
Definition nestedStore : FileSystem :=
  [(lit "/graph/pages/projects/alpha.md", lit "- kickoff")].

(** A page whose header is not closed. *)
Definition draftStore : FileSystem :=
  [(lit "/graph/pages/draft.md", join [lit "---"; lit "title: Draft"; lit "- body"])].

(** A page that starts with three dashes and has no other. *)
Definition openHeaderStore : FileSystem :=
  [(lit "/graph/pages/log.md", join [lit "---"; lit "- alpha"; lit "- beta"])].

(** A page with a closed header. *)
Definition headedText : str :=
  join [lit "---"; lit "title: Headed"; lit "---"; lit "- body"].

Definition headedStore : FileSystem := [(lit "/graph/pages/headed.md", headedText)].

(** A graph that has the journals folder only. *)
Definition journalStore : FileSystem :=
  [(lit "/graph/journals/2025_01_10.md", lit "- 33333333 TODO call")].

Definition journalsOnlyDirs : Directories := [lit "/graph"; lit "/graph/journals"].

End PageSamples.
Import PageSamples.


(** * Properties *)

#[local] Arguments Ascii.eqb : simpl never.
#[local] Arguments lit : simpl never.

(** ** Facts about the string primitives *)

Section StringFacts.

Lemma str_eqb_refl (a : str) : str_eqb a a = true.
Proof.
  induction a as [|c a IH]; simpl; [reflexivity|].
  now rewrite Ascii.eqb_refl, IH.
Qed.

Lemma str_eqb_eq (a b : str) : str_eqb a b = true <-> a = b.
Proof.
  split.
  - revert b; induction a as [|x a IH]; intros [|y b]; simpl; try discriminate; auto.
    intros H; apply andb_true_iff in H as [Hx Hr].
    apply Ascii.eqb_eq in Hx; subst; f_equal; auto.
  - intros ->; apply str_eqb_refl.
Qed.

Lemma span_app (p : ascii -> bool) (s : str) :
  s = fst (span p s) ++ snd (span p s).
Proof.
  induction s as [|c s IH]; simpl; [reflexivity|].
  destruct (p c); simpl; [|reflexivity].
  destruct (span p s) as [a b]; simpl in *; now f_equal.
Qed.

Lemma span_all (p : ascii -> bool) (s : str) : forallb p (fst (span p s)) = true.
Proof.
  induction s as [|c s IH]; simpl; [reflexivity|].
  destruct (p c) eqn:E; simpl; [|reflexivity].
  destruct (span p s) as [a b]; simpl in *; now rewrite E.
Qed.

Lemma span_stop (p : ascii -> bool) (s : str) :
  match snd (span p s) with c :: _ => p c = false | [] => True end.
Proof.
  induction s as [|c s IH]; simpl; [exact I|].
  destruct (p c) eqn:E; simpl; [|exact E].
  destruct (span p s) as [a b]; simpl in *; exact IH.
Qed.

Lemma stripPrefix_app (p r : str) : stripPrefix p (p ++ r) = Some r.
Proof.
  induction p as [|c p IH]; simpl; [now destruct r|].
  now rewrite Ascii.eqb_refl.
Qed.

Lemma stripPrefix_Some (p s r : str) : stripPrefix p s = Some r -> s = p ++ r.
Proof.
  revert s; induction p as [|c p IH]; intros s; simpl.
  - destruct s; intros [= <-]; reflexivity.
  - destruct s as [|d s]; [discriminate|].
    destruct (Ascii.eqb c d) eqn:E; [|discriminate].
    apply Ascii.eqb_eq in E; subst; intros H; f_equal; auto.
Qed.

Lemma startsWith_app (p r : str) : startsWith (p ++ r) p = true.
Proof. unfold startsWith; now rewrite stripPrefix_app. Qed.

Lemma includes_startsWith (s sub : str) :
  startsWith s sub = true -> includes s sub = true.
Proof. intros H; destruct s; simpl; now rewrite H. Qed.

Lemma includes_app (a sub b : str) : includes (a ++ sub ++ b) sub = true.
Proof.
  induction a as [|c a IH]; simpl.
  - apply includes_startsWith, startsWith_app.
  - rewrite IH; apply orb_true_r.
Qed.

End StringFacts.

(** ** Facts about the store and the page list *)

Section StoreFacts.

Variable uuidv4 : nat -> str.

Lemma readPageFile_path (fs : FileSystem) (p : str) (n n' : nat) (page : LogseqPage) :
  readPageFile uuidv4 fs p n = (Some page, n') ->
  path page = p /\ exists text, readFileSync fs p = Some text.
Proof.
  unfold readPageFile.
  destruct (readFileSync fs p) as [text|]; [|discriminate].
  destruct (frontMatter text) as [props md].
  destruct (parseBlocks uuidv4 md n) as [bs n1]; simpl.
  intros [= <- _]; simpl; eauto.
Qed.

Lemma readPages_readable (fs : FileSystem) (files : list str) (n : nat) (page : LogseqPage) :
  In page (fst (readPages uuidv4 fs files n)) ->
  exists text, readFileSync fs (path page) = Some text.
Proof.
  revert n; induction files as [|p files IH]; intros n; simpl; [tauto|].
  destruct (readPageFile uuidv4 fs p n) as [read n1] eqn:E.
  specialize (IH n1).
  destruct (readPages uuidv4 fs files n1) as [pages n2]; simpl in *.
  destruct read as [pg|]; simpl; [|exact IH].
  intros [<-|H]; [|auto].
  apply readPageFile_path in E as [-> H]; exact H.
Qed.

Lemma getAllPages_readable (root : str) (fs : FileSystem) (n : nat) (page : LogseqPage) :
  In page (fst (getAllPages uuidv4 root fs n)) ->
  exists text, readFileSync fs (path page) = Some text.
Proof. apply readPages_readable. Qed.

End StoreFacts.

(** ** Facts about the two reconciliation loops *)

Section ReconcilerFacts.

Lemma read_after_write (fs : FileSystem) (p text : str) :
  readFileSync (writeFileSync fs p text) p = Some text.
Proof.
  induction fs as [|[q old] fs IH]; simpl.
  - now rewrite str_eqb_refl.
  - destruct (str_eqb p q) eqn:E; simpl; rewrite E; auto.
Qed.


Lemma updateLines_None (blockUuid payload : str) (lines : list str) :
  (forall line, In line lines ->
     lineIncludesUuid blockUuid line = true -> dashBulletMatch line = None) ->
  updateLines blockUuid payload lines = None.
Proof.
  induction lines as [|line rest IH]; intros H; simpl; [reflexivity|].
  rewrite IH by (intros; apply H; simpl; auto).
  destruct (lineIncludesUuid blockUuid line) eqn:E; [|reflexivity].
  rewrite (H line); simpl; auto.
Qed.

Lemma updateLines_Some (blockUuid payload : str) (lines lines' : list str) :
  updateLines blockUuid payload lines = Some lines' ->
  exists before line after bullet rest,
    lines = before ++ line :: after
    /\ lineIncludesUuid blockUuid line = true
    /\ dashBulletMatch line = Some (bullet, rest)
    /\ lines' = before ++ (bullet ++ payload) :: after
    /\ (forall l, In l before ->
          lineIncludesUuid blockUuid l = true -> dashBulletMatch l = None).
Proof.
  revert lines'; induction lines as [|line rest IH]; intros lines'; simpl; [discriminate|].
  destruct (lineIncludesUuid blockUuid line) eqn:E.
  - destruct (dashBulletMatch line) as [[bullet tail]|] eqn:D.
    + intros [= <-]; exists [], line, rest, bullet, tail; simpl; intuition.
    + destruct (updateLines blockUuid payload rest) as [r|]; [|discriminate].
      intros [= <-].
      destruct (IH r eq_refl) as (b & l & a & bu & tl & -> & ? & ? & -> & Hb).
      exists (line :: b), l, a, bu, tl; repeat split; auto.
      intros l0 [<-|Hin]; auto.
  - destruct (updateLines blockUuid payload rest) as [r|]; [|discriminate].
    intros [= <-].
    destruct (IH r eq_refl) as (b & l & a & bu & tl & -> & ? & ? & -> & Hb).
    exists (line :: b), l, a, bu, tl; repeat split; auto.
    intros l0 [<-|Hin]; [congruence|auto].
Qed.

Lemma updatePages_not_found (fs : FileSystem) (blockUuid payload : str)
    (pages : list LogseqPage) :
  (forall page, In page pages -> exists text, readFileSync fs (path page) = Some text) ->
  (forall page text line,
     In page pages -> readFileSync fs (path page) = Some text -> In line (split text) ->
     lineIncludesUuid blockUuid line = true -> dashBulletMatch line = None) ->
  updatePages fs blockUuid payload pages = (UpdateNotFound, fs).
Proof.
  induction pages as [|page rest IH]; intros Hread Hno; simpl; [reflexivity|].
  destruct (Hread page) as [text Ht]; [simpl; auto|].
  rewrite Ht, updateLines_None.
  - apply IH; intros; [apply Hread|eapply Hno]; simpl; eauto.
  - intros line Hin; apply (Hno page text line); simpl; auto.
Qed.

Lemma updatePages_Updated (fs fs' : FileSystem) (blockUuid payload pageName : str)
    (pages : list LogseqPage) :
  updatePages fs blockUuid payload pages = (Updated pageName, fs') ->
  exists page text before line after bullet rest,
    In page pages /\ name page = pageName
    /\ readFileSync fs (path page) = Some text
    /\ split text = before ++ line :: after
    /\ lineIncludesUuid blockUuid line = true
    /\ dashBulletMatch line = Some (bullet, rest)
    /\ fs' = writeFileSync fs (path page) (join (before ++ (bullet ++ payload) :: after))
    /\ (forall l, In l before ->
          lineIncludesUuid blockUuid l = true -> dashBulletMatch l = None).
Proof.
  induction pages as [|page rest IH]; simpl; [discriminate|].
  destruct (readFileSync fs (path page)) as [text|] eqn:Ht; [|discriminate].
  destruct (updateLines blockUuid payload (split text)) as [lines'|] eqn:U.
  - intros [= <- <-].
    destruct (updateLines_Some _ _ _ _ U) as (b & l & a & bu & tl & Hs & Hi & Hd & -> & Hb).
    exists page, text, b, l, a, bu, tl; repeat split; auto.
  - intros H; destruct (IH H) as (pg & tx & b & l & a & bu & tl & Hin & rest').
    exists pg, tx, b, l, a, bu, tl; split; auto.
Qed.

Lemma updatePages_unchanged (fs fs' : FileSystem) (blockUuid payload : str)
    (pages : list LogseqPage) :
  updatePages fs blockUuid payload pages = (UpdateNotFound, fs') -> fs' = fs.
Proof.
  induction pages as [|page rest IH]; simpl; [now intros [= <-]|].
  destruct (readFileSync fs (path page)) as [text|]; [|discriminate].
  destruct (updateLines blockUuid payload (split text)); [discriminate|exact IH].
Qed.

Lemma find_None {A : Type} (f : A -> bool) (l : list A) :
  (forall x, In x l -> f x = false) -> find f l = None.
Proof.
  induction l as [|x l IH]; intros H; simpl; [reflexivity|].
  rewrite (H x) by (simpl; auto); apply IH; intros; apply H; simpl; auto.
Qed.

Lemma findTarget_None (blockUuid : str) (pages : list LogseqPage) :
  (forall page block,
     In page pages -> In block (blocks page) -> idMatches blockUuid block = false) ->
  findTarget blockUuid pages = None.
Proof.
  induction pages as [|page rest IH]; intros H; simpl; [reflexivity|].
  rewrite find_None by (intros; eapply H; simpl; eauto).
  apply IH; intros; eapply H; simpl; eauto.
Qed.

Lemma findIndex_None (test : str -> bool) (lines : list str) :
  (forall line, In line lines -> test line = false) -> findIndex test lines = None.
Proof.
  induction lines as [|l lines IH]; intros H; simpl; [reflexivity|].
  rewrite (H l) by (simpl; auto).
  rewrite IH; [reflexivity|]; intros; apply H; simpl; auto.
Qed.



Lemma findLine_None (strategies : list (string * (str -> bool))) (lines : list str) :
  (forall strategyName test line,
     In (strategyName, test) strategies -> In line lines -> test line = false) ->
  findLine strategies lines = None.
Proof.
  induction strategies as [|[nm test] rest IH]; intros H; simpl; [reflexivity|].
  rewrite findIndex_None by (intros; eapply H; simpl; eauto).
  apply IH; intros; eapply H; simpl; eauto.
Qed.


Lemma splice1_middle (before after : list str) (line : str) :
  splice1 (length before) (before ++ line :: after) = before ++ after.
Proof.
  unfold splice1; induction before as [|l before IH]; simpl; [reflexivity|].
  now f_equal.
Qed.

End ReconcilerFacts.

(** ** Facts about the loop of [update_block] in version 2.1.0 *)

Section ReconcilerFactsV3.




End ReconcilerFactsV3.

(** ** Lines and text *)

Section LineFacts.

Lemma split_line (l rest : str) :
  noNewline l = true -> split (l ++ newline :: rest) = l :: split rest.
Proof.
  induction l as [|c l IH]; simpl; intros H.
  - reflexivity.
  - apply andb_true_iff in H as [Hc Hl].
    destruct (Ascii.eqb c newline); [discriminate|].
    now rewrite IH.
Qed.

Lemma split_single (l : str) : noNewline l = true -> split l = [l].
Proof.
  induction l as [|c l IH]; simpl; intros H; [reflexivity|].
  apply andb_true_iff in H as [Hc Hl].
  destruct (Ascii.eqb c newline); [discriminate|].
  now rewrite IH.
Qed.



End LineFacts.

(** ** Facts about trimming and the steps of the parser *)

Section ParserFacts.

Lemma dropWhile_headOk (s : str) : headOk (dropWhile isSpace s) = true.
Proof.
  unfold dropWhile; pose proof (span_stop isSpace s) as H.
  destruct (snd (span isSpace s)); simpl; [reflexivity|now rewrite H].
Qed.

Lemma dropWhile_id (s : str) : headOk s = true -> dropWhile isSpace s = s.
Proof.
  unfold dropWhile; destruct s as [|c s]; simpl; [reflexivity|].
  destruct (isSpace c); [discriminate|reflexivity].
Qed.

Lemma dropWhile_cons (p : ascii -> bool) (c : ascii) (s : str) :
  p c = true -> dropWhile p (c :: s) = dropWhile p s.
Proof.
  intros H; unfold dropWhile; simpl; rewrite H; now destruct (span p s).
Qed.

Lemma dropWhile_suffix (p : ascii -> bool) (s : str) : exists a, s = a ++ dropWhile p s.
Proof. exists (fst (span p s)); apply span_app. Qed.

Lemma headOk_rev_suffix (a b : str) :
  headOk (rev (a ++ b)) = true -> headOk (rev b) = true.
Proof.
  rewrite rev_app_distr; destruct (rev b); simpl; auto.
Qed.

Lemma trim_Trimmed (s : str) : Trimmed (trim s).
Proof.
  unfold Trimmed, trim, trimEnd, trimStart; split.
  - pose proof (dropWhile_headOk s) as H.
    destruct (dropWhile_suffix isSpace (rev (dropWhile isSpace s))) as [a Ha].
    apply (f_equal (@rev ascii)) in Ha.
    rewrite rev_involutive, rev_app_distr in Ha.
    rewrite Ha in H.
    destruct (rev (dropWhile isSpace (rev (dropWhile isSpace s)))); simpl in *; auto.
  - rewrite rev_involutive; apply dropWhile_headOk.
Qed.

Lemma trim_id (s : str) : Trimmed s -> trim s = s.
Proof.
  intros [H1 H2]; unfold trim, trimEnd, trimStart.
  rewrite (dropWhile_id s H1), (dropWhile_id (rev s) H2); apply rev_involutive.
Qed.

(** What follows a prefix of a trimmed text, once its leading blanks are
    dropped, is trimmed. *)
Lemma Trimmed_rest (s a r : str) :
  Trimmed s -> s = a ++ r -> Trimmed (dropWhile isSpace r).
Proof.
  intros [_ H2] ->; split; [apply dropWhile_headOk|].
  destruct (dropWhile_suffix isSpace r) as [b Hb].
  rewrite Hb, app_assoc in H2; eapply headOk_rev_suffix; eassumption.
Qed.

Lemma takeN_app (n : nat) (p : ascii -> bool) (s a b : str) :
  takeN n p s = Some (a, b) -> s = a ++ b /\ length a = n /\ forallb p a = true.
Proof.
  revert s a b; induction n as [|n IH]; intros s a b; simpl.
  - intros [= <- <-]; auto.
  - destruct s as [|c s]; [discriminate|].
    destruct (p c) eqn:E; [|discriminate].
    destruct (takeN n p s) as [[a' b']|] eqn:T; [|discriminate].
    intros [= <- <-]; destruct (IH _ _ _ T) as (-> & <- & H).
    simpl; rewrite E; auto.
Qed.

Lemma takeN_exact (n : nat) (p : ascii -> bool) (a r : str) :
  length a = n -> forallb p a = true -> takeN n p (a ++ r) = Some (a, r).
Proof.
  intros <-; induction a as [|c a IH]; simpl; [reflexivity|].
  intros H; apply andb_true_iff in H as [-> Ha]; now rewrite IH.
Qed.

Lemma takeN_stopped (n : nat) (p : ascii -> bool) (a r : str) (c : ascii) :
  length a < n -> p c = false -> takeN n p (a ++ c :: r) = None.
Proof.
  revert a; induction n as [|n IH]; intros a Hl Hc; [lia|].
  destruct a as [|x a]; simpl in *.
  - now rewrite Hc.
  - destruct (p x); [|reflexivity]; rewrite IH; auto; lia.
Qed.

Lemma blanksThenRest_Some (s rest : str) :
  blanksThenRest s = Some rest -> rest = dropWhile isSpace s /\ dotsToEnd rest = true.
Proof.
  unfold blanksThenRest, dropWhile.
  destruct (span isSpace s) as [[|c a] r]; [discriminate|]; simpl.
  destruct (dotsToEnd r) eqn:E; [|discriminate]; intros [= <-]; auto.
Qed.

Lemma blanksThenRest_blank (s : str) :
  headOk s = true -> dotsToEnd s = true -> blanksThenRest (lit " " ++ s) = Some s.
Proof.
  intros H D; unfold blanksThenRest; cbv [lit list_ascii_of_string]; simpl.
  fold (dropWhile isSpace s).
  pose proof (dropWhile_id s H) as Hd; unfold dropWhile in Hd.
  destruct (span isSpace s) as [a b] eqn:E; simpl in Hd; subst b.
  pose proof (span_app isSpace s) as Hs; rewrite E in Hs; simpl in Hs.
  assert (a = []) as -> by (destruct a; [reflexivity|];
    apply (f_equal (@length ascii)) in Hs; rewrite length_app in Hs; simpl in Hs; lia).
  now rewrite D.
Qed.

Lemma firstMatch_suffix {A : Type} (at_ : str -> option A) (s : str) (r : A) :
  firstMatch at_ s = Some r -> exists pre s', s = pre ++ s' /\ at_ s' = Some r.
Proof.
  induction s as [|c s IH]; simpl.
  - destruct (at_ []) eqn:E; [|discriminate]; intros [= <-]; exists [], []; auto.
  - destruct (at_ (c :: s)) eqn:E.
    + intros [= <-]; exists [], (c :: s); auto.
    + intros H; destruct (IH H) as (pre & s' & -> & H'); exists (c :: pre), s'; auto.
Qed.

(** Without a match a [g] replacement leaves the text as it is, and
    [matchAll] has no capture. *)
Lemma scan_no_match {A : Type} (at_ : str -> option (A * str)) (s : str) :
  firstMatch at_ s = None -> scan at_ 0 s = ([], s).
Proof.
  induction s as [|c s IH]; simpl; [reflexivity|].
  destruct (at_ (c :: s)); [discriminate|].
  intros H; now rewrite (IH H).
Qed.

End ParserFacts.

(** ** The steps of [parseBlocks] on one line *)

Section LineSteps.

Lemma identityOf_rest (uuidv4 : nat -> str) (s : str) (n : nat) :
  exists uid n1, identityOf uuidv4 s n = (uid, lineRest s, n1).
Proof.
  unfold identityOf, lineRest, generateUUID.
  destruct (fullUuidMatch s) as [[u rest]|]; [eauto|].
  destruct (shortUuidMatch s) as [[u rest]|]; eauto.
Qed.

Lemma blockOf_Some (uid : str) (lvl : nat) (s : str) (b : LogseqBlock) :
  blockOf uid lvl s = Some b ->
  uuid b = uid /\ level b = lvl
  /\ content b = content_clean (remainder s) /\ content b <> []
  /\ todo b = fst (todoStage s)
  /\ priority b = fst (priorityStage (snd (todoStage s)))
  /\ scheduled b = scheduledMatch (remainder s)
  /\ deadline b = deadlineMatch (remainder s)
  /\ properties b = orUndefined (objectOf (matchAll propertyAt (remainder s)))
  /\ refs b = orUndefined (referencesOf (remainder s)).
Proof.
  unfold blockOf, remainder, referencesOf.
  destruct (todoStage s) as [t s1]; simpl.
  destruct (priorityStage s1) as [p s2]; simpl.
  destruct (content_clean s2) eqn:E; simpl; [discriminate|].
  intros [= <-]; simpl; repeat split; auto; discriminate.
Qed.

Lemma parseLine_Some (uuidv4 : nat -> str) (line : str) (n n' : nat) (b : LogseqBlock) :
  parseLine uuidv4 line n = (Some b, n') ->
  exists uid,
    blockOf uid (length (takeWhile isSpace line) / 2) (lineRest (stripBullet (trim line)))
    = Some b.
Proof.
  unfold parseLine.
  destruct (isEmpty (trim line)); [discriminate|].
  destruct (startsWith (trim line) (lit "#")); [discriminate|].
  destruct (identityOf_rest uuidv4 (stripBullet (trim line)) n) as (uid & n1 & ->).
  intros [= H _]; eauto.
Qed.

Lemma stripBullet_Trimmed (t : str) : Trimmed t -> Trimmed (stripBullet t).
Proof.
  intros H; destruct t as [|c r]; simpl; [exact H|].
  destruct (isBullet c); [|exact H].
  apply (Trimmed_rest (c :: r) [c] r H eq_refl).
Qed.

Lemma fullUuidMatch_Some (s u rest : str) :
  fullUuidMatch s = Some (u, rest) ->
  exists r, s = u ++ r /\ rest = dropWhile isSpace r
            /\ length u = 36 /\ forallb isUuidChar u = true.
Proof.
  unfold fullUuidMatch.
  destruct (takeN 36 isUuidChar s) as [[u' r]|] eqn:T; [|discriminate].
  destruct (blanksThenRest r) as [rest'|] eqn:B; [|discriminate].
  intros [= <- <-].
  apply takeN_app in T as (-> & L & A); apply blanksThenRest_Some in B as (-> & _).
  eauto.
Qed.

Lemma shortUuidMatch_Some (s u rest : str) :
  shortUuidMatch s = Some (u, rest) ->
  exists r, s = u ++ r /\ rest = dropWhile isSpace r
            /\ length u = 8 /\ forallb isHex u = true.
Proof.
  unfold shortUuidMatch.
  destruct (takeN 8 isHex s) as [[u' r]|] eqn:T; [|discriminate].
  destruct (blanksThenRest r) as [rest'|] eqn:B; [|discriminate].
  intros [= <- <-].
  apply takeN_app in T as (-> & L & A); apply blanksThenRest_Some in B as (-> & _).
  eauto.
Qed.

Lemma lineRest_Trimmed (s : str) : Trimmed s -> Trimmed (lineRest s).
Proof.
  intros H; unfold lineRest.
  destruct (fullUuidMatch s) as [[u rest]|] eqn:F.
  - apply fullUuidMatch_Some in F as (r & -> & -> & _); eapply Trimmed_rest; eauto.
  - destruct (shortUuidMatch s) as [[u rest]|] eqn:S; [|exact H].
    apply shortUuidMatch_Some in S as (r & -> & -> & _); eapply Trimmed_rest; eauto.
Qed.

Lemma todoAlternatives_Some (ws : list Todo) (s rest : str) (k : Todo) :
  todoAlternatives ws s = Some (k, rest) ->
  exists r, s = todoText k ++ r /\ rest = dropWhile isSpace r /\ dotsToEnd rest = true.
Proof.
  induction ws as [|w ws IH]; simpl; [discriminate|].
  destruct (stripPrefix (todoText w) s) as [r|] eqn:P; [|exact IH].
  destruct (blanksThenRest r) as [rest'|] eqn:B; [|exact IH].
  intros [= <- <-].
  apply stripPrefix_Some in P; apply blanksThenRest_Some in B as [-> D]; eauto.
Qed.

Lemma cookieAt_Some (s r : str) (p : Priority) :
  cookieAt s = Some (p, r) -> s = lit "[#" ++ priorityLetter p :: lit "]" ++ r.
Proof.
  unfold cookieAt.
  destruct (stripPrefix (lit "[#") s) as [[|x r1]|] eqn:P; try discriminate.
  destruct (priorityOfChar x) as [q|] eqn:Q; [|discriminate].
  destruct (stripPrefix (lit "]") r1) as [r'|] eqn:P1; [|discriminate].
  intros [= <- <-].
  apply stripPrefix_Some in P, P1; subst.
  f_equal; unfold priorityOfChar in Q.
  destruct (Ascii.eqb x "A") eqn:EA;
    [apply Ascii.eqb_eq in EA; injection Q as <-; now subst|].
  destruct (Ascii.eqb x "B") eqn:EB;
    [apply Ascii.eqb_eq in EB; injection Q as <-; now subst|].
  destruct (Ascii.eqb x "C") eqn:EC;
    [apply Ascii.eqb_eq in EC; injection Q as <-; now subst|].
  discriminate.
Qed.

Lemma priorityMatch_Some (s rest : str) (p : Priority) :
  priorityMatch s = Some (p, rest) ->
  exists before r,
    s = before ++ lit "[#" ++ priorityLetter p :: lit "]" ++ r
    /\ rest = dropWhile isSpace r /\ dotsToEnd rest = true.
Proof.
  unfold priorityMatch; intros H.
  apply firstMatch_suffix in H as (pre & s' & -> & H).
  unfold priorityAt in H.
  destruct (cookieAt s') as [[q r]|] eqn:Ck; [|discriminate].
  destruct (dotsToEnd (dropWhile isSpace r)) eqn:D; [|discriminate].
  injection H as <- <-; apply cookieAt_Some in Ck; subst s'.
  exists pre, r; auto.
Qed.

Lemma remainder_Trimmed (s : str) : Trimmed s -> Trimmed (remainder s).
Proof.
  intros H; unfold remainder, todoStage, priorityStage.
  assert (Trimmed (snd (match todoMatch s with
                        | Some (t, rest) => (Some t, rest)
                        | None => (None, s)
                        end))) as H1.
  { destruct (todoMatch s) as [[k rest]|] eqn:T; simpl; [|exact H].
    apply todoAlternatives_Some in T as (r & -> & -> & _).
    eapply Trimmed_rest; eauto. }
  set (s1 := snd _) in *.
  destruct (priorityMatch s1) as [[p rest]|] eqn:P; simpl; [|exact H1].
  apply priorityMatch_Some in P as (pre & r & Hs & -> & _).
  eapply (Trimmed_rest s1 (pre ++ lit "[#" ++ priorityLetter p :: lit "]") r H1).
  rewrite Hs, <- !app_assoc; reflexivity.
Qed.

Lemma remainderOf_Trimmed (line : str) : Trimmed (remainderOf line).
Proof.
  apply remainder_Trimmed, lineRest_Trimmed, stripBullet_Trimmed, trim_Trimmed.
Qed.

(** Without any of the four tokens the cleaning leaves a trimmed text as it is. *)
Lemma content_clean_id (s : str) : Trimmed s -> hasToken s = false -> content_clean s = s.
Proof.
  unfold hasToken, content_clean, removeAll; intros T H.
  apply orb_false_iff in H as [H Hc]; apply orb_false_iff in H as [H Hp].
  apply orb_false_iff in H as [Hs Hd].
  destruct (firstMatch scheduledAt s) eqn:E1; [discriminate|].
  destruct (firstMatch deadlineAt s) eqn:E2; [discriminate|].
  destruct (firstMatch propertyAt s) eqn:E3; [discriminate|].
  destruct (firstMatch cookieAt s) eqn:E4; [discriminate|].
  rewrite (scan_no_match _ _ E1); simpl.
  rewrite (scan_no_match _ _ E2); simpl.
  rewrite (scan_no_match _ _ E3); simpl.
  rewrite (scan_no_match _ _ E4); simpl.
  apply trim_id, T.
Qed.







End LineSteps.

(** ** The passes of the [g] patterns *)

Section ScanFacts.

Context {A : Type} (at_ : str -> option (A * str)).

Lemma scan_skip (m rest : str) : scan at_ (length m) (m ++ rest) = scan at_ 0 rest.
Proof. induction m as [|c m IH]; simpl; auto. Qed.

(** The two equations of a pass: a match is cut out and the pass goes on
    after it; without a match the character is kept. *)
Lemma scan_match (c : ascii) (m rest : str) (a : A) :
  at_ (c :: m ++ rest) = Some (a, rest) ->
  scan at_ 0 (c :: m ++ rest) = (a :: fst (scan at_ 0 rest), snd (scan at_ 0 rest)).
Proof.
  intros H; simpl; rewrite H, length_app, Nat.add_sub, scan_skip.
  now destruct (scan at_ 0 rest).
Qed.

Lemma scan_keep (c : ascii) (s : str) :
  at_ (c :: s) = None ->
  scan at_ 0 (c :: s) = (fst (scan at_ 0 s), c :: snd (scan at_ 0 s)).
Proof. intros H; simpl; rewrite H; now destruct (scan at_ 0 s). Qed.

(** Every capture is the capture of the pattern at some position of the text. *)
Lemma scan_captures (k : nat) (s : str) (a : A) :
  In a (fst (scan at_ k s)) ->
  exists pre s' rest, s = pre ++ s' /\ at_ s' = Some (a, rest).
Proof.
  revert k; induction s as [|c s IH]; intros k; simpl; [tauto|].
  destruct k as [|k].
  - destruct (at_ (c :: s)) as [[a' rest]|] eqn:E.
    + destruct (scan at_ (length s - length rest) s) as [caps out] eqn:Sc; simpl.
      intros [<-|H]; [exists [], (c :: s), rest; auto|].
      destruct (IH (length s - length rest)) as (pre & s' & r & -> & H');
        [rewrite Sc; exact H|].
      exists (c :: pre), s', r; auto.
    + destruct (scan at_ 0 s) as [caps out] eqn:Sc; simpl; intros H.
      destruct (IH 0) as (pre & s' & r & -> & H'); [rewrite Sc; exact H|].
      exists (c :: pre), s', r; auto.
  - intros H; destruct (IH k H) as (pre & s' & r & -> & H').
    exists (c :: pre), s', r; auto.
Qed.

End ScanFacts.

Section References.

Lemma blockRefAt_Some (s u rest : str) :
  blockRefAt s = Some (u, rest) -> s = lit "((" ++ u ++ lit "))" ++ rest.
Proof.
  unfold blockRefAt.
  destruct (stripPrefix (lit "((") s) as [r|] eqn:P; [|discriminate].
  destruct (takeN 36 isUuidChar r) as [[u' r1]|] eqn:T; [|discriminate].
  destruct (stripPrefix (lit "))") r1) as [r2|] eqn:P1; [|discriminate].
  intros [= <- <-].
  apply stripPrefix_Some in P, P1; apply takeN_app in T as (-> & _); now subst.
Qed.

Lemma pageRefAt_Some (s nm rest : str) :
  pageRefAt s = Some (nm, rest) -> s = lit "[[" ++ nm ++ lit "]]" ++ rest.
Proof.
  unfold pageRefAt.
  destruct (stripPrefix (lit "[[") s) as [r|] eqn:P; [|discriminate].
  pose proof (span_app (fun c => negb (Ascii.eqb c "]")) r) as Hs.
  destruct (span (fun c => negb (Ascii.eqb c "]")) r) as [[|c nm'] r1]; [discriminate|].
  destruct (stripPrefix (lit "]]") r1) as [r2|] eqn:P1; [|discriminate].
  intros [= <- <-].
  apply stripPrefix_Some in P, P1; simpl in Hs; now subst.
Qed.

Lemma tagAt_Some (s tag rest : str) :
  tagAt s = Some (tag, rest) -> s = lit "#" ++ tag ++ rest.
Proof.
  unfold tagAt.
  destruct (stripPrefix (lit "#") s) as [r|] eqn:P; [|discriminate].
  pose proof (span_app isKeyChar r) as Hs.
  destruct (span isKeyChar r) as [[|c tag'] r1]; [discriminate|].
  intros [= <- <-].
  apply stripPrefix_Some in P; simpl in Hs; now subst.
Qed.

(** An extracted reference stands in the text it was extracted from. *)
Lemma referencesOf_included (s ref : str) :
  In ref (referencesOf s) -> includes s ref = true.
Proof.
  unfold referencesOf, matchAll; intros H.
  apply in_app_or in H as [H|H]; [|apply in_app_or in H as [H|H]];
    apply scan_captures in H as (pre & s' & rest & -> & H).
  - apply blockRefAt_Some in H as ->.
    rewrite (app_assoc pre); apply includes_app.
  - apply pageRefAt_Some in H as ->.
    rewrite (app_assoc pre); apply includes_app.
  - apply tagAt_Some in H as ->.
    rewrite (app_assoc pre); apply includes_app.
Qed.

End References.

(** ** The block parser *)

Section BlockParser.

Variable uuidv4 : nat -> str.

(** C4.  The line [- TODO [#A] Ship release SCHEDULED: <2025-01-10>] parses
    to exactly one block: task state TODO, priority A, scheduled
    [2025-01-10], content [Ship release].  (The scheduling marker is also
    read as a property whose key is [SCHEDULED].) *)
Theorem parse_ship_release (n : nat) :
  parseBlocks uuidv4 (lit "- TODO [#A] Ship release SCHEDULED: <2025-01-10>") n
  = ([{| uuid := uuidv4 n;
         content := lit "Ship release";
         level := 0;
         todo := Some TODO;
         priority := Some PriorityA;
         scheduled := Some (lit "2025-01-10");
         deadline := None;
         properties := Some [(lit "SCHEDULED", lit "<2025-01-10>")];
         refs := None |}], S n).
Proof. reflexivity. Qed.

(** C5, as amended.  The content of a block is its remainder from which the
    scheduling markers, the deadline markers, the property tokens and the
    priority cookies are cut, trimmed; the references are read from the same
    remainder and their text is not cut.  When the remainder has none of the
    four tokens the content is the whole remainder, and every reference that
    was extracted still stands in the content. *)
Theorem content_keeps_reference_syntax (line : str) (n n' : nat) (b : LogseqBlock) :
  parseLine uuidv4 line n = (Some b, n') ->
  content b = content_clean (remainderOf line)
  /\ refs b = orUndefined (referencesOf (remainderOf line))
  /\ (hasToken (remainderOf line) = false ->
        content b = remainderOf line
        /\ forall ref, In ref (referencesOf (remainderOf line)) ->
                       includes (content b) ref = true).
Proof.
  intros H; apply parseLine_Some in H as (uid & H).
  apply blockOf_Some in H as (_ & _ & Hc & _ & _ & _ & _ & _ & _ & Hr).
  fold (remainderOf line) in Hc, Hr.
  repeat split; auto.
  - rewrite Hc; apply content_clean_id; [apply remainderOf_Trimmed|assumption].
  - intros ref Hin; rewrite Hc, content_clean_id;
      [now apply referencesOf_included|apply remainderOf_Trimmed|assumption].
Qed.

End BlockParser.

Section BlockParserSamples.

(** Witness of C5: a line with a page link, a block link and a tag. *)
Lemma content_keeps_reference_syntax_witness :
  exists b,
    parseLine sampleUuid
      (lit "- See [[Roadmap]] and ((12345678-1234-1234-1234-123456789abc)) #urgent") 0
    = (Some b, 1)
    /\ hasToken
         (remainderOf
            (lit "- See [[Roadmap]] and ((12345678-1234-1234-1234-123456789abc)) #urgent"))
       = false
    /\ content b = lit "See [[Roadmap]] and ((12345678-1234-1234-1234-123456789abc)) #urgent"
    /\ forall ref,
         In ref [lit "12345678-1234-1234-1234-123456789abc"; lit "Roadmap"; lit "urgent"] ->
         includes (content b) ref = true.
Proof.
  eexists; split; [vm_compute; reflexivity|].
  split; [vm_compute; reflexivity|].
  destruct (content_keeps_reference_syntax sampleUuid
              (lit "- See [[Roadmap]] and ((12345678-1234-1234-1234-123456789abc)) #urgent")
              0 1 _ eq_refl) as (_ & _ & H).
  destruct (H eq_refl) as [Hc Hr]; split; [exact Hc|exact Hr].
Defined.

(** Counterexample to C5 as stated: the page link, the block link and the tag
    are extracted into the references of the block, and their spans are
    still in its content. *)
Lemma references_stay_in_content :
  fst (parseBlocks sampleUuid
         (lit "- See [[Roadmap]] and ((12345678-1234-1234-1234-123456789abc)) #urgent") 0)
  = [{| uuid := lit "00000000-0000-4000-8000-000000000000";
        content := lit "See [[Roadmap]] and ((12345678-1234-1234-1234-123456789abc)) #urgent";
        level := 0; todo := None; priority := None;
        scheduled := None; deadline := None; properties := None;
        refs := Some [lit "12345678-1234-1234-1234-123456789abc";
                      lit "Roadmap"; lit "urgent"] |}]
  /\ includes (lit "See [[Roadmap]] and ((12345678-1234-1234-1234-123456789abc)) #urgent")
       (lit "[[Roadmap]]") = true
  /\ includes (lit "See [[Roadmap]] and ((12345678-1234-1234-1234-123456789abc)) #urgent")
       (lit "((12345678-1234-1234-1234-123456789abc))") = true
  /\ includes (lit "See [[Roadmap]] and ((12345678-1234-1234-1234-123456789abc)) #urgent")
       (lit "#urgent") = true.
Proof. repeat split; vm_compute; reflexivity. Qed.

(** C6, the parser at the failing input.  The cookie stands in the middle of
    the line; it is read as priority A, and the text before it, [Fix login
    bug], is not in the content. *)
Theorem parse_drops_text_before_cookie :
  fst (parseBlocks sampleUuid (lit "- Fix login bug [#A] before release") 0)
  = [{| uuid := lit "00000000-0000-4000-8000-000000000000";
        content := lit "before release";
        level := 0; todo := None; priority := Some PriorityA;
        scheduled := None; deadline := None; properties := None; refs := None |}]
  /\ includes (lit "before release") (lit "Fix login bug") = false.
Proof. split; vm_compute; reflexivity. Qed.

End BlockParserSamples.

(** ** Writing a block and reading it back *)

Section RoundTrip.

Variable uuidv4 : nat -> str.

Lemma blockLine_parts (b : LogseqBlock) :
  blockLine b
  = lit "- " ++ slice 0 8 (uuid b) ++ lit " "
    ++ todoPart (todo b) ++ cookiePart (priority b) ++ content b.
Proof.
  unfold blockLine, blockContent, todoPart, cookiePart.
  destruct (todo b) as [k|], (priority b) as [q|]; simpl; try reflexivity;
    destruct k; reflexivity.
Qed.

Lemma isHex_not_space (c : ascii) : isHex c = true -> isSpace c = false.
Proof. destruct c as [[] [] [] [] [] [] [] []]; vm_compute; congruence. Qed.

Lemma dotsToEnd_app (a b : str) : dotsToEnd (a ++ b) = dotsToEnd a && dotsToEnd b.
Proof. apply forallb_app. Qed.

Lemma dotsToEnd_todoPart (t : option Todo) : dotsToEnd (todoPart t) = true.
Proof. destruct t as [[]|]; reflexivity. Qed.

Lemma dotsToEnd_cookiePart (p : option Priority) : dotsToEnd (cookiePart p) = true.
Proof. destruct p as [[]|]; reflexivity. Qed.

Lemma headOk_written (t : option Todo) (p : option Priority) (c : str) :
  headOk c = true -> headOk (todoPart t ++ cookiePart p ++ c) = true.
Proof. destruct t as [[]|], p as [[]|]; auto. Qed.

Lemma blanksThenRest_space (s : str) :
  headOk s = true -> dotsToEnd s = true -> blanksThenRest (" "%char :: s) = Some s.
Proof. exact (blanksThenRest_blank s). Qed.

Lemma todoMatch_keyword (k : Todo) (s : str) :
  headOk s = true -> dotsToEnd s = true ->
  todoMatch (todoText k ++ lit " " ++ s) = Some (k, s).
Proof.
  intros H D; pose proof (blanksThenRest_space s H D) as B.
  destruct k;
    cbv [todoMatch todoWords todoAlternatives todoText lit list_ascii_of_string app
         stripPrefix Ascii.eqb Bool.eqb];
    now rewrite B.
Qed.

Lemma todoMatch_cookie (q : Priority) (s : str) :
  todoMatch (cookiePart (Some q) ++ s) = None.
Proof.
  destruct q;
    cbv [todoMatch todoWords todoAlternatives todoText lit list_ascii_of_string app
         stripPrefix Ascii.eqb Bool.eqb cookiePart priorityLetter];
    reflexivity.
Qed.

Lemma priorityMatch_cookie (q : Priority) (s : str) :
  headOk s = true -> dotsToEnd s = true ->
  priorityMatch (cookiePart (Some q) ++ s) = Some (q, s).
Proof.
  intros H D; pose proof (dropWhile_id s H) as Hd.
  destruct q;
    cbv [priorityMatch cookiePart priorityLetter lit list_ascii_of_string app firstMatch
         priorityAt cookieAt stripPrefix priorityOfChar Ascii.eqb Bool.eqb];
    rewrite (dropWhile_cons isSpace " " s eq_refl), Hd, D; reflexivity.
Qed.

Lemma todoStage_written (t : option Todo) (p : option Priority) (c : str) :
  headOk c = true -> dotsToEnd c = true ->
  (t = None -> todoMatch (cookiePart p ++ c) = None) ->
  todoStage (todoPart t ++ cookiePart p ++ c) = (t, cookiePart p ++ c).
Proof.
  intros H D Hn; unfold todoStage.
  destruct t as [k|]; simpl todoPart.
  - rewrite <- app_assoc, todoMatch_keyword; [reflexivity| |].
    + apply (headOk_written None p c H).
    + now rewrite dotsToEnd_app, dotsToEnd_cookiePart, D.
  - simpl; now rewrite Hn.
Qed.

Lemma priorityStage_written (p : option Priority) (c : str) :
  headOk c = true -> dotsToEnd c = true ->
  (p = None -> priorityMatch c = None) ->
  priorityStage (cookiePart p ++ c) = (p, c).
Proof.
  intros H D Hn; unfold priorityStage.
  destruct p as [q|].
  - now rewrite priorityMatch_cookie.
  - simpl; now rewrite Hn.
Qed.

(** The identity step on a written line finds the eight characters again. *)
Lemma identityOf_written (id8 rest : str) (m : nat) :
  length id8 = 8 -> forallb isHex id8 = true ->
  headOk rest = true -> dotsToEnd rest = true ->
  identityOf uuidv4 (id8 ++ lit " " ++ rest) m
  = (id8 ++ sliceFrom 8 (uuidv4 (S m)), rest, S (S m)).
Proof.
  intros L Hx H D; unfold identityOf, generateUUID, fullUuidMatch, shortUuidMatch.
  change (lit " " ++ rest) with (" "%char :: rest).
  rewrite takeN_stopped by (rewrite ?L; auto; lia).
  rewrite (takeN_exact 8) by assumption.
  now rewrite blanksThenRest_space.
Qed.

Lemma stripBullet_dash (s : str) :
  stripBullet ("-"%char :: " "%char :: s) = dropWhile isSpace s.
Proof. exact (dropWhile_cons isSpace " " s eq_refl). Qed.

Lemma takeWhile_dash (s : str) : takeWhile isSpace ("-"%char :: s) = [].
Proof. reflexivity. Qed.

Lemma parseLine_written (id8 rest : str) (m : nat) :
  length id8 = 8 -> forallb isHex id8 = true ->
  Trimmed rest -> rest <> [] -> dotsToEnd rest = true ->
  parseLine uuidv4 (lit "- " ++ id8 ++ lit " " ++ rest) m
  = (blockOf (id8 ++ sliceFrom 8 (uuidv4 (S m))) 0 rest, S (S m)).
Proof.
  intros L Hx [H1 H2] Hne D.
  assert (headOk id8 = true) as Hid.
  { destruct id8 as [|c id8]; [discriminate|]; simpl in *.
    apply andb_true_iff in Hx as [Hc _]; now rewrite (isHex_not_space c Hc). }
  assert (Trimmed (lit "- " ++ id8 ++ lit " " ++ rest)) as T.
  { split; [reflexivity|].
    rewrite !app_assoc, rev_app_distr.
    destruct (rev rest) eqn:E; [|exact H2].
    apply (f_equal (@rev ascii)) in E; rewrite rev_involutive in E; contradiction. }
  unfold parseLine; rewrite (trim_id _ T).
  change (lit "- " ++ id8 ++ lit " " ++ rest)
    with ("-"%char :: " "%char :: id8 ++ lit " " ++ rest).
  cbv beta iota delta [isEmpty startsWith stripPrefix lit list_ascii_of_string].
  change (Ascii.eqb "#" "-") with false; cbv iota.
  rewrite stripBullet_dash, takeWhile_dash.
  change ([" "%char] ++ rest) with (lit " " ++ rest).
  rewrite dropWhile_id by (destruct id8; [discriminate|exact Hid]).
  rewrite (identityOf_written id8 rest m L Hx H1 D).
  reflexivity.
Qed.

End RoundTrip.

Section RoundTripTheorem.

Variable uuidv4 : nat -> str.

Lemma stages_None (s : str) :
  (fst (todoStage s) = None -> todoMatch s = None /\ snd (todoStage s) = s)
  /\ (fst (priorityStage s) = None -> priorityMatch s = None /\ snd (priorityStage s) = s).
Proof.
  unfold todoStage, priorityStage; split.
  - destruct (todoMatch s) as [[k r]|]; simpl; [discriminate|auto].
  - destruct (priorityMatch s) as [[q r]|]; simpl; [discriminate|auto].
Qed.

Lemma headOk_rev_app (a c : str) :
  c <> [] -> headOk (rev c) = true -> headOk (rev (a ++ c)) = true.
Proof.
  intros Hne H; rewrite rev_app_distr.
  destruct (rev c) eqn:E; [|exact H].
  apply (f_equal (@rev ascii)) in E; rewrite rev_involutive in E; contradiction.
Qed.

Lemma firstn_exact (n : nat) (a b : str) : length a = n -> firstn n (a ++ b) = a.
Proof.
  intros <-; induction a as [|c a IH]; simpl; [now destruct b|now rewrite IH].
Qed.

(** C7, as amended.  Take a block that the parser produces from a line whose
    remainder holds no scheduling marker, deadline marker, property token or
    priority cookie (so that the content is the whole remainder and the block
    has no scheduled, deadline or properties), whose content has no line
    break and whose identity starts with eight hexadecimal characters.  The
    line that [insert_block] writes from its identity, task keyword,
    priority and content parses to one block with the same content, task
    state, priority, scheduled, deadline, properties and references, under
    the same eight characters of identity. *)
Theorem written_block_parses_back (line : str) (n n1 m : nat) (b : LogseqBlock) :
  parseLine uuidv4 line n = (Some b, n1) ->
  hasToken (remainderOf line) = false ->
  dotsToEnd (content b) = true ->
  length (slice 0 8 (uuid b)) = 8 ->
  forallb isHex (slice 0 8 (uuid b)) = true ->
  exists b',
    parseLine uuidv4 (blockLine b) m = (Some b', S (S m))
    /\ content b' = content b /\ todo b' = todo b /\ priority b' = priority b
    /\ scheduled b' = scheduled b /\ deadline b' = deadline b
    /\ properties b' = properties b /\ refs b' = refs b
    /\ slice 0 8 (uuid b') = slice 0 8 (uuid b).
Proof.
  intros H Ht D L Hx.
  apply parseLine_Some in H as (uid & H).
  apply blockOf_Some in H as (_ & _ & Hc & Hne & Htodo & Hprio & Hs & Hd & Hp & Hr).
  fold (remainderOf line) in Hc, Hs, Hd, Hp, Hr.
  pose proof (remainderOf_Trimmed line) as Tr.
  rewrite (content_clean_id _ Tr Ht) in Hc.
  set (s := lineRest (stripBullet (trim line))) in *.
  destruct (stages_None s) as [HtN _].
  destruct (stages_None (snd (todoStage s))) as [_ HpN].
  assert (remainderOf line = snd (priorityStage (snd (todoStage s)))) as Hrem by reflexivity.
  destruct Tr as [Tr1 Tr2]; rewrite <- Hc in Tr1, Tr2.
  assert (priority b = None -> priorityMatch (content b) = None) as Pnone.
  { intros E; rewrite E in Hprio; destruct (HpN (eq_sym Hprio)) as [P1 P2].
    now rewrite Hc, Hrem, P2. }
  assert (todo b = None -> todoMatch (cookiePart (priority b) ++ content b) = None) as Tnone.
  { intros E; destruct (priority b) as [q|] eqn:Eq; [apply todoMatch_cookie|].
    rewrite E in Htodo; destruct (HtN (eq_sym Htodo)) as [T1 T2].
    destruct (HpN (eq_sym Hprio)) as [_ P2].
    simpl; now rewrite Hc, Hrem, P2, T2. }
  rewrite blockLine_parts.
  rewrite parseLine_written; auto.
  - unfold blockOf.
    rewrite (todoStage_written (todo b) (priority b) (content b) Tr1 D Tnone).
    rewrite (priorityStage_written (priority b) (content b) Tr1 D Pnone).
    assert (content_clean (content b) = content b) as Hcc
      by (rewrite Hc; apply content_clean_id; [apply remainderOf_Trimmed|exact Ht]).
    rewrite Hcc.
    destruct (content b) as [|c0 c] eqn:Ec; [contradiction|]; simpl isEmpty; cbv iota.
    eexists; split; [reflexivity|]; simpl.
    rewrite Hs, Hd, Hp, Hr, <- Hc.
    repeat split; auto.
    unfold slice at 1; simpl skipn.
    apply firstn_exact, L.
  - split.
    + apply headOk_written, Tr1.
    + rewrite !app_assoc; apply headOk_rev_app; assumption.
  - intros Hnil; apply app_eq_nil in Hnil as [_ Hnil].
    apply app_eq_nil in Hnil as [_ Hnil]; contradiction.
  - now rewrite !dotsToEnd_app, dotsToEnd_todoPart, dotsToEnd_cookiePart, D.
Qed.

End RoundTripTheorem.

Section RoundTripSamples.

(** Witness of C7: the release line of C4 without its scheduling marker. *)
Lemma written_block_parses_back_witness :
  exists b b',
    parseLine sampleUuid (lit "- abcdef12 TODO [#A] Ship release") 0 = (Some b, 2)
    /\ hasToken (remainderOf (lit "- abcdef12 TODO [#A] Ship release")) = false
    /\ dotsToEnd (content b) = true
    /\ length (slice 0 8 (uuid b)) = 8
    /\ forallb isHex (slice 0 8 (uuid b)) = true
    /\ blockLine b = lit "- abcdef12 TODO [#A] Ship release"
    /\ parseLine sampleUuid (blockLine b) 2 = (Some b', 4)
    /\ content b' = content b /\ todo b' = todo b /\ priority b' = priority b
    /\ scheduled b' = scheduled b /\ deadline b' = deadline b
    /\ properties b' = properties b /\ refs b' = refs b
    /\ slice 0 8 (uuid b') = slice 0 8 (uuid b).
Proof.
  eexists.
  destruct (written_block_parses_back sampleUuid
              (lit "- abcdef12 TODO [#A] Ship release") 0 2 2 _
              eq_refl eq_refl eq_refl eq_refl eq_refl) as (b' & H).
  exists b'; repeat (split; [reflexivity|]); exact H.
Defined.

(** Counterexample to C7 as stated: the parser produces a block whose
    content still holds a cookie (the cut of the inner cookie joins the outer
    brackets); written back and parsed again, the content is another one. *)
Lemma written_block_parses_to_other_content :
  exists b b',
    parseLine sampleUuid (lit "- [#A] note [#[#B]B]") 0 = (Some b, 1)
    /\ content b = lit "note [#B]" /\ todo b = None /\ priority b = Some PriorityA
    /\ scheduled b = None /\ deadline b = None /\ properties b = None
    /\ blockLine b = lit "- 00000000 [#A] note [#B]"
    /\ parseLine sampleUuid (blockLine b) 1 = (Some b', 3)
    /\ content b' = lit "note"
    /\ content b' <> content b.
Proof.
  eexists; eexists.
  split; [vm_compute; reflexivity|].
  repeat (split; [vm_compute; reflexivity|]).
  intros H; vm_compute in H; discriminate H.
Qed.

End RoundTripSamples.

(** ** The mutation reconciler *)

Section Reconciler.

Variable uuidv4 : nat -> str.
Variable LOGSEQ_PATH : str.

Lemma delete_block_no_block (fs : FileSystem) (n : nat) (blockUuid : str) :
  findTarget blockUuid (pagesOf uuidv4 LOGSEQ_PATH fs n) = None ->
  delete_block uuidv4 LOGSEQ_PATH fs n blockUuid = (BlockNotFound, fs).
Proof.
  unfold delete_block, pagesOf.
  destruct (getAllPages uuidv4 LOGSEQ_PATH fs n) as [pages n']; simpl.
  now intros ->.
Qed.

Lemma update_block_pages (fs : FileSystem) (n : nat) (blockUuid payload : str) :
  update_block uuidv4 LOGSEQ_PATH fs n blockUuid payload
  = updatePages fs blockUuid payload (pagesOf uuidv4 LOGSEQ_PATH fs n).
Proof.
  unfold update_block, pagesOf.
  now destruct (getAllPages uuidv4 LOGSEQ_PATH fs n).
Qed.

Lemma star_line_not_dash (line : str) :
  usesStarOrPlus line = true -> dashBulletMatch line = None.
Proof.
  unfold usesStarOrPlus, trimStart, dropWhile, dashBulletMatch.
  destruct (span isSpace line) as [indent r]; simpl.
  destruct r as [|c r]; [discriminate|].
  intros H; change (lit "- ") with ["-"; " "]%char; simpl.
  destruct (Ascii.eqb "-" c) eqn:E; [|reflexivity].
  apply Ascii.eqb_eq in E; subst c; discriminate.
Qed.

(** C1, as amended.  [delete_block] answers not-found and writes nothing when
    no parsed block answers to the identity, and also when the target block
    is found but no strategy selects a line of its file.  [update_block],
    which looks the identity up in the text of the files and not among the
    parsed blocks, answers not-found and writes nothing when no dash bullet
    line of any page file names the identity.  In all three cases the store
    is the one the call started from; more generally, whenever one of the two
    tools answers not-found, no file has been written. *)
Theorem reconciler_fails_closed (fs : FileSystem) (n : nat) (blockUuid payload : str) :
  (NoBlockMatches blockUuid (pagesOf uuidv4 LOGSEQ_PATH fs n) ->
     delete_block uuidv4 LOGSEQ_PATH fs n blockUuid = (BlockNotFound, fs))
  /\ (forall page block text,
        findTarget blockUuid (pagesOf uuidv4 LOGSEQ_PATH fs n) = Some (page, block) ->
        readFileSync fs (path page) = Some text ->
        NoStrategySelects block (split text) ->
        delete_block uuidv4 LOGSEQ_PATH fs n blockUuid
        = (SearchFailed block (name page) (split text), fs))
  /\ (NoDashLineNames fs blockUuid (pagesOf uuidv4 LOGSEQ_PATH fs n) ->
        update_block uuidv4 LOGSEQ_PATH fs n blockUuid payload = (UpdateNotFound, fs))
  /\ (forall outcome fs',
        delete_block uuidv4 LOGSEQ_PATH fs n blockUuid = (outcome, fs') ->
        notFound outcome = true -> fs' = fs)
  /\ (forall fs',
        update_block uuidv4 LOGSEQ_PATH fs n blockUuid payload = (UpdateNotFound, fs') ->
        fs' = fs).
Proof.
  split; [|split; [|split; [|split]]].
  - intros H; apply delete_block_no_block, findTarget_None, H.
  - intros page block text Ht Hr Hno.
    unfold delete_block; unfold pagesOf in Ht.
    destruct (getAllPages uuidv4 LOGSEQ_PATH fs n) as [pages n'].
    cbv beta iota zeta delta [fst] in Ht |- *.
    rewrite Ht, Hr, findLine_None; [reflexivity|exact Hno].
  - intros H; rewrite update_block_pages.
    apply updatePages_not_found; [apply getAllPages_readable|exact H].
  - intros outcome fs'; unfold delete_block.
    destruct (getAllPages uuidv4 LOGSEQ_PATH fs n) as [pages n'].
    destruct (findTarget blockUuid pages) as [[page block]|]; [|now intros [= <- <-]].
    destruct (readFileSync fs (path page)) as [text|]; [|now intros [= <- <-]].
    destruct (findLine (searchStrategies (slice 0 8 (uuid block)) (content block))
                       (split text)) as [[j nm]|]; [|now intros [= <- <-]].
    intros [= <- <-]; discriminate.
  - intros fs'; rewrite update_block_pages; apply updatePages_unchanged.
Qed.


(** C10, as amended.  [update_block] rewrites a line only if it has the dash
    bullet form (blanks, a dash, a blank).  When every line that names the
    identity, in every page file, is a star or plus line, the call answers
    not-found and the store is unchanged; a dash line that names the identity
    anywhere in the collection is rewritten instead. *)
Theorem update_block_skips_star_and_plus (fs : FileSystem) (n : nat) (blockUuid payload : str) :
  (forall pageName fs',
     update_block uuidv4 LOGSEQ_PATH fs n blockUuid payload = (Updated pageName, fs') ->
     exists page text before line after bullet rest,
       In page (pagesOf uuidv4 LOGSEQ_PATH fs n) /\ readFileSync fs (path page) = Some text
       /\ split text = before ++ line :: after
       /\ dashBulletMatch line = Some (bullet, rest) /\ usesStarOrPlus line = false
       /\ fs' = writeFileSync fs (path page) (join (before ++ (bullet ++ payload) :: after)))
  /\ (OnlyStarOrPlusLinesName fs blockUuid (pagesOf uuidv4 LOGSEQ_PATH fs n) ->
        update_block uuidv4 LOGSEQ_PATH fs n blockUuid payload = (UpdateNotFound, fs)).
Proof.
  split.
  - intros pageName fs'; rewrite update_block_pages; intros H.
    apply updatePages_Updated in H
      as (page & text & before & line & after & bullet & rest
          & Hin & _ & Hr & Hs & _ & Hd & -> & _).
    exists page, text, before, line, after, bullet, rest; repeat split; auto.
    destruct (usesStarOrPlus line) eqn:E; [|reflexivity].
    apply star_line_not_dash in E; congruence.
  - intros H; rewrite update_block_pages.
    apply updatePages_not_found; [apply getAllPages_readable|].
    intros page text line Hp Hr Hl Hi; apply star_line_not_dash; eauto.
Qed.

End Reconciler.

(** ** The reconciler on the sample graphs *)

Section ReconcilerSamples.

(** Splits a membership in a computed list into its cases. *)
Ltac cases_of H :=
  vm_compute in H;
  repeat match type of H with
         | _ \/ _ => destruct H as [H|H]
         end;
  try contradiction; try subst.

(** Witness of C1 on three requests: an identity that no block has, a block
    whose line no strategy finds (its content was cut around a property),
    and an update that no line answers. *)
Lemma reconciler_fails_closed_witness :
  (NoBlockMatches (lit "cccccccc") (pagesOf sampleUuid graph reviewStore 0)
   /\ delete_block sampleUuid graph reviewStore 0 (lit "cccccccc")
      = (BlockNotFound, reviewStore))
  /\ (exists page block text,
        findTarget (lit "00000000") (pagesOf sampleUuid graph propertyStore 0)
        = Some (page, block)
        /\ content block = lit "draft  today"
        /\ readFileSync propertyStore (path page) = Some text
        /\ NoStrategySelects block (split text)
        /\ delete_block sampleUuid graph propertyStore 0 (lit "00000000")
           = (SearchFailed block (name page) (split text), propertyStore))
  /\ (NoDashLineNames reviewStore (lit "cccccccc") (pagesOf sampleUuid graph reviewStore 0)
      /\ update_block sampleUuid graph reviewStore 0 (lit "cccccccc") (lit "New")
         = (UpdateNotFound, reviewStore)).
Proof.
  split; [|split].
  - assert (NoBlockMatches (lit "cccccccc") (pagesOf sampleUuid graph reviewStore 0)) as H.
    { intros page block Hp Hb; cases_of Hp; cases_of Hb; reflexivity. }
    split; [exact H|].
    exact (proj1 (reconciler_fails_closed sampleUuid graph reviewStore 0
                    (lit "cccccccc") []) H).
  - eexists; eexists; eexists.
    split; [vm_compute; reflexivity|].
    split; [vm_compute; reflexivity|].
    split; [vm_compute; reflexivity|].
    match goal with
    | |- ?N /\ _ => assert N as H
    end.
    { intros nm test line Hin Hl.
      cbv [searchStrategies In] in Hin.
      cases_of Hl.
      repeat (destruct Hin as [Hin|Hin]; [injection Hin as <- <-; vm_compute; reflexivity|]).
      contradiction. }
    split; [exact H|].
    apply (proj1 (proj2 (reconciler_fails_closed sampleUuid graph propertyStore 0
                           (lit "00000000") []))).
    + vm_compute; reflexivity.
    + vm_compute; reflexivity.
    + exact H.
  - assert (NoDashLineNames reviewStore (lit "cccccccc")
              (pagesOf sampleUuid graph reviewStore 0)) as H.
    { intros page text line Hp Hr Hl Hi.
      cases_of Hp; vm_compute in Hr; injection Hr as <-.
      cases_of Hl; vm_compute in Hi; discriminate. }
    split; [exact H|].
    exact (proj1 (proj2 (proj2 (reconciler_fails_closed sampleUuid graph reviewStore 0
                                  (lit "cccccccc") (lit "New")))) H).
Defined.

(** Counterexample to C1 as stated: the identity [deadbeef] is the identity of
    no parsed block, yet [update_block] finds it in the text of a line,
    answers with success and rewrites the file. *)
Lemma update_block_writes_without_parsed_block :
  NoBlockMatches (lit "deadbeef") (pagesOf sampleUuid graph notesStore 0)
  /\ update_block sampleUuid graph notesStore 0 (lit "deadbeef") (lit "rewritten")
     = (Updated (lit "notes"), [(lit "/graph/pages/notes.md", lit "- rewritten")])
  /\ [(lit "/graph/pages/notes.md", lit "- rewritten")] <> notesStore.
Proof.
  split; [|split].
  - intros page block Hp Hb.
    cases_of Hp; cases_of Hb; reflexivity.
  - vm_compute; reflexivity.
  - intros H; vm_compute in H; discriminate H.
Qed.



(** The scenario of the specification: two lines [- Review PR] without any
    identity in the text.  The request designates the second block by the
    identity the parser gave it; no identity strategy passes a line, the
    content strategy passes both, and the first line of the file is the one
    removed. *)
Lemma delete_by_content_removes_first_occurrence :
  delete_block sampleUuid graph
    [(lit "/graph/pages/work.md", join [lit "- Review PR"; lit "- Review PR"; lit "- other"])]
    0 (lit "00000001")
  = (Deleted "Content in bullet line" (lit "work") 0 (lit "- Review PR") false,
     [(lit "/graph/pages/work.md", join [lit "- Review PR"; lit "- other"])]).
Proof. vm_compute; reflexivity. Qed.


(** Witness of C10: the identity stands on a star line only, and on a star
    line beside a dash line that names it. *)
Lemma update_block_skips_star_and_plus_witness :
  (OnlyStarOrPlusLinesName starOnlyStore (lit "abcdef12")
     (pagesOf sampleUuid graph starOnlyStore 0)
   /\ update_block sampleUuid graph starOnlyStore 0 (lit "abcdef12") (lit "New")
      = (UpdateNotFound, starOnlyStore))
  /\ (update_block sampleUuid graph starStore 0 (lit "abcdef12") (lit "New")
      = (Updated (lit "work"),
         [(lit "/graph/pages/work.md", join [lit "* abcdef12 Target"; lit "- New"])])
      /\ exists page text before line after bullet rest,
           In page (pagesOf sampleUuid graph starStore 0)
           /\ readFileSync starStore (path page) = Some text
           /\ split text = before ++ line :: after
           /\ dashBulletMatch line = Some (bullet, rest) /\ usesStarOrPlus line = false
           /\ [(lit "/graph/pages/work.md", join [lit "* abcdef12 Target"; lit "- New"])]
              = writeFileSync starStore (path page)
                  (join (before ++ (bullet ++ lit "New") :: after))).
Proof.
  split.
  - assert (OnlyStarOrPlusLinesName starOnlyStore (lit "abcdef12")
              (pagesOf sampleUuid graph starOnlyStore 0)) as H.
    { intros page text line Hp Hr Hl Hi.
      cases_of Hp; vm_compute in Hr; injection Hr as <-.
      cases_of Hl; vm_compute in Hi; try discriminate; reflexivity. }
    split; [exact H|].
    exact (proj2 (update_block_skips_star_and_plus sampleUuid graph starOnlyStore 0
                    (lit "abcdef12") (lit "New")) H).
  - assert (update_block sampleUuid graph starStore 0 (lit "abcdef12") (lit "New")
            = (Updated (lit "work"),
               [(lit "/graph/pages/work.md", join [lit "* abcdef12 Target"; lit "- New"])]))
      as H by (vm_compute; reflexivity).
    split; [exact H|].
    exact (proj1 (update_block_skips_star_and_plus sampleUuid graph starStore 0
                    (lit "abcdef12") (lit "New")) (lit "work") _ H).
Defined.

(** Counterexample to C10 as stated: the target block [abcdef12] stands on a
    star line, which the parser accepts; the call does not answer not-found
    and the file changes, because a dash line below names the identity and
    is rewritten in its place. *)
Lemma update_block_rewrites_another_dash_line :
  (exists page block,
     findTarget (lit "abcdef12") (pagesOf sampleUuid graph starStore 0) = Some (page, block)
     /\ content block = lit "Target"
     /\ readFileSync starStore (path page)
        = Some (join [lit "* abcdef12 Target"; lit "- see abcdef12"]))
  /\ usesStarOrPlus (lit "* abcdef12 Target") = true
  /\ update_block sampleUuid graph starStore 0 (lit "abcdef12") (lit "New")
     = (Updated (lit "work"),
        [(lit "/graph/pages/work.md", join [lit "* abcdef12 Target"; lit "- New"])])
  /\ [(lit "/graph/pages/work.md", join [lit "* abcdef12 Target"; lit "- New"])] <> starStore.
Proof.
  split; [|split; [|split]].
  - eexists; eexists; repeat split; vm_compute; reflexivity.
  - vm_compute; reflexivity.
  - vm_compute; reflexivity.
  - intros H; vm_compute in H; discriminate H.
Qed.

End ReconcilerSamples.

(** ** Search *)

Section Search.

(** C8, the search at the failing input.  Both blocks of the page contain
    the query; the result holds the first block only.  The test of the first
    block leaves [lastIndex] at 6, and the test of the second block starts
    there, after the only place where the query stands in it. *)
Theorem search_misses_second_block :
  map content (concat (map blocks (pagesOf sampleUuid graph inboxStore 0)))
  = [lit "urgent call"; lit "urgent mail"]
  /\ regexTest (lit "urgent") (lit "urgent mail") 0 = (true, 6)
  /\ regexTest (lit "urgent") (lit "urgent mail") 6 = (false, 0)
  /\ search sampleUuid graph inboxStore 0 (lit "urgent")
     = [BlockResult (lit "inbox") (lit "urgent call") (lit "00000000") None].
Proof. repeat split; vm_compute; reflexivity. Qed.

(** The scenario of the specification: a page named [Urgent Matters] and a
    block [this is URGENT]; here both are found. *)
Lemma search_urgent_scenario :
  search sampleUuid graph urgentStore 0 (lit "urgent")
  = [PageResult (lit "Urgent Matters");
     BlockResult (lit "2025_01_10") (lit "this is URGENT") (lit "00000002") None].
Proof. vm_compute; reflexivity. Qed.

End Search.

(** ** Journal pages *)

Section Journal.

Lemma digit_isDigit (d : nat) : isDigit (digit d) = true.
Proof.
  unfold digit; pose proof (Nat.mod_upper_bound d 10 ltac:(lia)) as H.
  remember (d mod 10) as k eqn:E; clear E.
  do 10 (destruct k as [|k]; [reflexivity|]); lia.
Qed.

Lemma pad_digits (w n : nat) : forallb isDigit (pad w n) = true.
Proof.
  revert n; induction w as [|w IH]; intros n; cbn [pad]; [reflexivity|].
  rewrite forallb_app, IH; cbn [forallb]; now rewrite digit_isDigit.
Qed.

Lemma pad_length (w n : nat) : length (pad w n) = w.
Proof.
  revert n; induction w as [|w IH]; intros n; cbn [pad]; [reflexivity|].
  rewrite length_app, IH; cbn [length]; lia.
Qed.

Lemma isDigit_isDateChar (s : str) : forallb isDigit s = true -> forallb isDateChar s = true.
Proof.
  induction s as [|c s IH]; simpl; [reflexivity|].
  intros H; apply andb_true_iff in H as [Hc Hs].
  unfold isDateChar at 1; now rewrite Hc, IH.
Qed.

Lemma dateStr_chars (d : Date) : forallb isDateChar (dateStr d) = true.
Proof.
  unfold dateStr; rewrite !forallb_app.
  assert (forallb isDateChar (isoYear (year d)) = true) as ->.
  { unfold isoYear; destruct ((0 <=? year d) && (year d <=? 9999))%Z.
    - apply isDigit_isDateChar, pad_digits.
    - rewrite forallb_app, (isDigit_isDateChar (pad 6 _)) by apply pad_digits.
      now destruct (year d <? 0)%Z. }
  rewrite (isDigit_isDateChar (pad 2 (month d))) by apply pad_digits.
  rewrite (isDigit_isDateChar (pad 2 (day d))) by apply pad_digits.
  reflexivity.
Qed.

Lemma dateStr_not_nil (d : Date) : dateStr d <> [].
Proof.
  unfold dateStr; intros H.
  apply app_eq_nil in H as [_ H]; discriminate H.
Qed.

Lemma hyphenDate_digits (y m dd : nat) :
  hyphenDateMatch (pad 4 y ++ lit "-" ++ pad 2 m ++ lit "-" ++ pad 2 dd) = true.
Proof.
  unfold hyphenDateMatch.
  rewrite (takeN_exact 4), stripPrefix_app by (apply pad_length || apply pad_digits).
  rewrite (takeN_exact 2), stripPrefix_app by (apply pad_length || apply pad_digits).
  rewrite <- (app_nil_r (pad 2 dd)).
  now rewrite (takeN_exact 2) by (apply pad_length || apply pad_digits).
Qed.

Lemma hyphenDate_four_digit_year (d : Date) :
  (0 <= year d <= 9999)%Z -> hyphenDateMatch (dateStr d) = true.
Proof.
  intros [H1 H2]; unfold dateStr, isoYear.
  apply Z.leb_le in H1, H2; rewrite H1, H2; cbn [andb].
  apply hyphenDate_digits.
Qed.

Lemma pad_split (a b n : nat) : pad (a + b) n = pad a (n / 10 ^ b) ++ pad b n.
Proof.
  revert n; induction b as [|b IH]; intros n.
  - rewrite Nat.add_0_r, Nat.pow_0_r, Nat.div_1_r; cbn [pad]; now rewrite app_nil_r.
  - rewrite Nat.add_succ_r; cbn [pad].
    rewrite IH, Nat.pow_succ_r', Nat.Div0.div_div, app_assoc; reflexivity.
Qed.

(** The date of [toISOString] has the hyphen form for every date. *)
Lemma isoDate_shape (d : Date) : isoDateMatch (dateStr d) = true.
Proof.
  unfold isoDateMatch.
  destruct ((0 <=? year d) && (year d <=? 9999))%Z eqn:E.
  - apply andb_true_iff in E as [H1 H2]; apply Z.leb_le in H1, H2.
    now rewrite hyphenDate_four_digit_year.
  - unfold dateStr, isoYear; rewrite E.
    change 6 with (2 + 4); rewrite pad_split, <- !app_assoc.
    set (hi := pad 2 (Z.to_nat (Z.abs (year d)) / 10 ^ 4)).
    set (tail := pad 4 _ ++ _).
    assert (takeN 2 isDigit (hi ++ tail) = Some (hi, tail)) as Hhi
      by (apply takeN_exact; [apply pad_length|apply pad_digits]).
    assert (hyphenDateMatch tail = true) as Htail by apply hyphenDate_digits.
    apply orb_true_iff; right.
    destruct (year d <? 0)%Z;
      [change (lit "-" ++ hi ++ tail) with ("-"%char :: hi ++ tail)
      |change (lit "+" ++ hi ++ tail) with ("+"%char :: hi ++ tail)];
      cbv beta iota; rewrite Hhi, Htail; reflexivity.
Qed.

Lemma journalNameMatch_underscores (s y m d : str) :
  journalNameMatch s = Some (y, m, d) ->
  s = y ++ lit "_" ++ m ++ lit "_" ++ d
  /\ forallb isDigit (y ++ m ++ d) = true
  /\ length y = 4 /\ length m = 2 /\ length d = 2.
Proof.
  unfold journalNameMatch.
  destruct (takeN 4 isDigit s) as [[y' r]|] eqn:T1; [|discriminate].
  destruct (stripPrefix (lit "_") r) as [r1|] eqn:P1; [|discriminate].
  destruct (takeN 2 isDigit r1) as [[m' r2]|] eqn:T2; [|discriminate].
  destruct (stripPrefix (lit "_") r2) as [r3|] eqn:P2; [|discriminate].
  destruct (takeN 2 isDigit r3) as [[d' [|c r4]]|] eqn:T3; try discriminate.
  intros [= <- <- <-].
  apply takeN_app in T1 as (-> & L1 & A1), T2 as (-> & L2 & A2), T3 as (-> & L3 & A3).
  apply stripPrefix_Some in P1, P2; subst.
  rewrite app_nil_r, !forallb_app, A1, A2, A3; auto.
Qed.

Lemma journalDayOf_date (s : str) : forallb isDateChar s = true -> journalDayOf s = None.
Proof.
  intros H; unfold journalDayOf.
  destruct (journalNameMatch s) as [[[y m] d]|] eqn:E; [|reflexivity].
  apply journalNameMatch_underscores in E as (-> & _).
  rewrite forallb_app in H; apply andb_true_iff in H as [_ H].
  discriminate H.
Qed.

Lemma span_stops (p : ascii -> bool) (a b : str) (c : ascii) :
  forallb p a = true -> p c = false -> span p (a ++ c :: b) = (a, c :: b).
Proof.
  intros Ha Hc; induction a as [|x a IH]; simpl.
  - now rewrite Hc.
  - simpl in Ha; apply andb_true_iff in Ha as [Hx Ha].
    now rewrite Hx, (IH Ha).
Qed.

Lemma forallb_rev (p : ascii -> bool) (s : str) :
  forallb p (rev s) = forallb p s.
Proof.
  induction s as [|c s IH]; simpl; [reflexivity|].
  rewrite forallb_app, IH; simpl; rewrite andb_true_r; apply andb_comm.
Qed.

Lemma dateChars_no (x : ascii) (s : str) :
  isDateChar x = false -> forallb isDateChar s = true -> forallb (notChar x) s = true.
Proof.
  intros Hx; induction s as [|c s IH]; simpl; [reflexivity|].
  intros H; apply andb_true_iff in H as [Hc Hs]; rewrite (IH Hs), andb_true_r.
  unfold notChar; destruct (Ascii.eqb c x) eqn:E; [|reflexivity].
  apply Ascii.eqb_eq in E; congruence.
Qed.

(** The page name of a journal file named after a date. *)
Lemma journal_file_name (dir nm : str) :
  forallb isDateChar nm = true -> nm <> [] ->
  basename (pathJoin dir (nm ++ lit ".md")) (extname (pathJoin dir (nm ++ lit ".md"))) = nm.
Proof.
  intros H Hne.
  assert (lastSegment (pathJoin dir (nm ++ lit ".md")) = nm ++ lit ".md") as Hseg.
  { unfold lastSegment, pathJoin, takeWhile.
    assert (forallb (notChar "/") (rev (nm ++ lit ".md")) = true) as Hall
      by (rewrite forallb_rev, forallb_app, (dateChars_no "/" nm eq_refl H); reflexivity).
    set (X := nm ++ lit ".md") in *.
    change (dir ++ lit "/" ++ X) with (dir ++ "/"%char :: X).
    rewrite rev_app_distr; cbn [rev]; rewrite <- app_assoc; cbn [app].
    rewrite (span_stops (notChar "/") (rev X) (rev dir) "/" Hall eq_refl); cbn [fst].
    apply rev_involutive. }
  assert (extname (pathJoin dir (nm ++ lit ".md")) = lit ".md") as Hext.
  { unfold extname; rewrite Hseg, rev_app_distr.
    change (rev (lit ".md") ++ rev nm) with (["d"; "m"]%char ++ "."%char :: rev nm).
    rewrite (span_stops (notChar ".") ["d"; "m"]%char (rev nm) "." eq_refl eq_refl).
    destruct (rev nm) eqn:E; [|reflexivity].
    apply (f_equal (@rev ascii)) in E; rewrite rev_involutive in E; contradiction. }
  unfold basename; rewrite Hext, Hseg.
  assert (endsWith (nm ++ lit ".md") (lit ".md") = true) as ->
    by (unfold endsWith; rewrite rev_app_distr; apply startsWith_app).
  assert (str_eqb (nm ++ lit ".md") (lit ".md") = false) as ->.
  { destruct (str_eqb (nm ++ lit ".md") (lit ".md")) eqn:E; [|reflexivity].
    apply str_eqb_eq in E; apply (f_equal (@length ascii)) in E.
    rewrite length_app in E; destruct nm; [contradiction|simpl in E; lia]. }
  simpl negb; cbv iota.
  rewrite length_app, Nat.add_sub; apply firstn_exact; reflexivity.
Qed.

Lemma journal_path (root nm : str) :
  pathJoin (journalsDir root) nm = root ++ lit "/journals/" ++ nm.
Proof.
  unfold pathJoin, journalsDir, pathJoin; now rewrite <- !app_assoc.
Qed.

(** The directory of a file that [path.join] puts into a directory. *)
Lemma dirname_join (dir item : str) :
  forallb (notChar "/") item = true -> dirname (pathJoin dir item) = dir.
Proof.
  intros H; unfold dirname, pathJoin, dropWhile.
  change (dir ++ lit "/" ++ item) with (dir ++ "/"%char :: item).
  rewrite rev_app_distr; cbn [rev]; rewrite <- app_assoc; cbn [app].
  rewrite (span_stops (notChar "/") (rev item) (rev dir) "/")
    by (rewrite ?forallb_rev; auto).
  cbn [snd skipn]; apply rev_involutive.
Qed.

Lemma hasNul_app (a b : str) : hasNul (a ++ b) = hasNul a || hasNul b.
Proof. apply existsb_app. Qed.

Lemma isDirectory_no_nul (dirs : Directories) (p : str) :
  isDirectory dirs p = true -> hasNul p = false.
Proof.
  unfold isDirectory; intros H; apply andb_true_iff in H as [H _].
  now destruct (hasNul p).
Qed.

(** The write of a file into a directory, by a name without a slash or a
    NUL character. *)
Lemma writeFile_in_directory (dirs : Directories) (fs : FileSystem) (dir item text : str) :
  forallb (notChar "/") item = true -> hasNul item = false ->
  writeFile dirs fs (pathJoin dir item) text
  = if negb (isDirectory dirs (pathJoin dir item)) && isDirectory dirs dir
    then Some (writeFileSync fs (pathJoin dir item) text)
    else None.
Proof.
  intros Hs Hn; unfold writeFile; rewrite (dirname_join _ _ Hs).
  destruct (isDirectory dirs dir) eqn:D; [|now rewrite !andb_false_r].
  unfold pathJoin at 1; rewrite !hasNul_app, (isDirectory_no_nul _ _ D), Hn.
  reflexivity.
Qed.

Lemma dateChars_no_nul (s : str) : forallb isDateChar s = true -> hasNul s = false.
Proof.
  induction s as [|c s IH]; simpl; [reflexivity|].
  intros H; apply andb_true_iff in H as [Hc Hs]; rewrite (IH Hs), orb_false_r.
  destruct (Ascii.eqb Ascii.zero c) eqn:E; [|reflexivity].
  apply Ascii.eqb_eq in E; subst c; discriminate.
Qed.

(** The write of the journal file of a date. *)
Lemma write_journal_file (dirs : Directories) (fs : FileSystem) (root text : str) (d : Date) :
  writeFile dirs fs (pathJoin (journalsDir root) (dateStr d ++ lit ".md")) text
  = if negb (isDirectory dirs (pathJoin (journalsDir root) (dateStr d ++ lit ".md")))
       && isDirectory dirs (journalsDir root)
    then Some (writeFileSync fs (pathJoin (journalsDir root) (dateStr d ++ lit ".md")) text)
    else None.
Proof.
  apply writeFile_in_directory.
  - rewrite forallb_app; now rewrite (dateChars_no "/" (dateStr d) eq_refl (dateStr_chars d)).
  - rewrite hasNul_app; now rewrite (dateChars_no_nul _ (dateStr_chars d)).
Qed.

Lemma journal_file_dirname (root : str) (d : Date) :
  dirname (pathJoin (journalsDir root) (dateStr d ++ lit ".md")) = journalsDir root.
Proof.
  apply dirname_join; rewrite forallb_app.
  now rewrite (dateChars_no "/" (dateStr d) eq_refl (dateStr_chars d)).
Qed.

(** Outside of the years 0 to 9999 the date starts with a sign. *)
Lemma hyphenDate_only_four_digit_year (d : Date) :
  hyphenDateMatch (dateStr d) = true -> (0 <= year d <= 9999)%Z.
Proof.
  unfold dateStr, isoYear.
  destruct ((0 <=? year d) && (year d <=? 9999))%Z eqn:E.
  - intros _; apply andb_true_iff in E as [H1 H2]; apply Z.leb_le in H1, H2; auto.
  - destruct (year d <? 0)%Z; discriminate.
Qed.

Variable uuidv4 : nat -> str.
Variable LOGSEQ_PATH : str.

(** C9, as amended.  [create_journal_page] creates a journal page exactly
    when the path of the file does not exist and the journals directory
    does; when the directory is missing the answer is an error and nothing
    is written, and when the path exists nothing is written either.  The
    file it creates is the file of the journals directory named after the
    date of [toISOString], which separates year, month and day by hyphens:
    the name has the form YYYY-MM-DD exactly for the years 0 to 9999, and a
    sign and six digits for the year otherwise.
    Whenever that file is read again the page has [isJournal = true] and no
    [journalDay]; a [journalDay] is only ever given to a page whose name is
    made of four, two and two digits separated by underscores. *)
Theorem created_journal_page_has_no_journalDay (dirs : Directories) (fs : FileSystem)
    (d : Date) (localeDate : str) :
  let filePath := pathJoin (journalsDir LOGSEQ_PATH) (dateStr d ++ lit ".md") in
  (forall p fs',
     create_journal_page LOGSEQ_PATH dirs fs d localeDate = (JournalCreated p, fs') ->
     p = filePath
     /\ pathExists dirs fs filePath = false
     /\ isDirectory dirs (journalsDir LOGSEQ_PATH) = true
     /\ exists journalContent,
          fs' = writeFileSync fs filePath journalContent
          /\ readFileSync fs' filePath = Some journalContent)
  /\ (pathExists dirs fs filePath = false ->
      isDirectory dirs (journalsDir LOGSEQ_PATH) = true ->
      exists fs',
        create_journal_page LOGSEQ_PATH dirs fs d localeDate = (JournalCreated filePath, fs'))
  /\ (pathExists dirs fs filePath = false ->
      isDirectory dirs (journalsDir LOGSEQ_PATH) = false ->
      create_journal_page LOGSEQ_PATH dirs fs d localeDate = (JournalError, fs))
  /\ (pathExists dirs fs filePath = true ->
      create_journal_page LOGSEQ_PATH dirs fs d localeDate = (JournalExists filePath, fs))
  /\ filePath = LOGSEQ_PATH ++ lit "/journals/" ++ dateStr d ++ lit ".md"
  /\ isoDateMatch (dateStr d) = true
  /\ (hyphenDateMatch (dateStr d) = true <-> (0 <= year d <= 9999)%Z)
  /\ (forall fs' text n,
        readFileSync fs' filePath = Some text ->
        exists page n',
          readPageFile uuidv4 fs' filePath n = (Some page, n')
          /\ name page = dateStr d /\ isJournal page = true /\ journalDay page = None)
  /\ (forall fs' p n page n' k,
        readPageFile uuidv4 fs' p n = (Some page, n') -> journalDay page = Some k ->
        exists y m dd,
          name page = y ++ lit "_" ++ m ++ lit "_" ++ dd
          /\ forallb isDigit (y ++ m ++ dd) = true).
Proof.
  intros filePath.
  assert (forall text,
            writeFile dirs fs filePath text
            = if negb (isDirectory dirs filePath) && isDirectory dirs (journalsDir LOGSEQ_PATH)
              then Some (writeFileSync fs filePath text) else None) as Hw
    by (intros text; apply write_journal_file).
  assert (pathExists dirs fs filePath = false -> isDirectory dirs filePath = false) as Hdir
    by (unfold pathExists; intros H; now apply orb_false_iff in H).
  split; [|split; [|split; [|split; [|split; [|split; [|split; [|split]]]]]]].
  - intros p fs'; unfold create_journal_page; fold filePath.
    destruct (pathExists dirs fs filePath) eqn:Hex; [discriminate|].
    rewrite Hw, (Hdir eq_refl); cbn [negb andb].
    destruct (isDirectory dirs (journalsDir LOGSEQ_PATH)); [|discriminate].
    intros [= <- <-]; repeat split.
    eexists; split; [reflexivity|apply read_after_write].
  - intros Hex Hj; unfold create_journal_page; fold filePath.
    rewrite Hex, Hw, (Hdir Hex), Hj; eexists; reflexivity.
  - intros Hex Hj; unfold create_journal_page; fold filePath.
    now rewrite Hex, Hw, (Hdir Hex), Hj.
  - intros Hex; unfold create_journal_page; fold filePath; now rewrite Hex.
  - apply journal_path.
  - apply isoDate_shape.
  - split; [apply hyphenDate_only_four_digit_year|apply hyphenDate_four_digit_year].
  - intros fs' text n Hr; unfold readPageFile; rewrite Hr.
    destruct (frontMatter text) as [props md].
    destruct (parseBlocks uuidv4 md n) as [bs n1]; simpl.
    eexists; eexists; split; [reflexivity|]; simpl.
    assert (includes filePath (lit "/journals/") = true) as ->
      by (unfold filePath; rewrite journal_path; apply includes_app).
    unfold filePath; rewrite journal_file_name by (apply dateStr_chars || apply dateStr_not_nil).
    repeat split; apply journalDayOf_date, dateStr_chars.
  - intros fs' p n page n' k; unfold readPageFile.
    destruct (readFileSync fs' p) as [text|]; [|discriminate].
    destruct (frontMatter text) as [props md].
    destruct (parseBlocks uuidv4 md n) as [bs n1]; simpl.
    intros [= <- _]; simpl.
    destruct (includes p (lit "/journals/")); [|discriminate].
    unfold journalDayOf.
    destruct (journalNameMatch _) as [[[y m] dd]|] eqn:E; [|discriminate].
    intros _; apply journalNameMatch_underscores in E as (E & A & _).
    exists y, m, dd; auto.
Qed.

End Journal.

Section JournalSamples.

(** Witness of C9: the journal page of 10 January 2025 in the review graph,
    with and without the journals directory. *)
Lemma created_journal_page_has_no_journalDay_witness :
  pathExists graphDirs reviewStore (lit "/graph/journals/2025-01-10.md") = false
  /\ isDirectory graphDirs (journalsDir graph) = true
  /\ create_journal_page graph graphDirs reviewStore january10 (lit "1/10/2025")
     = (JournalCreated (lit "/graph/journals/2025-01-10.md"),
        reviewStore ++
        [(lit "/graph/journals/2025-01-10.md",
          join [lit "# 2025-01-10"; []; lit "- Journal entry for 1/10/2025";
                lit "- TODO Add your thoughts for today"; []])])
  /\ isDirectory pagesOnlyDirs (journalsDir graph) = false
  /\ create_journal_page graph pagesOnlyDirs reviewStore january10 (lit "1/10/2025")
     = (JournalError, reviewStore)
  /\ (0 <= year january10 <= 9999)%Z
  /\ isoDateMatch (dateStr january10) = true
  /\ hyphenDateMatch (dateStr january10) = true
  /\ exists page n',
       readPageFile sampleUuid
         (snd (create_journal_page graph graphDirs reviewStore january10 (lit "1/10/2025")))
         (lit "/graph/journals/2025-01-10.md") 0 = (Some page, n')
       /\ name page = lit "2025-01-10" /\ isJournal page = true /\ journalDay page = None.
Proof.
  destruct (created_journal_page_has_no_journalDay sampleUuid graph graphDirs reviewStore
              january10 (lit "1/10/2025"))
    as (Hcreated & _ & _ & _ & _ & Hiso & Hshape & Hread & _).
  destruct (created_journal_page_has_no_journalDay sampleUuid graph pagesOnlyDirs reviewStore
              january10 (lit "1/10/2025"))
    as (_ & _ & Herror & _).
  destruct (Hcreated _ _ eq_refl) as (_ & Hex & Hj & _).
  split; [exact Hex|]; split; [exact Hj|]; split; [reflexivity|].
  split; [reflexivity|]; split; [exact (Herror eq_refl eq_refl)|].
  split; [simpl; lia|]; split; [exact Hiso|]; split.
  - apply Hshape; simpl; lia.
  - apply (Hread _ (join [lit "# 2025-01-10"; []; lit "- Journal entry for 1/10/2025";
                          lit "- TODO Add your thoughts for today"; []]) 0).
    reflexivity.
Defined.

(** The journal page of a day of the year 12345 is created under a name that
    starts with a sign and has six digits for the year: the name does not
    have the form YYYY-MM-DD. *)
Lemma created_journal_file_of_year_12345 :
  create_journal_page graph graphDirs reviewStore june7of12345 (lit "6/7/12345")
  = (JournalCreated (lit "/graph/journals/+012345-06-07.md"),
     reviewStore ++
     [(lit "/graph/journals/+012345-06-07.md",
       join [lit "# +012345-06-07"; []; lit "- Journal entry for 6/7/12345";
             lit "- TODO Add your thoughts for today"; []])])
  /\ dateStr june7of12345 = lit "+012345-06-07"
  /\ hyphenDateMatch (dateStr june7of12345) = false
  /\ isoDateMatch (dateStr june7of12345) = true.
Proof. repeat split; reflexivity. Qed.

End JournalSamples.

(** ** Further facts about texts, lines and the store *)

Section TextFacts.

Lemma dropWhile_app_all (p : ascii -> bool) (ws s : str) :
  forallb p ws = true -> dropWhile p (ws ++ s) = dropWhile p s.
Proof.
  induction ws as [|c ws IH]; simpl; intros H; [reflexivity|].
  apply andb_true_iff in H as [Hc Hs].
  rewrite dropWhile_cons by assumption; auto.
Qed.

Lemma dropWhile_all (p : ascii -> bool) (s : str) : forallb p s = true -> dropWhile p s = [].
Proof.
  intros H; rewrite <- (app_nil_r s), dropWhile_app_all by assumption; reflexivity.
Qed.

Lemma takeWhile_app_all (p : ascii -> bool) (ws s : str) :
  forallb p ws = true -> takeWhile p (ws ++ s) = ws ++ takeWhile p s.
Proof.
  unfold takeWhile; induction ws as [|c ws IH]; simpl; intros H; [reflexivity|].
  apply andb_true_iff in H as [Hc Hs]; rewrite Hc.
  specialize (IH Hs); destruct (span p (ws ++ s)); simpl in *; now f_equal.
Qed.

Lemma takeWhile_headOk (s : str) : headOk s = true -> takeWhile isSpace s = [].
Proof.
  unfold takeWhile; destruct s as [|c s]; simpl; [reflexivity|].
  destruct (isSpace c); [discriminate|reflexivity].
Qed.

Lemma headOk_app (t b : str) : t <> [] -> headOk (t ++ b) = headOk t.
Proof. destruct t; [congruence|reflexivity]. Qed.

(** A trimmed text between two runs of blanks is what [trim] returns. *)
Lemma trim_sandwich (a t b : str) :
  forallb isSpace a = true -> forallb isSpace b = true -> Trimmed t ->
  trim (a ++ t ++ b) = t.
Proof.
  intros Ha Hb [H1 H2]; unfold trim, trimStart, trimEnd.
  rewrite dropWhile_app_all by assumption.
  destruct t as [|c t].
  - simpl; rewrite (dropWhile_all _ _ Hb); reflexivity.
  - rewrite (dropWhile_id ((c :: t) ++ b)) by (rewrite headOk_app; [assumption|discriminate]).
    rewrite rev_app_distr, dropWhile_app_all by (now rewrite forallb_rev).
    rewrite (dropWhile_id _ H2); apply rev_involutive.
Qed.

Lemma trim_decompose (s : str) :
  exists a b, s = a ++ trim s ++ b
              /\ forallb isSpace a = true /\ forallb isSpace b = true.
Proof.
  unfold trim, trimStart, trimEnd, dropWhile.
  exists (fst (span isSpace s)), (rev (fst (span isSpace (rev (snd (span isSpace s)))))).
  split; [|split].
  - rewrite <- rev_app_distr, <- span_app, rev_involutive; apply span_app.
  - apply span_all.
  - rewrite forallb_rev; apply span_all.
Qed.

Lemma forallb_firstn {A : Type} (p : A -> bool) (k : nat) (s : list A) :
  forallb p s = true -> forallb p (firstn k s) = true.
Proof.
  revert s; induction k as [|k IH]; intros [|c s]; simpl; auto.
  intros H; apply andb_true_iff in H as [-> H]; simpl; auto.
Qed.

Lemma forallb_skipn {A : Type} (p : A -> bool) (k : nat) (s : list A) :
  forallb p s = true -> forallb p (skipn k s) = true.
Proof.
  revert s; induction k as [|k IH]; intros [|c s]; simpl; auto.
  intros H; apply andb_true_iff in H as [_ H]; auto.
Qed.

Lemma startsWith_nil (s : str) : startsWith s [] = true.
Proof. reflexivity. Qed.

Lemma startsWith_prefix (s p : str) : startsWith s p = true -> exists r, s = p ++ r.
Proof.
  unfold startsWith; destruct (stripPrefix p s) as [r|] eqn:E; [|discriminate].
  intros _; exists r; now apply stripPrefix_Some.
Qed.

Lemma includes_parts (s sub : str) :
  includes s sub = true -> exists a b, s = a ++ sub ++ b.
Proof.
  induction s as [|c s IH]; simpl; intros H.
  - rewrite orb_false_r in H; apply startsWith_prefix in H as [r ->]; now exists [], r.
  - apply orb_true_iff in H as [H|H].
    + apply startsWith_prefix in H as [r ->]; now exists [], r.
    + destruct (IH H) as (a & b & ->); now exists (c :: a), b.
Qed.

(** A text includes what one of its parts includes. *)
Lemma includes_inside (a s b sub : str) :
  includes s sub = true -> includes (a ++ s ++ b) sub = true.
Proof.
  intros H; apply includes_parts in H as (x & y & ->).
  replace (a ++ (x ++ sub ++ y) ++ b) with ((a ++ x) ++ sub ++ (y ++ b))
    by (now rewrite <- !app_assoc).
  apply includes_app.
Qed.

Lemma includes_none (x : ascii) (s : str) :
  forallb (notChar x) s = true -> includes s [x] = false.
Proof.
  induction s as [|c s IH]; simpl; intros H; [reflexivity|].
  apply andb_true_iff in H as [Hc Hs]; rewrite (IH Hs), orb_false_r.
  unfold startsWith; simpl; unfold notChar in Hc.
  rewrite Ascii.eqb_sym; destruct (Ascii.eqb c x); [discriminate|reflexivity].
Qed.

Lemma split_not_nil (s : str) : split s <> [].
Proof.
  induction s as [|c s IH]; simpl; [discriminate|].
  destruct (Ascii.eqb c newline); [discriminate|].
  destruct (split s); discriminate.
Qed.

Lemma join_cons (l : str) (ls : list str) :
  ls <> [] -> join (l :: ls) = l ++ newline :: join ls.
Proof. destruct ls; [congruence|reflexivity]. Qed.

(** Cutting a text into lines and joining them gives the text back. *)
Lemma join_split (s : str) : join (split s) = s.
Proof.
  induction s as [|c s IH]; [reflexivity|]; simpl.
  destruct (Ascii.eqb c newline) eqn:E.
  - apply Ascii.eqb_eq in E; subst c.
    rewrite join_cons by apply split_not_nil; now rewrite IH.
  - pose proof (split_not_nil s) as Hne.
    destruct (split s) as [|l ls]; [congruence|].
    destruct ls as [|l' ls]; simpl in *; now rewrite <- IH.
Qed.

Lemma join_last (ls : list str) (x : str) :
  ls <> [] -> join (ls ++ [x]) = join ls ++ newline :: x.
Proof.
  induction ls as [|l ls IH]; [congruence|]; intros _.
  destruct ls as [|l' ls]; [reflexivity|].
  change ((l :: l' :: ls) ++ [x]) with (l :: (l' :: ls) ++ [x]).
  rewrite join_cons by discriminate.
  rewrite IH by discriminate.
  rewrite (join_cons l (l' :: ls)) by discriminate.
  now rewrite <- app_assoc.
Qed.

(** A text that ends with a line break and a line: its lines are those of
    the text before, then the line. *)
Lemma split_last (t line : str) :
  noNewline line = true -> split (t ++ newline :: line) = split t ++ [line].
Proof.
  intros H; induction t as [|c t IH]; simpl.
  - change (split (newline :: line)) with ([] :: split line); now rewrite split_single.
  - destruct (Ascii.eqb c newline); [now rewrite IH|].
    rewrite IH; pose proof (split_not_nil t) as Hne.
    destruct (split t); [congruence|reflexivity].
Qed.

Lemma join_part (ls : list str) (l : str) :
  In l ls -> exists a b, join ls = a ++ l ++ b.
Proof.
  induction ls as [|l1 ls IH]; [intros []|].
  destruct ls as [|l2 ls].
  - intros [<-|[]]; exists [], []; simpl; now rewrite app_nil_r.
  - rewrite join_cons by discriminate.
    intros [<-|H]; [now exists [], (newline :: join (l2 :: ls))|].
    destruct (IH H) as (a & b & ->).
    exists (l1 ++ newline :: a), b; now rewrite <- app_assoc.
Qed.

(** A line of a text is a part of it. *)
Lemma split_part (s l : str) : In l (split s) -> exists a b, s = a ++ l ++ b.
Proof.
  intros H; destruct (join_part _ _ H) as (a & b & E).
  rewrite join_split in E; eauto.
Qed.

Lemma includes_line (s l sub : str) :
  In l (split s) -> includes l sub = true -> includes s sub = true.
Proof.
  intros H Hl; apply split_part in H as (a & b & ->); now apply includes_inside.
Qed.

End TextFacts.

Section StoreFrame.

Lemma str_eqb_neq (a b : str) : a <> b -> str_eqb a b = false.
Proof.
  intros H; destruct (str_eqb a b) eqn:E; [|reflexivity].
  apply str_eqb_eq in E; contradiction.
Qed.

Lemma str_eqb_sym (a b : str) : str_eqb a b = str_eqb b a.
Proof.
  destruct (str_eqb b a) eqn:E.
  - apply str_eqb_eq in E; subst; apply str_eqb_refl.
  - apply str_eqb_neq; intros ->; now rewrite str_eqb_refl in E.
Qed.

(** Writing a file leaves the other files as they are. *)
Lemma read_other_after_write (fs : FileSystem) (p q text : str) :
  q <> p -> readFileSync (writeFileSync fs p text) q = readFileSync fs q.
Proof.
  intros H; induction fs as [|[q0 old] fs IH]; simpl.
  - now rewrite (str_eqb_neq q p H).
  - destruct (str_eqb p q0) eqn:E; simpl.
    + apply str_eqb_eq in E; subst q0; now rewrite (str_eqb_neq q p H).
    + now rewrite IH.
Qed.

Lemma write_keeps_paths (fs : FileSystem) (p text : str) :
  existsSync fs p = true -> map fst (writeFileSync fs p text) = map fst fs.
Proof.
  unfold existsSync; induction fs as [|[q0 old] fs IH]; simpl; [discriminate|].
  destruct (str_eqb p q0); simpl; [reflexivity|].
  intros H; now rewrite IH.
Qed.

Lemma write_same (fs : FileSystem) (p text : str) :
  readFileSync fs p = Some text -> writeFileSync fs p text = fs.
Proof.
  induction fs as [|[q0 old] fs IH]; simpl; [discriminate|].
  destruct (str_eqb p q0); [now intros [= ->]|].
  intros H; now rewrite IH.
Qed.

Lemma readFileSync_In (fs : FileSystem) (p text : str) :
  readFileSync fs p = Some text -> In (p, text) fs.
Proof.
  induction fs as [|[q0 old] fs IH]; simpl; [discriminate|].
  destruct (str_eqb p q0) eqn:E; [|auto].
  apply str_eqb_eq in E; subst; intros [= ->]; auto.
Qed.

Lemma In_readable (fs : FileSystem) (p : str) :
  In p (map fst fs) -> exists text, readFileSync fs p = Some text.
Proof.
  induction fs as [|[q0 old] fs IH]; simpl; [tauto|].
  destruct (str_eqb p q0) eqn:E; [eauto|].
  intros [->|H]; [now rewrite str_eqb_refl in E|auto].
Qed.

Lemma readable_In (fs : FileSystem) (p text : str) :
  readFileSync fs p = Some text -> In p (map fst fs).
Proof. intros H; apply readFileSync_In in H; now apply (in_map fst) in H. Qed.

Lemma read_after_unlink (fs : FileSystem) (p : str) :
  readFileSync (unlinkSync fs p) p = None.
Proof.
  unfold unlinkSync; induction fs as [|[q0 old] fs IH]; simpl; [reflexivity|].
  destruct (str_eqb p q0) eqn:E; simpl; [exact IH|now rewrite E].
Qed.

Lemma read_other_after_unlink (fs : FileSystem) (p q : str) :
  q <> p -> readFileSync (unlinkSync fs p) q = readFileSync fs q.
Proof.
  intros H; unfold unlinkSync; induction fs as [|[q0 old] fs IH]; simpl; [reflexivity|].
  destruct (str_eqb p q0) eqn:E; simpl.
  - apply str_eqb_eq in E; subst q0; now rewrite (str_eqb_neq q p H).
  - now rewrite IH.
Qed.

Lemma findMarkdownFiles_listed (fs : FileSystem) (dir p : str) :
  In p (findMarkdownFiles fs dir) ->
  In p (map fst fs)
  /\ startsWith p (dir ++ lit "/") = true
  /\ (endsWith p (lit ".md") || endsWith p (lit ".org")) = true.
Proof.
  unfold findMarkdownFiles; intros H; apply filter_In in H as [H1 H2].
  apply andb_true_iff in H2 as [H2 H3]; auto.
Qed.

Lemma findMarkdownFiles_write (fs : FileSystem) (dir p text : str) :
  existsSync fs p = true ->
  findMarkdownFiles (writeFileSync fs p text) dir = findMarkdownFiles fs dir.
Proof. intros H; unfold findMarkdownFiles; now rewrite write_keeps_paths. Qed.

End StoreFrame.

(** ** Further facts about [readPageFile] and [getAllPages] *)

Section PageFacts.

Variable uuidv4 : nat -> str.

Lemma readPageFile_fields (fs : FileSystem) (p : str) (n n' : nat) (page : LogseqPage) :
  readPageFile uuidv4 fs p n = (Some page, n') ->
  exists text,
    readFileSync fs p = Some text
    /\ path page = p /\ name page = pageNameOf p
    /\ blocks page = fst (parseBlocks uuidv4 (snd (frontMatter text)) n)
    /\ pageProperties page = orUndefined (fst (frontMatter text))
    /\ title page = match lookupKey (fst (frontMatter text)) (lit "title") with
                    | Some ((_ :: _) as t) => t
                    | _ => pageNameOf p
                    end
    /\ namespace page = namespaceOf (pageNameOf p)
    /\ isJournal page = includes p (lit "/journals/").
Proof.
  unfold readPageFile.
  destruct (readFileSync fs p) as [text|]; [|discriminate].
  intros H; exists text; revert H.
  destruct (frontMatter text) as [props md]; cbn [fst snd].
  destruct (parseBlocks uuidv4 md n) as [bs n1]; simpl.
  intros [= <- _]; simpl; repeat split; reflexivity.
Qed.

Lemma readPageFile_readable (fs : FileSystem) (p text : str) (n : nat) :
  readFileSync fs p = Some text ->
  exists page n', readPageFile uuidv4 fs p n = (Some page, n').
Proof.
  intros H; unfold readPageFile; rewrite H.
  destruct (frontMatter text) as [props md].
  destruct (parseBlocks uuidv4 md n) as [bs n1]; simpl; eauto.
Qed.

Lemma readPages_In (fs : FileSystem) (files : list str) (n : nat) (page : LogseqPage) :
  In page (fst (readPages uuidv4 fs files n)) ->
  In (path page) files
  /\ exists k k', readPageFile uuidv4 fs (path page) k = (Some page, k').
Proof.
  revert n; induction files as [|p files IH]; intros n; simpl; [tauto|].
  destruct (readPageFile uuidv4 fs p n) as [read n1] eqn:E.
  specialize (IH n1).
  destruct (readPages uuidv4 fs files n1) as [pages n2]; simpl in *.
  destruct read as [pg|]; simpl.
  - intros [<-|H].
    + pose proof (readPageFile_path uuidv4 _ _ _ _ _ E) as [Hp _].
      rewrite Hp; split; [auto|eauto].
    + destruct (IH H) as [H1 H2]; auto.
  - intros H; destruct (IH H) as [H1 H2]; auto.
Qed.

Lemma readPages_paths (fs : FileSystem) (files : list str) (n : nat) :
  (forall f, In f files -> exists text, readFileSync fs f = Some text) ->
  map path (fst (readPages uuidv4 fs files n)) = files.
Proof.
  revert n; induction files as [|p files IH]; intros n H; simpl; [reflexivity|].
  destruct (H p (or_introl eq_refl)) as [text Hr].
  destruct (readPageFile_readable fs p text n Hr) as (page & n1 & E); rewrite E.
  specialize (IH n1 (fun f Hf => H f (or_intror Hf))).
  destruct (readPages uuidv4 fs files n1) as [pages n2]; simpl in *.
  apply readPageFile_path in E as [-> _]; now rewrite IH.
Qed.

Lemma noteFiles_readable (root : str) (fs : FileSystem) (f : str) :
  In f (findMarkdownFiles fs (pagesDir root) ++ findMarkdownFiles fs (journalsDir root)) ->
  exists text, readFileSync fs f = Some text.
Proof.
  intros H; apply in_app_or in H as [H|H];
    apply findMarkdownFiles_listed in H as [H _]; now apply In_readable.
Qed.

Lemma pageNameOf_no_slash (p : str) : forallb (notChar "/") (pageNameOf p) = true.
Proof.
  unfold pageNameOf, basename.
  assert (forallb (notChar "/") (lastSegment p) = true) as H
    by (unfold lastSegment, takeWhile; rewrite forallb_rev; apply span_all).
  destruct (negb _ && _ && _); [now apply forallb_firstn|exact H].
Qed.

Variable LOGSEQ_PATH : str.

(** The paths of the pages that [getAllPages] returns. *)
Lemma pagesOf_paths (fs : FileSystem) (n : nat) :
  map path (pagesOf uuidv4 LOGSEQ_PATH fs n)
  = findMarkdownFiles fs (pagesDir LOGSEQ_PATH)
    ++ findMarkdownFiles fs (journalsDir LOGSEQ_PATH).
Proof.
  unfold pagesOf, getAllPages; apply readPages_paths; intros f; apply noteFiles_readable.
Qed.

(** What [getAllPages] reads off the file of a page. *)
Lemma pagesOf_named (fs : FileSystem) (n : nat) (page : LogseqPage) :
  In page (pagesOf uuidv4 LOGSEQ_PATH fs n) ->
  name page = pageNameOf (path page)
  /\ isJournal page = includes (path page) (lit "/journals/")
  /\ exists text, readFileSync fs (path page) = Some text.
Proof.
  unfold pagesOf, getAllPages; intros H.
  apply readPages_In in H as (_ & k & k' & E).
  apply readPageFile_fields in E as (text & Hr & _ & Hn & _ & _ & _ & _ & Hj).
  eauto.
Qed.

(** X2.  No page that [getAllPages] returns has a namespace: the page name is
    the base name of the file, which holds no slash, and the namespace is
    only set for a name that holds one. *)
Theorem namespace_is_never_set (fs : FileSystem) (n : nat) (page : LogseqPage) :
  In page (pagesOf uuidv4 LOGSEQ_PATH fs n) ->
  namespace page = None /\ includes (name page) (lit "/") = false.
Proof.
  unfold pagesOf, getAllPages; intros H; apply readPages_In in H as (_ & k & k' & E).
  apply readPageFile_fields in E as (text & _ & _ & Hn & _ & _ & _ & Hs & _).
  assert (includes (pageNameOf (path page)) (lit "/") = false) as Hno
    by apply includes_none, pageNameOf_no_slash.
  rewrite Hs, Hn; unfold namespaceOf; now rewrite Hno.
Qed.

End PageFacts.

(** ** The header of a file and the lines behind it *)

Section HeaderFacts.

Lemma startsWith_app_l (a b p : str) : startsWith a p = true -> startsWith (a ++ b) p = true.
Proof.
  intros H; apply startsWith_prefix in H as [r ->].
  rewrite <- app_assoc; apply startsWith_app.
Qed.











Variable uuidv4 : nat -> str.


End HeaderFacts.

(** ** [delete_block]: the line removed and the blocks left *)

Section DeletedLine.


Variable uuidv4 : nat -> str.
Variable LOGSEQ_PATH : str.


End DeletedLine.

Section DeletedLineSamples.


(** The first line of a file removed, the line after it being three dashes:
    the lines that follow, up to the next three dashes, become the header of
    the file, and the blocks that they gave are no longer blocks of the
    page. *)
Lemma delete_block_turns_lines_into_header :
  delete_block sampleUuid graph sectionStore 0 (lit "aaaaaaaa")
  = (Deleted "UUID at start" (lit "notes") 0 (lit "- aaaaaaaa intro") true,
     [(lit "/graph/pages/notes.md",
       join [lit "---"; lit "- bbbbbbbb section 1"; lit "---"; lit "- cccccccc section 2"])])
  /\ noHeader (join [lit "- aaaaaaaa intro"; lit "---"; lit "- bbbbbbbb section 1"; lit "---";
                    lit "- cccccccc section 2"]) = true
  /\ noHeader (join [lit "---"; lit "- bbbbbbbb section 1"; lit "---";
                    lit "- cccccccc section 2"]) = false
  /\ option_map (fun page => map content (blocks page))
       (fst (readPageFile sampleUuid sectionStore (lit "/graph/pages/notes.md") 0))
     = Some [lit "intro"; lit "--"; lit "section 1"; lit "--"; lit "section 2"]
  /\ option_map (fun page => map content (blocks page))
       (fst (readPageFile sampleUuid
               (snd (delete_block sampleUuid graph sectionStore 0 (lit "aaaaaaaa")))
               (lit "/graph/pages/notes.md") 0))
     = Some [lit "section 2"].
Proof. repeat split; vm_compute; reflexivity. Qed.

End DeletedLineSamples.

(** ** Further facts about the block parser *)

Section BlockParserLaws.

Variable uuidv4 : nat -> str.

Lemma parseLines_In (lines : list str) (n : nat) (b : LogseqBlock) :
  In b (fst (parseLines uuidv4 lines n)) ->
  exists line m m', In line lines /\ parseLine uuidv4 line m = (Some b, m').
Proof.
  revert n; induction lines as [|line lines IH]; intros n; simpl; [tauto|].
  destruct (parseLine uuidv4 line n) as [found n1] eqn:E.
  specialize (IH n1).
  destruct (parseLines uuidv4 lines n1) as [bs n2]; simpl in *.
  assert (In b bs -> exists l m m', (line = l \/ In l lines)
                                    /\ parseLine uuidv4 l m = (Some b, m')) as Hrest
    by (intros H; destruct (IH H) as (l & m & m' & Hl & Hp); eauto 6).
  destruct found as [b0|]; [|exact Hrest].
  intros [<-|H]; [eauto 6|auto].
Qed.

Lemma parseLine_body (line : str) (n n' : nat) (b : LogseqBlock) :
  parseLine uuidv4 line n = (Some b, n') ->
  trim line <> [] /\ startsWith (trim line) (lit "#") = false.
Proof.
  unfold parseLine.
  destruct (trim line) as [|c t] eqn:E; [discriminate|]; simpl isEmpty; cbv iota.
  destruct (startsWith (c :: t) (lit "#")); [discriminate|].
  intros _; split; [discriminate|reflexivity].
Qed.

Lemma parseLines_length (lines : list str) (n : nat) :
  length (fst (parseLines uuidv4 lines n)) <= length lines.
Proof.
  revert n; induction lines as [|line lines IH]; intros n; simpl; [lia|].
  destruct (parseLine uuidv4 line n) as [found n1].
  specialize (IH n1).
  destruct (parseLines uuidv4 lines n1) as [bs n2]; simpl in *.
  destruct found; simpl; lia.
Qed.

(** X3.  Every block that [parseBlocks] returns comes from a line of the
    text that is neither blank nor a heading; its level is half the number of
    blanks that start the line, and its content, what is left of the line
    once the tokens are cut out, is not empty and neither starts nor ends
    with a blank. *)
Theorem parsed_blocks_come_from_body_lines (text : str) (n : nat) (b : LogseqBlock) :
  In b (fst (parseBlocks uuidv4 text n)) ->
  exists line,
    In line (split text)
    /\ trim line <> [] /\ startsWith (trim line) (lit "#") = false
    /\ level b = length (takeWhile isSpace line) / 2
    /\ content b = content_clean (remainderOf line)
    /\ content b <> [] /\ Trimmed (content b).
Proof.
  unfold parseBlocks; intros H.
  apply parseLines_In in H as (line & m & m' & Hin & Hp).
  exists line; split; [exact Hin|].
  destruct (parseLine_body _ _ _ _ Hp) as [H1 H2].
  apply parseLine_Some in Hp as [uid Hb].
  apply blockOf_Some in Hb as (_ & Hl & Hc & Hne & _).
  repeat split; auto.
  - rewrite Hc; apply trim_Trimmed.
  - rewrite Hc; apply trim_Trimmed.
Qed.

Lemma blockOf_level (uid : str) (lvl lvl' : nat) (s : str) :
  blockOf uid lvl s = option_map (withLevel lvl) (blockOf uid lvl' s).
Proof.
  unfold blockOf.
  destruct (todoStage s) as [t s1]; destruct (priorityStage s1) as [p s2].
  destruct (isEmpty (content_clean s2)); reflexivity.
Qed.

Lemma trim_indented (ws line : str) :
  forallb isSpace ws = true -> trim (ws ++ line) = trim line.
Proof.
  intros H; unfold trim, trimStart; now rewrite dropWhile_app_all.
Qed.

(** X4.  Blanks put in front of a line change nothing of its block but the
    level: a line that starts without a blank gives level 0, and the same
    line behind [k] blanks, spaces or tabs alike, gives level [k / 2].  The
    identities drawn for the line are the same. *)
Theorem indentation_sets_level (ws line : str) (n : nat) :
  forallb isSpace ws = true -> headOk line = true ->
  parseLine uuidv4 (ws ++ line) n
  = (option_map (withLevel (length ws / 2)) (fst (parseLine uuidv4 line n)),
     snd (parseLine uuidv4 line n))
  /\ forall b, fst (parseLine uuidv4 line n) = Some b -> level b = 0.
Proof.
  intros Hws Hline; unfold parseLine.
  rewrite trim_indented, takeWhile_app_all by assumption.
  rewrite (takeWhile_headOk line Hline), app_nil_r.
  destruct (isEmpty (trim line)); [split; [reflexivity|discriminate]|].
  destruct (startsWith (trim line) (lit "#")); [split; [reflexivity|discriminate]|].
  destruct (identityOf uuidv4 (stripBullet (trim line)) n) as [[uid afterId] n1].
  cbn [fst snd length]; split.
  - now rewrite (blockOf_level uid (length ws / 2) (0 / 2)).
  - intros b Hb; now apply blockOf_Some in Hb as (_ & -> & _).
Qed.

End BlockParserLaws.

Section BlockParserLawsSamples.

(** A heading, an empty line, and a block behind a tab and two spaces. *)
Lemma parsed_blocks_come_from_body_lines_witness :
  exists b,
    In b (fst (parseBlocks sampleUuid
                 (join [lit "# Plan"; []; lit "   - TODO [#B] call ana "]) 0))
    /\ content b = lit "call ana" /\ level b = 1
    /\ exists line,
         In line (split (join [lit "# Plan"; []; lit "   - TODO [#B] call ana "]))
         /\ trim line <> [] /\ startsWith (trim line) (lit "#") = false
         /\ level b = length (takeWhile isSpace line) / 2
         /\ content b = content_clean (remainderOf line)
         /\ content b <> [] /\ Trimmed (content b).
Proof.
  assert (exists b,
            In b (fst (parseBlocks sampleUuid
                         (join [lit "# Plan"; []; lit "   - TODO [#B] call ana "]) 0))
            /\ content b = lit "call ana" /\ level b = 1) as (b & Hin & Hc & Hl)
    by (vm_compute; eexists; split; [left; reflexivity|split; reflexivity]).
  exists b; split; [exact Hin|]; split; [exact Hc|]; split; [exact Hl|].
  exact (parsed_blocks_come_from_body_lines sampleUuid _ 0 _ Hin).
Defined.

(** One tab does not nest a block, two tabs nest it once. *)
Lemma indentation_sets_level_witness :
  forallb isSpace [ascii_of_N 9] = true
  /\ forallb isSpace [ascii_of_N 9; ascii_of_N 9] = true
  /\ headOk (lit "- DONE read") = true
  /\ option_map level (fst (parseLine sampleUuid ([ascii_of_N 9] ++ lit "- DONE read") 0))
     = Some 0
  /\ option_map level
       (fst (parseLine sampleUuid ([ascii_of_N 9; ascii_of_N 9] ++ lit "- DONE read") 0))
     = Some 1
  /\ parseLine sampleUuid ([ascii_of_N 9; ascii_of_N 9] ++ lit "- DONE read") 0
     = (option_map (withLevel 1) (fst (parseLine sampleUuid (lit "- DONE read") 0)),
        snd (parseLine sampleUuid (lit "- DONE read") 0)).
Proof.
  split; [reflexivity|]; split; [reflexivity|]; split; [reflexivity|].
  split; [vm_compute; reflexivity|]; split; [vm_compute; reflexivity|].
  exact (proj1 (indentation_sets_level sampleUuid [ascii_of_N 9; ascii_of_N 9]
                  (lit "- DONE read") 0 eq_refl eq_refl)).
Defined.

End BlockParserLawsSamples.

(** ** The identity of a request *)

Section Identities.

Lemma startsWith_firstn (k : nat) (u : str) : startsWith u (firstn k u) = true.
Proof.
  rewrite <- (firstn_skipn k u) at 1; apply startsWith_app.
Qed.

Lemma idMatches_prefix (blockUuid : str) (b : LogseqBlock) :
  idMatches blockUuid b = startsWith (uuid b) blockUuid.
Proof.
  unfold idMatches.
  destruct (startsWith (uuid b) blockUuid) eqn:E; [apply orb_true_r|].
  rewrite orb_false_r.
  destruct (str_eqb (uuid b) blockUuid) eqn:E1.
  - apply str_eqb_eq in E1; rewrite <- E1, <- (app_nil_r (uuid b)) in E at 1.
    now rewrite startsWith_app in E.
  - destruct (str_eqb (slice 0 8 (uuid b)) blockUuid) eqn:E2; [|reflexivity].
    apply str_eqb_eq in E2; rewrite <- E2 in E.
    change (slice 0 8 (uuid b)) with (firstn 8 (uuid b)) in E.
    now rewrite startsWith_firstn in E.
Qed.

Lemma findTarget_allBlocks (blockUuid : str) (pages : list LogseqPage) :
  findTarget blockUuid pages
  = find (fun pb => startsWith (uuid (snd pb)) blockUuid) (allBlocks pages).
Proof.
  induction pages as [|page pages IH]; [reflexivity|].
  unfold allBlocks in *; simpl; rewrite IH; clear IH.
  induction (blocks page) as [|b bs IHb]; [reflexivity|].
  simpl; rewrite idMatches_prefix.
  destruct (startsWith (uuid b) blockUuid); [reflexivity|exact IHb].
Qed.

Variable uuidv4 : nat -> str.
Variable LOGSEQ_PATH : str.

(** X5.  The test by which [get_block] and [delete_block] designate a block
    (the identity equals the request, or its first eight characters do, or it
    starts with the request) is the prefix test alone: both tools stop at the
    first block, in reading order, whose identity starts with the request.
    So the empty request designates the first block of the graph, and
    [delete_block] answers that a block is not found exactly when no
    identity starts with the request. *)
Theorem identity_test_is_prefix_test (fs : FileSystem) (n : nat) (blockUuid : str) :
  (forall b, idMatches blockUuid b = startsWith (uuid b) blockUuid)
  /\ get_block uuidv4 LOGSEQ_PATH fs n blockUuid
     = find (fun pb => startsWith (uuid (snd pb)) blockUuid)
            (allBlocks (pagesOf uuidv4 LOGSEQ_PATH fs n))
  /\ get_block uuidv4 LOGSEQ_PATH fs n [] = hd_error (allBlocks (pagesOf uuidv4 LOGSEQ_PATH fs n))
  /\ (delete_block uuidv4 LOGSEQ_PATH fs n blockUuid = (BlockNotFound, fs)
      <-> get_block uuidv4 LOGSEQ_PATH fs n blockUuid = None)
  /\ (get_block uuidv4 LOGSEQ_PATH fs n blockUuid = None
      <-> forall page b, In page (pagesOf uuidv4 LOGSEQ_PATH fs n) -> In b (blocks page) ->
                         startsWith (uuid b) blockUuid = false).
Proof.
  unfold get_block, delete_block, pagesOf.
  destruct (getAllPages uuidv4 LOGSEQ_PATH fs n) as [pages n1]; cbn [fst].
  split; [apply idMatches_prefix|].
  split; [apply findTarget_allBlocks|].
  split; [rewrite findTarget_allBlocks; now destruct (allBlocks pages)|].
  split.
  - destruct (findTarget blockUuid pages) as [[page b]|]; [|tauto].
    split; [|discriminate].
    destruct (readFileSync fs (path page)); [|discriminate].
    destruct (findLine _ _) as [[i strategy]|]; discriminate.
  - split.
    + intros H page b Hp Hb; rewrite <- idMatches_prefix.
      induction pages as [|pg pages IH]; [destruct Hp|].
      simpl in H; destruct (find (idMatches blockUuid) (blocks pg)) eqn:F; [discriminate|].
      destruct Hp as [->|Hp]; [|auto].
      apply (find_none _ _ F b Hb).
    + intros H; apply findTarget_None.
      intros page b Hp Hb; rewrite idMatches_prefix; eauto.
Qed.

End Identities.

Section IdentitySamples.

(** The review graph: an empty request designates its first block, the
    request [b] the second one. *)
Lemma empty_identity_designates_first_block :
  option_map (fun pb => content (snd pb))
    (get_block sampleUuid graph reviewStore 0 []) = Some (lit "Review PR")
  /\ option_map (fun pb => uuid (snd pb)) (get_block sampleUuid graph reviewStore 0 [])
     = Some (lit "aaaaaaaa-0000-4000-8000-000000000000")
  /\ option_map (fun pb => uuid (snd pb)) (get_block sampleUuid graph reviewStore 0 (lit "b"))
     = Some (lit "bbbbbbbb-0000-4000-8000-000000000000")
  /\ fst (delete_block sampleUuid graph reviewStore 0 [])
     = Deleted "UUID at start" (lit "work") 0 (lit "- aaaaaaaa Review PR") true.
Proof. vm_compute; repeat split. Qed.

End IdentitySamples.

(** ** [update_block]: when nothing is found *)

Section UpdateNotFound.

Lemma updateLines_None_inv (blockUuid payload : str) (lines : list str) :
  updateLines blockUuid payload lines = None ->
  forall line, In line lines ->
    lineIncludesUuid blockUuid line = true -> dashBulletMatch line = None.
Proof.
  induction lines as [|l lines IH]; simpl; [tauto|].
  destruct (lineIncludesUuid blockUuid l) eqn:E.
  - destruct (dashBulletMatch l) as [[bullet rest]|] eqn:D; [discriminate|].
    destruct (updateLines blockUuid payload lines); [discriminate|].
    intros _ line [<-|H]; auto.
  - destruct (updateLines blockUuid payload lines); [discriminate|].
    intros _ line [<-|H]; [congruence|auto].
Qed.

Lemma updatePages_not_found_inv (fs fs' : FileSystem) (blockUuid payload : str)
    (pages : list LogseqPage) :
  updatePages fs blockUuid payload pages = (UpdateNotFound, fs') ->
  forall page text line,
    In page pages -> readFileSync fs (path page) = Some text -> In line (split text) ->
    lineIncludesUuid blockUuid line = true -> dashBulletMatch line = None.
Proof.
  induction pages as [|pg pages IH]; simpl; [tauto|].
  destruct (readFileSync fs (path pg)) as [t|] eqn:R; [|discriminate].
  destruct (updateLines blockUuid payload (split t)) as [ls|] eqn:U; [discriminate|].
  intros H page text line [<-|Hp] Hr; [|eauto].
  rewrite R in Hr; injection Hr as <-.
  now apply updateLines_None_inv with (payload := payload).
Qed.

Lemma lineIncludesUuid_empty (line : str) : lineIncludesUuid [] line = true.
Proof. unfold lineIncludesUuid; now destruct line. Qed.

Variable uuidv4 : nat -> str.
Variable LOGSEQ_PATH : str.

(** X6.  [update_block] answers that the block is not found exactly when no
    line of a page file both names the requested identity and has the dash
    bullet form, and then it writes nothing.  Every line names the empty
    identity: with an empty request the tool finds nothing only in a graph
    without any dash bullet line. *)
Theorem update_block_not_found_iff (fs : FileSystem) (n : nat) (blockUuid payload : str) :
  (update_block uuidv4 LOGSEQ_PATH fs n blockUuid payload = (UpdateNotFound, fs)
   <-> NoDashLineNames fs blockUuid (pagesOf uuidv4 LOGSEQ_PATH fs n))
  /\ (update_block uuidv4 LOGSEQ_PATH fs n [] payload = (UpdateNotFound, fs)
      <-> forall page text line,
            In page (pagesOf uuidv4 LOGSEQ_PATH fs n) ->
            readFileSync fs (path page) = Some text -> In line (split text) ->
            dashBulletMatch line = None).
Proof.
  assert (forall q,
            update_block uuidv4 LOGSEQ_PATH fs n q payload = (UpdateNotFound, fs)
            <-> NoDashLineNames fs q (pagesOf uuidv4 LOGSEQ_PATH fs n)) as Hiff.
  { intros q; rewrite update_block_pages; split.
    - intros H page text line; now apply updatePages_not_found_inv with (1 := H).
    - intros H; apply updatePages_not_found; [|exact H].
      intros page; apply getAllPages_readable. }
  split; [apply Hiff|].
  rewrite Hiff; unfold NoDashLineNames; split.
  - intros H page text line Hp Hr Hl; apply (H page text line Hp Hr Hl).
    apply lineIncludesUuid_empty.
  - intros H page text line Hp Hr Hl _; eauto.
Qed.

End UpdateNotFound.

Section UpdateNotFoundSamples.

(** An empty request rewrites the first dash line of the review graph. *)
Lemma empty_identity_rewrites_first_dash_line :
  update_block sampleUuid graph reviewStore 0 [] (lit "gone")
  = (Updated (lit "work"),
     [(lit "/graph/pages/work.md", join [lit "- gone"; lit "- bbbbbbbb Review PR"])]).
Proof. vm_compute; reflexivity. Qed.

End UpdateNotFoundSamples.

(** ** [search]: what it reports *)

Section SearchLaws.

Lemma matchFrom_shift (query s : str) (i : nat) :
  matchFrom query s i = option_map (Nat.add i) (matchFrom query s 0).
Proof.
  revert i; induction s as [|c s IH]; intros i; simpl.
  - destruct (matchesHere query []); simpl; [now rewrite Nat.add_0_r|reflexivity].
  - destruct (matchesHere query (c :: s)); simpl; [now rewrite Nat.add_0_r|].
    rewrite (IH (S i)), (IH 1).
    destruct (matchFrom query s 0); simpl; [f_equal; lia|reflexivity].
Qed.

Lemma occursIn_cons (query s : str) (c : ascii) :
  occursIn query s = true -> occursIn query (c :: s) = true.
Proof.
  unfold occursIn; simpl.
  destruct (matchesHere query (c :: s)); [reflexivity|].
  rewrite (matchFrom_shift query s 1); now destruct (matchFrom query s 0).
Qed.

Lemma occursIn_skipn (query s : str) (k : nat) :
  occursIn query (skipn k s) = true -> occursIn query s = true.
Proof.
  revert s; induction k as [|k IH]; intros [|c s]; simpl; auto.
  intros H; now apply occursIn_cons, IH.
Qed.

Lemma regexTest_hit (query s : str) (i j : nat) :
  regexTest query s i = (true, j) -> occursIn query s = true.
Proof.
  unfold regexTest.
  destruct (length s <? i); [discriminate|].
  rewrite matchFrom_shift.
  destruct (matchFrom query (skipn i s) 0) eqn:E; [|discriminate].
  intros _; apply (occursIn_skipn query s i); unfold occursIn; now rewrite E.
Qed.

(** The first test, and every test that follows a failed one, starts at the
    beginning of the text: it answers whether the query occurs, and a
    failure leaves the next test at the beginning again. *)
Lemma regexTest_zero (query s : str) :
  fst (regexTest query s 0) = occursIn query s
  /\ (occursIn query s = false -> regexTest query s 0 = (false, 0)).
Proof.
  unfold regexTest, occursIn; simpl.
  destruct (matchFrom query s 0); simpl; split; auto; discriminate.
Qed.

Lemma searchBlocks_sound (query pageName : str) (bs : list LogseqBlock) (i : nat)
    (r : SearchResult) :
  In r (fst (searchBlocks query pageName bs i)) ->
  exists b, In b bs
            /\ r = BlockResult pageName (content b) (slice 0 8 (uuid b)) (todo b)
            /\ occursIn query (content b) = true.
Proof.
  revert i; induction bs as [|b bs IH]; intros i; simpl; [tauto|].
  destruct (regexTest query (content b) i) as [hit i1] eqn:E.
  specialize (IH i1).
  destruct (searchBlocks query pageName bs i1) as [results i2]; simpl in *.
  assert (In r results -> exists b0, (b = b0 \/ In b0 bs)
            /\ r = BlockResult pageName (content b0) (slice 0 8 (uuid b0)) (todo b0)
            /\ occursIn query (content b0) = true) as Hrest
    by (intros H; destruct (IH H) as (b0 & H1 & H2); eauto).
  destruct hit; [|exact Hrest].
  intros [<-|H]; [|auto].
  exists b; repeat split; auto; now apply regexTest_hit in E.
Qed.

Lemma pageTest_hit (query : str) (page : LogseqPage) (i j : nat) :
  pageTest query page i = (true, j) ->
  (occursIn query (name page) || occursIn query (title page)) = true.
Proof.
  unfold pageTest.
  destruct (regexTest query (name page) i) as [hit i1] eqn:E.
  destruct hit; [intros _; apply regexTest_hit in E; now rewrite E|].
  destruct (isEmpty (title page)); [discriminate|].
  intros H; apply regexTest_hit in H; rewrite H; apply orb_true_r.
Qed.

(** The shape of an entry of the results, given the pages. *)
Lemma searchPages_sound (query : str) (pages : list LogseqPage) (i : nat) (r : SearchResult) :
  In r (fst (searchPages query pages i)) ->
  exists page,
    In page pages
    /\ ((r = PageResult (name page)
         /\ (occursIn query (name page) || occursIn query (title page)) = true)
        \/ exists b, In b (blocks page)
                     /\ r = BlockResult (name page) (content b) (slice 0 8 (uuid b)) (todo b)
                     /\ occursIn query (content b) = true).
Proof.
  revert i; induction pages as [|page pages IH]; intros i; simpl; [tauto|].
  destruct (pageTest query page i) as [hit i1] eqn:E.
  pose proof (searchBlocks_sound query (name page) (blocks page) i1 r) as Hb.
  destruct (searchBlocks query (name page) (blocks page) i1) as [blockResults i2].
  specialize (IH i2).
  destruct (searchPages query pages i2) as [results i3]; simpl in *.
  intros H; apply in_app_or in H as [H|H]; [|apply in_app_or in H as [H|H]].
  - destruct hit; [|destruct H].
    destruct H as [<-|[]]; exists page; split; [auto|left].
    split; [reflexivity|now apply pageTest_hit in E].
  - exists page; split; [auto|right; auto].
  - destruct (IH H) as (pg & Hp & Hr); exists pg; auto.
Qed.

Lemma searchBlocks_none (query pageName : str) (bs : list LogseqBlock) :
  existsb (fun b => occursIn query (content b)) bs = false ->
  searchBlocks query pageName bs 0 = ([], 0).
Proof.
  induction bs as [|b bs IH]; simpl; [reflexivity|].
  intros H; apply orb_false_iff in H as [Hb Hbs].
  rewrite (proj2 (regexTest_zero query (content b)) Hb), (IH Hbs); reflexivity.
Qed.

Lemma searchBlocks_some (query pageName : str) (bs : list LogseqBlock) :
  existsb (fun b => occursIn query (content b)) bs = true ->
  fst (searchBlocks query pageName bs 0) <> [].
Proof.
  induction bs as [|b bs IH]; simpl; [discriminate|].
  destruct (occursIn query (content b)) eqn:Hb.
  - intros _; pose proof (proj1 (regexTest_zero query (content b))) as Hz.
    destruct (regexTest query (content b) 0) as [hit i1]; simpl in Hz.
    rewrite Hb in Hz; subst hit.
    destruct (searchBlocks query pageName bs i1); simpl; discriminate.
  - simpl; intros H.
    rewrite (proj2 (regexTest_zero query (content b)) Hb).
    specialize (IH H); destruct (searchBlocks query pageName bs 0); exact IH.
Qed.

Lemma pageTest_zero (query : str) (page : LogseqPage) :
  let named := occursIn query (name page)
               || (negb (isEmpty (title page)) && occursIn query (title page)) in
  fst (pageTest query page 0) = named
  /\ (named = false -> pageTest query page 0 = (false, 0)).
Proof.
  unfold pageTest; simpl.
  destruct (regexTest_zero query (name page)) as [H1 H2].
  destruct (occursIn query (name page)) eqn:Hn.
  - destruct (regexTest query (name page) 0) as [hit i1]; simpl in H1; subst hit.
    split; [reflexivity|discriminate].
  - rewrite (H2 eq_refl); simpl.
    destruct (isEmpty (title page)); simpl; [split; reflexivity|].
    destruct (regexTest_zero query (title page)) as [H3 H4].
    split; [exact H3|exact H4].
Qed.

Lemma searchPages_none (query : str) (pages : list LogseqPage) :
  existsb (pageMatches query) pages = false -> searchPages query pages 0 = ([], 0).
Proof.
  induction pages as [|page pages IH]; simpl; [reflexivity|].
  intros H; apply orb_false_iff in H as [Hp Hps].
  unfold pageMatches in Hp; apply orb_false_iff in Hp as [Hn Hb].
  rewrite (proj2 (pageTest_zero query page) Hn).
  rewrite (searchBlocks_none query (name page) (blocks page) Hb), (IH Hps); reflexivity.
Qed.

Lemma searchPages_some (query : str) (pages : list LogseqPage) :
  existsb (pageMatches query) pages = true -> fst (searchPages query pages 0) <> [].
Proof.
  induction pages as [|page pages IH]; simpl; [discriminate|].
  destruct (pageMatches query page) eqn:Hp.
  - intros _; unfold pageMatches in Hp.
    destruct (pageTest_zero query page) as [H1 H2]; cbv zeta in H1, H2.
    destruct (occursIn query (name page)
              || negb (isEmpty (title page)) && occursIn query (title page)) eqn:Hn.
    + destruct (pageTest query page 0) as [hit i1]; simpl in H1; subst hit.
      destruct (searchBlocks query (name page) (blocks page) i1) as [blockResults i2].
      destruct (searchPages query pages i2); simpl; discriminate.
    + rewrite (H2 eq_refl); simpl in Hp.
      pose proof (searchBlocks_some query (name page) (blocks page) Hp) as Hb.
      destruct (searchBlocks query (name page) (blocks page) 0) as [blockResults i2].
      destruct (searchPages query pages i2); simpl in *.
      destruct blockResults; [congruence|discriminate].
  - simpl; intros H; unfold pageMatches in Hp.
    apply orb_false_iff in Hp as [Hn Hb].
    rewrite (proj2 (pageTest_zero query page) Hn).
    rewrite (searchBlocks_none query (name page) (blocks page) Hb).
    specialize (IH H); destruct (searchPages query pages 0); exact IH.
Qed.

Variable uuidv4 : nat -> str.
Variable LOGSEQ_PATH : str.

(** X7.  [search] reports no entry that does not hold the query: a page
    entry names a page whose name or title holds the query, a block entry
    gives the content, the short identity and the task keyword of a block of
    the named page whose content holds the query, letters compared without
    their case. *)
Theorem search_results_contain_query (fs : FileSystem) (n : nat) (query : str)
    (r : SearchResult) :
  In r (search uuidv4 LOGSEQ_PATH fs n query) ->
  exists page,
    In page (pagesOf uuidv4 LOGSEQ_PATH fs n)
    /\ ((r = PageResult (name page)
         /\ (occursIn query (name page) || occursIn query (title page)) = true)
        \/ exists b, In b (blocks page)
                     /\ r = BlockResult (name page) (content b) (slice 0 8 (uuid b)) (todo b)
                     /\ occursIn query (content b) = true).
Proof.
  unfold search, pagesOf.
  destruct (getAllPages uuidv4 LOGSEQ_PATH fs n) as [pages n1]; cbn [fst].
  apply searchPages_sound.
Qed.

(** X8.  [search] finds nothing exactly when the query occurs in no page
    name, in no title and in no block content: the expression keeps its
    position only after a hit, so the first text that holds the query is
    always tested from its beginning and reported. *)
Theorem search_empty_iff_nothing_matches (fs : FileSystem) (n : nat) (query : str) :
  search uuidv4 LOGSEQ_PATH fs n query = []
  <-> existsb (pageMatches query) (pagesOf uuidv4 LOGSEQ_PATH fs n) = false.
Proof.
  unfold search, pagesOf.
  destruct (getAllPages uuidv4 LOGSEQ_PATH fs n) as [pages n1]; cbn [fst].
  split.
  - intros H; destruct (existsb (pageMatches query) pages) eqn:E; [|reflexivity].
    now apply searchPages_some in E.
  - intros H; now rewrite searchPages_none.
Qed.

End SearchLaws.

Section SearchLawsSamples.

Lemma search_results_contain_query_witness :
  In (BlockResult (lit "2025_01_10") (lit "this is URGENT") (lit "00000002") None)
     (search sampleUuid graph urgentStore 0 (lit "urgent"))
  /\ occursIn (lit "urgent") (lit "this is URGENT") = true
  /\ exists page,
       In page (pagesOf sampleUuid graph urgentStore 0)
       /\ ((BlockResult (lit "2025_01_10") (lit "this is URGENT") (lit "00000002") None
            = PageResult (name page)
            /\ (occursIn (lit "urgent") (name page)
                || occursIn (lit "urgent") (title page)) = true)
           \/ exists b,
                In b (blocks page)
                /\ BlockResult (lit "2025_01_10") (lit "this is URGENT") (lit "00000002") None
                   = BlockResult (name page) (content b) (slice 0 8 (uuid b)) (todo b)
                /\ occursIn (lit "urgent") (content b) = true).
Proof.
  assert (In (BlockResult (lit "2025_01_10") (lit "this is URGENT") (lit "00000002") None)
             (search sampleUuid graph urgentStore 0 (lit "urgent"))) as Hin
    by (vm_compute; right; left; reflexivity).
  split; [exact Hin|]; split; [reflexivity|].
  exact (search_results_contain_query sampleUuid graph urgentStore 0 (lit "urgent") _ Hin).
Defined.

End SearchLawsSamples.

(** ** Pages written by the tools *)

Section WrittenPages.

Variable uuidv4 : nat -> str.

(** The name of the page of a file [name.md] of a directory. *)
Lemma note_file_name (dir nm : str) :
  isFileName nm = true -> pageNameOf (pathJoin dir (nm ++ lit ".md")) = nm.
Proof.
  unfold isFileName; intros H; apply andb_true_iff in H as [Hne H].
  assert (nm <> []) as Hnm by (destruct nm; [discriminate|discriminate]).
  clear Hne; unfold pageNameOf.
  assert (lastSegment (pathJoin dir (nm ++ lit ".md")) = nm ++ lit ".md") as Hseg.
  { unfold lastSegment, pathJoin, takeWhile.
    assert (forallb (notChar "/") (rev (nm ++ lit ".md")) = true) as Hall
      by (rewrite forallb_rev, forallb_app, H; reflexivity).
    set (X := nm ++ lit ".md") in *.
    change (dir ++ lit "/" ++ X) with (dir ++ "/"%char :: X).
    rewrite rev_app_distr; cbn [rev]; rewrite <- app_assoc; cbn [app].
    rewrite (span_stops (notChar "/") (rev X) (rev dir) "/" Hall eq_refl); cbn [fst].
    apply rev_involutive. }
  assert (extname (pathJoin dir (nm ++ lit ".md")) = lit ".md") as Hext.
  { unfold extname; rewrite Hseg, rev_app_distr.
    change (rev (lit ".md") ++ rev nm) with (["d"; "m"]%char ++ "."%char :: rev nm).
    rewrite (span_stops (notChar ".") ["d"; "m"]%char (rev nm) "." eq_refl eq_refl).
    destruct (rev nm) eqn:E; [|reflexivity].
    apply (f_equal (@rev ascii)) in E; rewrite rev_involutive in E; contradiction. }
  unfold basename; rewrite Hext, Hseg.
  assert (endsWith (nm ++ lit ".md") (lit ".md") = true) as ->
    by (unfold endsWith; rewrite rev_app_distr; apply startsWith_app).
  assert (str_eqb (nm ++ lit ".md") (lit ".md") = false) as ->.
  { apply str_eqb_neq; intros E; apply (f_equal (@length ascii)) in E.
    rewrite length_app in E; destruct nm; [contradiction|simpl in E; lia]. }
  simpl negb; cbv iota.
  rewrite length_app, Nat.add_sub; apply firstn_exact; reflexivity.
Qed.

Lemma frontMatter_heading (h body : str) :
  frontMatter (pageText h body) = ([], pageText h body).
Proof.
  unfold frontMatter.
  replace (startsWith (pageText h body) (lit "---")) with false by (now vm_compute).
  reflexivity.
Qed.

Lemma trim_head (c : ascii) (r : str) :
  isSpace c = false -> exists t, trim (c :: r) = c :: t.
Proof.
  intros Hc; destruct (trim_decompose (c :: r)) as (a & b & E & Ha & Hb).
  destruct a as [|x a].
  - destruct (trim (c :: r)) as [|y t]; simpl in E.
    + subst b; simpl in Hb; now rewrite Hc in Hb.
    + injection E as <- _; eauto.
  - injection E as <- _; simpl in Ha; now rewrite Hc in Ha.
Qed.

Lemma parseLine_heading (h : str) (n : nat) :
  parseLine uuidv4 (lit "# " ++ h) n = (None, n).
Proof.
  unfold parseLine.
  destruct (trim_head "#" (" "%char :: h) eq_refl) as [t Ht].
  change (lit "# " ++ h) with ("#"%char :: " "%char :: h); rewrite Ht.
  reflexivity.
Qed.

(** The heading and the empty line that start a written page give no block
    and draw no identity. *)
Lemma parseBlocks_heading (h body : str) (n : nat) :
  noNewline h = true ->
  parseBlocks uuidv4 (pageText h body) n = parseBlocks uuidv4 body n.
Proof.
  intros H; unfold parseBlocks, pageText.
  rewrite app_assoc.
  change ([newline; newline] ++ body) with (newline :: [] ++ newline :: body).
  rewrite split_line by (change (noNewline (lit "# " ++ h)) with (noNewline h); exact H).
  rewrite split_line by reflexivity.
  cbn [parseLines]; rewrite parseLine_heading; cbv beta iota zeta.
  change (parseLine uuidv4 [] n) with (@None LogseqBlock, n); cbv beta iota zeta.
  destruct (parseLines uuidv4 (split body) n); reflexivity.
Qed.

(** The page read from a file that holds a written page. *)
Lemma read_written_page (fs : FileSystem) (p h body : str) (n : nat) :
  readFileSync fs p = Some (pageText h body) -> noNewline h = true ->
  exists page n',
    readPageFile uuidv4 fs p n = (Some page, n')
    /\ name page = pageNameOf p /\ title page = pageNameOf p
    /\ pageProperties page = None
    /\ blocks page = fst (parseBlocks uuidv4 body n).
Proof.
  intros Hr Hh.
  destruct (readPageFile_readable uuidv4 fs p _ n Hr) as (page & n' & E).
  exists page, n'; split; [exact E|].
  apply readPageFile_fields in E as (text & Hr' & _ & Hn & Hb & Hp & Ht & _).
  rewrite Hr in Hr'; injection Hr' as <-.
  rewrite frontMatter_heading in Hb, Hp, Ht; cbn [fst snd] in *.
  rewrite parseBlocks_heading in Hb by assumption; auto.
Qed.

Variable LOGSEQ_PATH : str.

Lemma pageFile_path (pageName : str) :
  pathJoin (pagesDir LOGSEQ_PATH) (pageName ++ lit ".md") = pageFile LOGSEQ_PATH pageName.
Proof. unfold pathJoin, pagesDir, pathJoin, pageFile; now rewrite <- !app_assoc. Qed.

Lemma findPage_Some (pageName : str) (fs : FileSystem) (n : nat) (page : LogseqPage) :
  findPage pageName (pagesOf uuidv4 LOGSEQ_PATH fs n) = Some page ->
  In page (pagesOf uuidv4 LOGSEQ_PATH fs n)
  /\ toLowerCase (name page) = toLowerCase pageName
  /\ name page = pageNameOf (path page)
  /\ exists text, readFileSync fs (path page) = Some text.
Proof.
  intros H; apply find_some in H as [Hin Heq]; apply str_eqb_eq in Heq.
  split; [exact Hin|]; split; [exact Heq|].
  unfold pagesOf, getAllPages in Hin; apply readPages_In in Hin as (_ & k & k' & E).
  apply readPageFile_fields in E as (text & Hr & _ & Hn & _).
  eauto.
Qed.

(** The write of the file of a page. *)
Lemma write_page_file (dirs : Directories) (fs : FileSystem) (pageName text : str) :
  isFileName pageName = true -> hasNul pageName = false ->
  writeFile dirs fs (pageFile LOGSEQ_PATH pageName) text
  = if negb (isDirectory dirs (pageFile LOGSEQ_PATH pageName))
       && isDirectory dirs (pagesDir LOGSEQ_PATH)
    then Some (writeFileSync fs (pageFile LOGSEQ_PATH pageName) text)
    else None.
Proof.
  intros H Hn; rewrite <- pageFile_path; apply writeFile_in_directory.
  - unfold isFileName in H; apply andb_true_iff in H as [_ H].
    now rewrite forallb_app, H.
  - now rewrite hasNul_app, Hn.
Qed.

(** X9.  [create_page] answers an error and writes nothing when the pages
    directory does not exist or when the path of the file is a directory.
    Otherwise it writes the heading, an empty line and the body (the content
    given or, when there is none, a line with the date) to the file of that
    name in the pages directory, whether or not the file exists, and leaves
    the other files as they are.  This for a page name that is a plain file
    name on one line; the page read back from that file then has the page
    name as its name and title, no property, and the blocks of the body: the
    heading gives no block.  A page name that holds a NUL character is
    refused: the answer is an error and nothing is written. *)
Theorem create_page_read_back (dirs : Directories) (fs : FileSystem) (pageName : str)
    (content_ : option str) (localeDate : str) (n : nat) :
  isFileName pageName = true -> noNewline pageName = true ->
  (hasNul pageName = true ->
   create_page LOGSEQ_PATH dirs fs pageName content_ localeDate = (PageError, fs))
  /\ (hasNul pageName = false ->
      (isDirectory dirs (pagesDir LOGSEQ_PATH) = false
       \/ isDirectory dirs (pageFile LOGSEQ_PATH pageName) = true ->
       create_page LOGSEQ_PATH dirs fs pageName content_ localeDate = (PageError, fs))
      /\ (isDirectory dirs (pagesDir LOGSEQ_PATH) = true ->
          isDirectory dirs (pageFile LOGSEQ_PATH pageName) = false ->
          exists fs',
            create_page LOGSEQ_PATH dirs fs pageName content_ localeDate
            = (PageCreated (pageFile LOGSEQ_PATH pageName), fs')
            /\ readFileSync fs' (pageFile LOGSEQ_PATH pageName)
               = Some (pageText pageName (createdBody content_ localeDate))
            /\ (forall q, q <> pageFile LOGSEQ_PATH pageName ->
                  readFileSync fs' q = readFileSync fs q)
            /\ exists page n',
                 readPageFile uuidv4 fs' (pageFile LOGSEQ_PATH pageName) n = (Some page, n')
                 /\ name page = pageName /\ title page = pageName
                 /\ pageProperties page = None
                 /\ blocks page = fst (parseBlocks uuidv4 (createdBody content_ localeDate) n))).
Proof.
  intros Hname Hline; unfold create_page; rewrite pageFile_path.
  split.
  { intros Hnul; unfold writeFile, pageFile.
    rewrite !hasNul_app, Hnul, !orb_true_r; reflexivity. }
  intros Hnul; rewrite (write_page_file _ _ _ _ Hname Hnul).
  set (p := pageFile LOGSEQ_PATH pageName).
  set (text := pageText pageName (createdBody content_ localeDate)).
  split.
  - intros [H|H]; rewrite H; [now destruct (isDirectory dirs p)|reflexivity].
  - intros Hd Hp; rewrite Hd, Hp; cbn [negb andb].
    exists (writeFileSync fs p text).
    assert (readFileSync (writeFileSync fs p text) p = Some text) as Hr
      by apply read_after_write.
    split; [reflexivity|]; split; [exact Hr|].
    split; [intros q Hq; now apply read_other_after_write|].
    destruct (read_written_page _ p pageName _ n Hr Hline)
      as (page & n' & E & Hn & Ht & Hpr & Hb).
    unfold p in Hn, Ht; rewrite <- pageFile_path, note_file_name in Hn, Ht by assumption.
    exists page, n'; auto.
Qed.

(** X10.  [update_page] replaces the whole text of the file of the page it
    finds by a heading with the name as the request spells it, an empty line
    and the new content, and leaves the other files as they are; the header
    of the old text goes with it.  Read back, for a request on one line, the
    page keeps its name, has its name as title, no property, and the blocks
    of the new content. *)
Theorem update_page_replaces_text_and_header (fs : FileSystem) (n m : nat)
    (pageName content_ : str) (page : LogseqPage) :
  findPage pageName (pagesOf uuidv4 LOGSEQ_PATH fs n) = Some page ->
  noNewline pageName = true ->
  exists fs',
    update_page uuidv4 LOGSEQ_PATH fs n pageName content_ = (PageUpdated (path page), fs')
    /\ readFileSync fs' (path page) = Some (pageText pageName content_)
    /\ (forall q, q <> path page -> readFileSync fs' q = readFileSync fs q)
    /\ exists page' n',
         readPageFile uuidv4 fs' (path page) m = (Some page', n')
         /\ name page' = name page /\ title page' = name page
         /\ pageProperties page' = None
         /\ blocks page' = fst (parseBlocks uuidv4 content_ m).
Proof.
  intros Hf Hline; unfold update_page; unfold pagesOf in Hf.
  destruct (getAllPages uuidv4 LOGSEQ_PATH fs n) as [pages n1] eqn:G; cbn [fst] in Hf.
  rewrite Hf.
  exists (writeFileSync fs (path page) (pageText pageName content_)).
  assert (readFileSync (writeFileSync fs (path page) (pageText pageName content_)) (path page)
          = Some (pageText pageName content_)) as Hr by apply read_after_write.
  split; [reflexivity|]; split; [exact Hr|].
  split; [intros q Hq; now apply read_other_after_write|].
  destruct (read_written_page _ (path page) pageName _ m Hr Hline)
    as (page' & n' & E & Hn & Ht & Hp & Hb).
  assert (name page = pageNameOf (path page)) as Hname.
  { pose proof (findPage_Some pageName fs n page) as H; unfold pagesOf in H.
    rewrite G in H; now destruct (H Hf) as (_ & _ & H' & _). }
  exists page', n'; rewrite Hname; auto.
Qed.

Lemma delete_page_found (fs : FileSystem) (n : nat) (pageName : str) (page : LogseqPage) :
  findPage pageName (pagesOf uuidv4 LOGSEQ_PATH fs n) = Some page ->
  delete_page uuidv4 LOGSEQ_PATH fs n pageName
  = (PageDeleted (path page), unlinkSync fs (path page)).
Proof.
  unfold delete_page, pagesOf.
  destruct (getAllPages uuidv4 LOGSEQ_PATH fs n) as [pages n1]; cbn [fst].
  now intros ->.
Qed.

(** X11.  [delete_page] removes the file of the page it finds and no other:
    the file exists no more, the other files are as they were, and no page
    that [getAllPages] returns afterwards has that path. *)
Theorem delete_page_removes_the_file (fs : FileSystem) (n m : nat) (pageName : str)
    (page : LogseqPage) :
  findPage pageName (pagesOf uuidv4 LOGSEQ_PATH fs n) = Some page ->
  delete_page uuidv4 LOGSEQ_PATH fs n pageName
  = (PageDeleted (path page), unlinkSync fs (path page))
  /\ existsSync fs (path page) = true
  /\ existsSync (unlinkSync fs (path page)) (path page) = false
  /\ (forall q, q <> path page ->
        readFileSync (unlinkSync fs (path page)) q = readFileSync fs q)
  /\ forall page',
       In page' (pagesOf uuidv4 LOGSEQ_PATH (unlinkSync fs (path page)) m) ->
       path page' <> path page.
Proof.
  intros Hf; destruct (findPage_Some _ _ _ _ Hf) as (_ & _ & _ & text & Hr).
  split; [now apply delete_page_found|].
  split; [unfold existsSync; now rewrite Hr|].
  split; [unfold existsSync; now rewrite read_after_unlink|].
  split; [intros q Hq; now apply read_other_after_unlink|].
  intros page' Hin Heq; apply getAllPages_readable in Hin as [t Ht].
  rewrite Heq, read_after_unlink in Ht; discriminate.
Qed.

(** X12.  A request for a page name that, lower-cased, is the name of no file
    of the store makes every tool that takes a page name answer that the page
    is not found and leaves the store as it is: [update_page], [delete_page],
    [set_page_property], [insert_block]; [get_page_properties] answers the
    same. *)
Theorem page_tools_fail_closed (fs : FileSystem) (n : nat)
    (pageName content_ key value : str) (todo_ priority_ : option str) :
  (forall p, In p (map fst fs) ->
     str_eqb (toLowerCase (pageNameOf p)) (toLowerCase pageName) = false) ->
  findPage pageName (pagesOf uuidv4 LOGSEQ_PATH fs n) = None
  /\ update_page uuidv4 LOGSEQ_PATH fs n pageName content_ = (PageMissing, fs)
  /\ delete_page uuidv4 LOGSEQ_PATH fs n pageName = (PageMissing, fs)
  /\ set_page_property uuidv4 LOGSEQ_PATH fs n pageName key value = (PageMissing, fs)
  /\ get_page_properties uuidv4 LOGSEQ_PATH fs n pageName = PropertiesPageMissing
  /\ fst (insert_block uuidv4 LOGSEQ_PATH fs n pageName content_ todo_ priority_)
     = (PageNotFound, fs).
Proof.
  intros H.
  assert (findPage pageName (pagesOf uuidv4 LOGSEQ_PATH fs n) = None) as Hf.
  { apply find_None; intros page Hin.
    destruct (pagesOf_named uuidv4 LOGSEQ_PATH fs n page Hin) as (Hn & _ & text & Hr).
    rewrite Hn; apply H; now apply readable_In with (text := text). }
  split; [exact Hf|].
  unfold update_page, delete_page, set_page_property, get_page_properties, insert_block.
  unfold pagesOf in Hf.
  destruct (getAllPages uuidv4 LOGSEQ_PATH fs n) as [pages n1]; cbn [fst] in Hf.
  unfold findPage in Hf |- *; rewrite Hf; repeat split.
Qed.

End WrittenPages.

Section WrittenPagesSamples.

Ltac store_paths H :=
  vm_compute in H;
  repeat match type of H with
         | _ \/ _ => destruct H as [H|H]
         end;
  try contradiction; try subst.

(** A new page without content in the project graph, and in a graph without
    the pages folder. *)
Lemma create_page_read_back_witness :
  isFileName (lit "Ideas") = true /\ noNewline (lit "Ideas") = true
  /\ hasNul (lit "Ideas") = false
  /\ isDirectory journalsOnlyDirs (pagesDir graph) = false
  /\ create_page graph journalsOnlyDirs journalStore (lit "Ideas") None (lit "1/10/2025")
     = (PageError, journalStore)
  /\ isDirectory graphDirs (pagesDir graph) = true
  /\ isDirectory graphDirs (pageFile graph (lit "Ideas")) = false
  /\ exists fs',
       create_page graph graphDirs projectStore (lit "Ideas") None (lit "1/10/2025")
       = (PageCreated (lit "/graph/pages/Ideas.md"), fs')
       /\ readFileSync fs' (lit "/graph/pages/Ideas.md")
          = Some (join [lit "# Ideas"; []; lit "- Created on 1/10/2025"])
       /\ exists page n',
            readPageFile sampleUuid fs' (lit "/graph/pages/Ideas.md") 0 = (Some page, n')
            /\ name page = lit "Ideas" /\ title page = lit "Ideas"
            /\ pageProperties page = None
            /\ map content (blocks page) = [lit "Created on 1/10/2025"].
Proof.
  split; [reflexivity|]; split; [reflexivity|]; split; [reflexivity|]; split; [reflexivity|].
  destruct (create_page_read_back sampleUuid graph journalsOnlyDirs journalStore (lit "Ideas")
              None (lit "1/10/2025") 0 eq_refl eq_refl) as [_ Hplain].
  destruct (Hplain eq_refl) as [Herror _].
  split; [exact (Herror (or_introl eq_refl))|].
  split; [reflexivity|]; split; [reflexivity|].
  destruct (create_page_read_back sampleUuid graph graphDirs projectStore (lit "Ideas") None
              (lit "1/10/2025") 0 eq_refl eq_refl) as [_ Hplain'].
  destruct (Hplain' eq_refl) as [_ Hcreated].
  destruct (Hcreated eq_refl eq_refl)
    as (fs' & Hc & Hr & _ & page & n' & E & Hn & Ht & Hp & Hb).
  exists fs'; split; [exact Hc|]; split; [exact Hr|].
  exists page, n'; split; [exact E|]; split; [exact Hn|]; split; [exact Ht|].
  split; [exact Hp|]; rewrite Hb; vm_compute; reflexivity.
Defined.

(** The page [Project], asked for in lower case, with a new content. *)
Lemma update_page_replaces_text_and_header_witness :
  exists page,
    findPage (lit "project") (pagesOf sampleUuid graph projectStore 0) = Some page
    /\ noNewline (lit "project") = true
    /\ path page = lit "/graph/pages/Project.md"
    /\ exists fs',
         update_page sampleUuid graph projectStore 0 (lit "project") (lit "- TODO plan")
         = (PageUpdated (path page), fs')
         /\ readFileSync fs' (path page) = Some (join [lit "# project"; []; lit "- TODO plan"])
         /\ exists page' n',
              readPageFile sampleUuid fs' (path page) 0 = (Some page', n')
              /\ name page' = lit "Project" /\ title page' = lit "Project"
              /\ pageProperties page' = None
              /\ map content (blocks page') = [lit "plan"].
Proof.
  destruct (findPage (lit "project") (pagesOf sampleUuid graph projectStore 0))
    as [page|] eqn:F; [|vm_compute in F; discriminate].
  exists page; split; [reflexivity|]; split; [reflexivity|].
  destruct (update_page_replaces_text_and_header sampleUuid graph projectStore 0 0
              (lit "project") (lit "- TODO plan") page F eq_refl)
    as (fs' & Hc & Hr & _ & page' & n' & E & Hn & Ht & Hp & Hb).
  vm_compute in F; injection F as <-.
  split; [reflexivity|].
  exists fs'; split; [exact Hc|]; split; [exact Hr|].
  exists page', n'; split; [exact E|]; split; [exact Hn|]; split; [exact Ht|].
  split; [exact Hp|]; rewrite Hb; vm_compute; reflexivity.
Defined.

(** The page [Project] deleted from the project graph. *)
Lemma delete_page_removes_the_file_witness :
  exists page,
    findPage (lit "PROJECT") (pagesOf sampleUuid graph projectStore 0) = Some page
    /\ path page = lit "/graph/pages/Project.md"
    /\ delete_page sampleUuid graph projectStore 0 (lit "PROJECT")
       = (PageDeleted (lit "/graph/pages/Project.md"),
          [(lit "/graph/pages/notes.txt", lit "- not a note");
           (lit "/graph/journals/2025_01_10.md", lit "- 33333333 TODO call")])
    /\ existsSync (unlinkSync projectStore (path page)) (path page) = false
    /\ forall page',
         In page' (pagesOf sampleUuid graph (unlinkSync projectStore (path page)) 0) ->
         path page' <> path page.
Proof.
  destruct (findPage (lit "PROJECT") (pagesOf sampleUuid graph projectStore 0))
    as [page|] eqn:F; [|vm_compute in F; discriminate].
  exists page; split; [reflexivity|].
  destruct (delete_page_removes_the_file sampleUuid graph projectStore 0 0
              (lit "PROJECT") page F) as (Hd & _ & Hgone & _ & Hnone).
  vm_compute in F; injection F as <-.
  split; [reflexivity|]; split; [exact Hd|]; split; [exact Hgone|exact Hnone].
Defined.

(** No file of the project graph is named [Missing]. *)
Lemma page_tools_fail_closed_witness :
  (forall p, In p (map fst projectStore) ->
     str_eqb (toLowerCase (pageNameOf p)) (toLowerCase (lit "Missing")) = false)
  /\ update_page sampleUuid graph projectStore 0 (lit "Missing") (lit "- x")
     = (PageMissing, projectStore)
  /\ delete_page sampleUuid graph projectStore 0 (lit "Missing") = (PageMissing, projectStore)
  /\ set_page_property sampleUuid graph projectStore 0 (lit "Missing") (lit "k") (lit "v")
     = (PageMissing, projectStore)
  /\ get_page_properties sampleUuid graph projectStore 0 (lit "Missing")
     = PropertiesPageMissing
  /\ fst (insert_block sampleUuid graph projectStore 0 (lit "Missing") (lit "- x") None None)
     = (PageNotFound, projectStore).
Proof.
  assert (forall p, In p (map fst projectStore) ->
            str_eqb (toLowerCase (pageNameOf p)) (toLowerCase (lit "Missing")) = false) as H
    by (intros p Hp; store_paths Hp; vm_compute; reflexivity).
  split; [exact H|].
  exact (proj2 (page_tools_fail_closed sampleUuid graph projectStore 0 (lit "Missing")
                  (lit "- x") (lit "k") (lit "v") None None H)).
Defined.

End WrittenPagesSamples.

(** ** The reports: [get_system_info] and [get_todos] *)

Section Reports.

Lemma fold_left_sum {A : Type} (f : A -> nat) (xs : list A) (a : nat) :
  fold_left (fun sum x => sum + f x) xs a = a + list_sum (map f xs).
Proof.
  revert a; induction xs as [|x xs IH]; intros a; simpl; [lia|].
  rewrite IH; lia.
Qed.

Lemma filter_length_le {A : Type} (p : A -> bool) (xs : list A) :
  length (filter p xs) <= length xs.
Proof.
  induction xs as [|x xs IH]; simpl; [lia|].
  destruct (p x); simpl; lia.
Qed.

Lemma list_sum_le {A : Type} (f g : A -> nat) (xs : list A) :
  (forall x, f x <= g x) -> list_sum (map f xs) <= list_sum (map g xs).
Proof.
  intros H; induction xs as [|x xs IH]; simpl; [lia|].
  specialize (H x); lia.
Qed.

Lemma todosOfBlocks_length (pageName : str) (bs : list LogseqBlock) :
  length (todosOfBlocks pageName bs) = length (filter hasTodo bs).
Proof.
  induction bs as [|b bs IH]; simpl; [reflexivity|].
  destruct (hasTodo b); simpl; now rewrite IH.
Qed.

Lemma todosOfPages_length (pages : list LogseqPage) :
  length (todosOfPages pages)
  = list_sum (map (fun page => length (filter hasTodo (blocks page))) pages).
Proof.
  induction pages as [|page pages IH]; simpl; [reflexivity|].
  now rewrite length_app, todosOfBlocks_length, IH.
Qed.

Lemma todosOfBlocks_status (pageName : str) (bs : list LogseqBlock) :
  Forall (fun item : TodoItem => todo (snd item) <> None) (todosOfBlocks pageName bs).
Proof.
  induction bs as [|b bs IH]; simpl; [constructor|].
  unfold hasTodo; destruct (todo b) eqn:E; simpl; [|exact IH].
  constructor; [simpl; congruence|exact IH].
Qed.

Lemma todosOfPages_status (pages : list LogseqPage) :
  Forall (fun item : TodoItem => todo (snd item) <> None) (todosOfPages pages).
Proof.
  induction pages as [|page pages IH]; simpl; [constructor|].
  apply Forall_app; split; [apply todosOfBlocks_status|exact IH].
Qed.

Lemma todo_eqb_eq (a b : Todo) : todo_eqb a b = true <-> a = b.
Proof.
  split; [|intros ->; apply str_eqb_refl].
  destruct a, b; intros H; try reflexivity; vm_compute in H; discriminate.
Qed.

Lemma pushTo_keys (acc : list (Todo * list TodoItem)) (status : Todo) (item : TodoItem)
    (k : Todo) :
  In k (map fst (pushTo acc status item)) <-> k = status \/ In k (map fst acc).
Proof.
  induction acc as [|[k0 items] acc IH]; simpl; [intuition congruence|].
  destruct (todo_eqb k0 status) eqn:E; simpl.
  - apply todo_eqb_eq in E; subst; intuition congruence.
  - rewrite IH; tauto.
Qed.

Lemma pushTo_wellGrouped (acc : list (Todo * list TodoItem)) (status : Todo)
    (item : TodoItem) :
  todo (snd item) = Some status -> wellGrouped acc ->
  wellGrouped (pushTo acc status item)
  /\ groupedCount (pushTo acc status item) = S (groupedCount acc).
Proof.
  intros Hs; unfold wellGrouped, groupedCount.
  induction acc as [|[k0 items] acc IH]; simpl.
  - intros _; repeat split.
    + constructor; [simpl; tauto|constructor].
    + constructor; [|constructor]; simpl; split; [discriminate|].
      constructor; [exact Hs|constructor].
  - intros [Hnd Hall]; inversion Hnd as [|? ? Hnotin Hnd']; subst.
    inversion Hall as [|? ? [Hne Hitems] Hall']; subst; simpl in *.
    destruct (todo_eqb k0 status) eqn:E; simpl.
    + apply todo_eqb_eq in E; subst k0; repeat split.
      * exact Hnd.
      * constructor; [|exact Hall']; simpl; split.
        -- destruct items; discriminate.
        -- apply Forall_app; split; [exact Hitems|constructor; [exact Hs|constructor]].
      * rewrite length_app; simpl; lia.
    + destruct (IH (conj Hnd' Hall')) as [[Hnd2 Hall2] Hc]; repeat split.
      * constructor; [|exact Hnd2].
        rewrite pushTo_keys; intros [->|H]; [|contradiction].
        now rewrite (proj2 (todo_eqb_eq status status) eq_refl) in E.
      * constructor; [simpl; auto|exact Hall2].
      * lia.
Qed.

Lemma groupByStatus_wellGrouped (todos : list TodoItem) (acc : list (Todo * list TodoItem)) :
  Forall (fun item : TodoItem => todo (snd item) <> None) todos -> wellGrouped acc ->
  let grouped :=
    fold_left (fun acc item =>
                 match todo (snd item) with
                 | Some status => pushTo acc status item
                 | None => acc
                 end) todos acc in
  wellGrouped grouped /\ groupedCount grouped = groupedCount acc + length todos.
Proof.
  revert acc; induction todos as [|item todos IH]; intros acc Hall Hacc; simpl.
  - split; [exact Hacc|lia].
  - inversion Hall as [|? ? Hi Hall']; subst.
    destruct (todo (snd item)) as [status|] eqn:E; [|congruence].
    destruct (pushTo_wellGrouped acc status item E Hacc) as [Hw Hc].
    destruct (IH _ Hall' Hw) as [Hw' Hc']; split; [exact Hw'|].
    cbv zeta in Hc'; rewrite Hc', Hc; lia.
Qed.

Lemma todo_eqb_refl (k : Todo) : todo_eqb k k = true.
Proof. now apply todo_eqb_eq. Qed.

Lemma todo_eqb_trans_false (a b c : Todo) :
  todo_eqb a b = true -> todo_eqb a c = todo_eqb b c.
Proof. intros H; apply todo_eqb_eq in H; now subst. Qed.

(** [pushTo] adds the entry to the entries of its status and to no other. *)
Lemma pushTo_itemsOf (acc : list (Todo * list TodoItem)) (status k : Todo) (item : TodoItem) :
  itemsOf (pushTo acc status item) k
  = itemsOf acc k ++ (if todo_eqb status k then [item] else []).
Proof.
  unfold itemsOf; induction acc as [|[k0 items] acc IH]; cbn [pushTo find fst snd].
  - now destruct (todo_eqb status k).
  - destruct (todo_eqb k0 status) eqn:E; cbn [find fst snd].
    + rewrite <- (todo_eqb_trans_false _ _ k E).
      destruct (todo_eqb k0 k); [reflexivity|now rewrite app_nil_r].
    + destruct (todo_eqb k0 k) eqn:E'; [|exact IH].
      rewrite (todo_eqb_trans_false _ _ status E') in E.
      assert (todo_eqb status k = false) as ->.
      { destruct (todo_eqb status k) eqn:E2; [|reflexivity].
        apply todo_eqb_eq in E2; subst; now rewrite todo_eqb_refl in E. }
      now rewrite app_nil_r.
Qed.

Lemma fold_itemsOf (todos : list TodoItem) (acc : list (Todo * list TodoItem)) (k : Todo) :
  itemsOf (fold_left (fun acc item =>
                        match todo (snd item) with
                        | Some status => pushTo acc status item
                        | None => acc
                        end) todos acc) k
  = itemsOf acc k ++ withStatus k todos.
Proof.
  revert acc; induction todos as [|item todos IH]; intros acc; cbn [fold_left].
  - unfold withStatus; cbn; now rewrite app_nil_r.
  - rewrite IH; unfold withStatus; cbn [filter].
    destruct (todo (snd item)) as [status|]; [|reflexivity].
    rewrite pushTo_itemsOf, <- app_assoc.
    now destruct (todo_eqb status k).
Qed.

Lemma itemsOf_In (acc : list (Todo * list TodoItem)) (group : Todo * list TodoItem) :
  NoDup (map fst acc) -> In group acc -> itemsOf acc (fst group) = snd group.
Proof.
  unfold itemsOf; induction acc as [|g acc IH]; intros Hnd Hin; [contradiction|].
  inversion Hnd as [|? ? Hnotin Hnd']; subst; cbn [find].
  destruct Hin as [->|Hin]; [now rewrite todo_eqb_refl|].
  destruct (todo_eqb (fst g) (fst group)) eqn:E; [|now apply IH].
  apply todo_eqb_eq in E; exfalso; apply Hnotin; rewrite E.
  now apply in_map.
Qed.

(** Each group of [groupByStatus] holds the entries of its status, in the
    order in which they were read. *)
Lemma groupByStatus_entries (todos : list TodoItem) (group : Todo * list TodoItem) :
  Forall (fun item : TodoItem => todo (snd item) <> None) todos ->
  In group (groupByStatus todos) -> snd group = withStatus (fst group) todos.
Proof.
  intros Hst Hin.
  assert (wellGrouped []) as Hnil by (split; constructor).
  destruct (groupByStatus_wellGrouped todos [] Hst Hnil) as [[Hnd _] _].
  fold (groupByStatus todos) in Hnd.
  rewrite <- (itemsOf_In _ _ Hnd Hin); unfold groupByStatus.
  now rewrite fold_itemsOf.
Qed.

Variable uuidv4 : nat -> str.
Variable LOGSEQ_PATH : str.

(** X13.  The two reports count the same things.  In [get_system_info] the
    journal pages and the regular pages add up to the pages, and the task
    blocks are at most the blocks.  [get_todos] answers that there is no task
    exactly when that count of task blocks is zero; otherwise its total is that
    count, the counts of its groups add up to the total, no status heads two
    groups and no group is empty.  The count of a group is the number of task
    blocks of its status in the graph, and the entries that it shows are the
    first five of them (all of them when there are fewer), in the order in
    which the pages and their blocks are read. *)
Theorem todo_counts_agree (fs : FileSystem) (n : nat) :
  totalTodos (get_system_info uuidv4 LOGSEQ_PATH fs n)
  <= totalBlocks (get_system_info uuidv4 LOGSEQ_PATH fs n)
  /\ journalPages (get_system_info uuidv4 LOGSEQ_PATH fs n)
     + regularPages (get_system_info uuidv4 LOGSEQ_PATH fs n)
     = totalPages (get_system_info uuidv4 LOGSEQ_PATH fs n)
  /\ match get_todos uuidv4 LOGSEQ_PATH fs n with
     | NoTodos => totalTodos (get_system_info uuidv4 LOGSEQ_PATH fs n) = 0
     | TodosFound total groups =>
         total = totalTodos (get_system_info uuidv4 LOGSEQ_PATH fs n)
         /\ 0 < total
         /\ list_sum (map groupCount groups) = total
         /\ NoDup (map groupStatus groups)
         /\ Forall (fun group =>
                      let entries :=
                        withStatus (groupStatus group)
                          (todosOfPages (pagesOf uuidv4 LOGSEQ_PATH fs n)) in
                      0 < groupCount group
                      /\ groupCount group = length entries
                      /\ snd group = firstn 5 entries
                      /\ length (snd group) = Nat.min 5 (groupCount group)
                      /\ Forall (fun item : TodoItem =>
                                   todo (snd item) = Some (groupStatus group))
                                (snd group)) groups
     end.
Proof.
  unfold get_system_info, get_todos, pagesOf.
  destruct (getAllPages uuidv4 LOGSEQ_PATH fs n) as [pages n1]; cbn [totalTodos totalBlocks
    journalPages regularPages totalPages fst].
  rewrite !fold_left_sum; cbn [Nat.add].
  split; [apply list_sum_le; intros page; apply filter_length_le|].
  split; [pose proof (filter_length_le isJournal pages); lia|].
  rewrite <- todosOfPages_length.
  pose proof (todosOfPages_status pages) as Hst.
  destruct (todosOfPages pages) as [|item todos] eqn:T; [reflexivity|].
  assert (0 < length (todosOfPages pages)) as Hpos by (rewrite T; simpl; lia).
  rewrite <- T in *; clear T.
  assert (wellGrouped []) as Hnil by (split; constructor).
  destruct (groupByStatus_wellGrouped (todosOfPages pages) [] Hst Hnil) as [[Hnd Hall] Hc].
  fold (groupByStatus (todosOfPages pages)) in Hnd, Hall, Hc.
  split; [reflexivity|]; split; [exact Hpos|].
  rewrite !map_map; split; [exact Hc|]; split; [exact Hnd|].
  apply Forall_map; rewrite Forall_forall in Hall; apply Forall_forall.
  intros [status items] Hin; destruct (Hall _ Hin) as [Hne Hitems].
  pose proof (groupByStatus_entries _ _ Hst Hin) as He.
  unfold groupCount, groupStatus; cbn [fst snd] in *; cbv zeta.
  split; [destruct items; [congruence|simpl; lia]|].
  split; [now rewrite He|]; split; [now rewrite He|].
  split; [apply length_firstn|].
  rewrite <- (firstn_skipn 5 items) in Hitems; now apply Forall_app in Hitems as [H _].
Qed.

End Reports.

Section ReportsSamples.

(** The project graph: three task blocks on two pages, in two groups. *)
Lemma todo_counts_of_project_graph :
  get_system_info sampleUuid graph projectStore 0
  = {| totalPages := 2; regularPages := 1; journalPages := 1;
       totalBlocks := 3; totalTodos := 3 |}
  /\ match get_todos sampleUuid graph projectStore 0 with
     | TodosFound total groups =>
         total = 3
         /\ map (fun group => (groupStatus group, groupCount group)) groups
            = [(TODO, 2); (DONE, 1)]
     | NoTodos => False
     end.
Proof. vm_compute; repeat split. Qed.

End ReportsSamples.

(** ** Journal pages: created once, read by date *)

Section JournalLaws.

Variable LOGSEQ_PATH : str.

(** X14.  [create_journal_page] never replaces a journal file, and a second
    call for the same date leaves the store as the first call left it.  When
    the first call creates the page, the second answers that it exists, and
    [get_journal_by_date], given the date as [create_journal_page] writes it,
    returns the text that the first call wrote.  When the first call answers
    that the page exists, it has written nothing and the second answers the
    same.  When the first call answers an error, the journals directory does
    not exist, nothing is written, the second call answers the error again
    and [get_journal_by_date] finds no entry.  [get_today_journal] on that
    day answers as [get_journal_by_date] does. *)
Theorem journal_page_is_created_once (dirs : Directories) (fs : FileSystem) (d : Date)
    (localeDate localeDate' : str) :
  let first := create_journal_page LOGSEQ_PATH dirs fs d localeDate in
  let second := create_journal_page LOGSEQ_PATH dirs (snd first) d localeDate' in
  snd second = snd first
  /\ match fst first with
     | JournalCreated p =>
         p = journalFile LOGSEQ_PATH d
         /\ pathExists dirs fs p = false
         /\ snd first = writeFileSync fs p (journalText d localeDate)
         /\ fst second = JournalExists p
         /\ get_journal_by_date LOGSEQ_PATH dirs (snd first) (dateStr d)
            = JournalText (journalText d localeDate)
     | JournalExists p =>
         p = journalFile LOGSEQ_PATH d
         /\ pathExists dirs fs p = true
         /\ snd first = fs /\ fst second = JournalExists p
     | JournalError =>
         isDirectory dirs (journalsDir LOGSEQ_PATH) = false
         /\ snd first = fs /\ fst second = JournalError
         /\ get_journal_by_date LOGSEQ_PATH dirs (snd first) (dateStr d) = NoJournalEntry
     end
  /\ get_journal_by_date LOGSEQ_PATH dirs (snd first) (dateStr d)
     = get_today_journal LOGSEQ_PATH dirs (snd first) d.
Proof.
  unfold create_journal_page, get_journal_by_date, get_today_journal.
  rewrite !write_journal_file.
  fold (journalFile LOGSEQ_PATH d); fold (journalText d localeDate);
    fold (journalText d localeDate').
  set (p := journalFile LOGSEQ_PATH d).
  destruct (pathExists dirs fs p) eqn:E; cbn [fst snd].
  - rewrite E; cbn [fst snd]; repeat split.
  - pose proof E as E'; unfold pathExists in E'; apply orb_false_iff in E' as [_ Hp].
    rewrite Hp; cbn [negb andb].
    destruct (isDirectory dirs (journalsDir LOGSEQ_PATH)) eqn:Hj; cbn [fst snd].
    + assert (readFileSync (writeFileSync fs p (journalText d localeDate)) p
              = Some (journalText d localeDate)) as Hr by apply read_after_write.
      assert (pathExists dirs (writeFileSync fs p (journalText d localeDate)) p = true) as Hex
        by (unfold pathExists, existsSync; now rewrite Hr).
      rewrite Hex, Hr; cbn [fst snd negb]; repeat split; exact E.
    + rewrite ?E, ?Hp, ?Hj; cbn [fst snd negb andb]; rewrite ?E; repeat split.
Qed.

End JournalLaws.

Section JournalLawsSamples.

Lemma journal_page_of_january_10_is_created_once :
  create_journal_page graph graphDirs
    (snd (create_journal_page graph graphDirs reviewStore january10 (lit "1/10/2025")))
    january10 (lit "10.1.2025")
  = (JournalExists (lit "/graph/journals/2025-01-10.md"),
     snd (create_journal_page graph graphDirs reviewStore january10 (lit "1/10/2025")))
  /\ get_journal_by_date graph graphDirs
       (snd (create_journal_page graph graphDirs reviewStore january10 (lit "1/10/2025")))
       (lit "2025-01-10")
     = JournalText (join [lit "# 2025-01-10"; []; lit "- Journal entry for 1/10/2025";
                          lit "- TODO Add your thoughts for today"; []])
  /\ create_journal_page graph pagesOnlyDirs
       (snd (create_journal_page graph pagesOnlyDirs reviewStore january10 (lit "1/10/2025")))
       january10 (lit "10.1.2025")
     = (JournalError, reviewStore)
  /\ get_today_journal graph pagesOnlyDirs reviewStore january10 = NoJournalEntry.
Proof. vm_compute; repeat split; reflexivity. Qed.

End JournalLawsSamples.

(** ** Page properties: [set_page_property] and [get_page_properties] *)

Section PageProperties.

Lemma indexOf_here (s sub : str) : startsWith s sub = true -> indexOf s sub = Some 0.
Proof. intros H; destruct s; simpl; now rewrite H. Qed.

Lemma indexOf_cons (c : ascii) (s sub : str) :
  startsWith (c :: s) sub = false -> indexOf (c :: s) sub = option_map S (indexOf s sub).
Proof. intros H; simpl; now rewrite H. Qed.

(** Three dashes that start a text cut by a line break start the part before
    the break. *)
Lemma dashes_before_break (a t : str) :
  startsWith (a ++ newline :: t) (lit "---") = true -> startsWith a (lit "---") = true.
Proof.
  unfold startsWith.
  destruct a as [|a1 [|a2 [|a3 a]]]; cbn [app].
  - now vm_compute.
  - change (stripPrefix (lit "---") (a1 :: newline :: t))
      with (if Ascii.eqb "-" a1 then None (A := str) else None); now destruct (Ascii.eqb "-" a1).
  - change (stripPrefix (lit "---") (a1 :: a2 :: newline :: t))
      with (if Ascii.eqb "-" a1 then if Ascii.eqb "-" a2 then None (A := str) else None
            else None).
    now destruct (Ascii.eqb "-" a1), (Ascii.eqb "-" a2).
  - change (stripPrefix (lit "---") (a1 :: a2 :: a3 :: a ++ newline :: t))
      with (if Ascii.eqb "-" a1
            then if Ascii.eqb "-" a2
                 then if Ascii.eqb "-" a3 then Some (a ++ newline :: t) else None
                 else None
            else None).
    change (stripPrefix (lit "---") (a1 :: a2 :: a3 :: a))
      with (if Ascii.eqb "-" a1
            then if Ascii.eqb "-" a2
                 then if Ascii.eqb "-" a3 then Some a else None
                 else None
            else None).
    now destruct (Ascii.eqb "-" a1), (Ascii.eqb "-" a2), (Ascii.eqb "-" a3).
Qed.

(** The closing marker behind a text without three dashes in a row is the
    first such run. *)
Lemma indexOf_marker (kv rest : str) :
  includes kv (lit "---") = false ->
  indexOf (kv ++ newline :: lit "---" ++ rest) (lit "---") = Some (S (length kv)).
Proof.
  induction kv as [|c kv IH]; intros H.
  - cbn [app length]; rewrite indexOf_cons by (now vm_compute).
    now rewrite indexOf_here by apply startsWith_app.
  - cbn [includes] in H; apply orb_false_iff in H as [H1 H2].
    cbn [app length]; rewrite indexOf_cons.
    + now rewrite (IH H2).
    + destruct (startsWith (c :: kv ++ newline :: lit "---" ++ rest) (lit "---")) eqn:E;
        [|reflexivity].
      apply (dashes_before_break (c :: kv)) in E; congruence.
Qed.

Lemma skipn_exact {A : Type} (n : nat) (a b : list A) : length a = n -> skipn n (a ++ b) = b.
Proof. intros <-; induction a; simpl; auto. Qed.

(** The header and the body that [frontMatter] reads from a text that starts
    with a written header. *)
Lemma frontMatter_header (key value text : str) :
  includes (key ++ lit ": " ++ value) (lit "---") = false ->
  frontMatter (headerOf key value ++ [newline; newline] ++ text)
  = (fold_left frontMatterLine (split (trim (key ++ lit ": " ++ value))) [],
     [newline; newline] ++ text).
Proof.
  intros H; unfold frontMatter, headerOf.
  set (kv := key ++ lit ": " ++ value) in *.
  set (rest := [newline; newline] ++ text).
  replace ((lit "---" ++ [newline] ++ key ++ lit ": " ++ value ++ [newline] ++ lit "---")
           ++ rest)
    with (lit "---" ++ newline :: kv ++ newline :: lit "---" ++ rest)
    by (unfold kv; rewrite <- !app_assoc; reflexivity).
  clearbody kv rest.
  rewrite startsWith_app.
  unfold indexOfFrom.
  change (skipn 3 (lit "---" ++ newline :: kv ++ newline :: lit "---" ++ rest))
    with (newline :: kv ++ newline :: lit "---" ++ rest).
  rewrite indexOf_cons by (now vm_compute).
  rewrite (indexOf_marker kv rest H); cbn [option_map].
  unfold slice, sliceFrom.
  change (skipn 3 (lit "---" ++ newline :: kv ++ newline :: lit "---" ++ rest))
    with (newline :: kv ++ newline :: lit "---" ++ rest).
  replace (3 + S (S (length kv)) - 3) with (S (S (length kv))) by lia.
  replace (newline :: kv ++ newline :: lit "---" ++ rest)
    with ((newline :: kv ++ [newline]) ++ lit "---" ++ rest)
    by (cbn [app]; now rewrite <- app_assoc).
  rewrite firstn_exact by (cbn [length]; rewrite length_app; simpl; lia).
  replace (lit "---" ++ (newline :: kv ++ [newline]) ++ lit "---" ++ rest)
    with ((lit "---" ++ (newline :: kv ++ [newline]) ++ lit "---") ++ rest)
    by (now rewrite <- !app_assoc).
  rewrite skipn_exact
    by (rewrite !length_app; cbn [length]; rewrite length_app; simpl; lia).
  f_equal; f_equal.
  destruct (trim_decompose kv) as (a & b & E & Ha & Hb).
  rewrite E at 1.
  replace (newline :: (a ++ trim kv ++ b) ++ [newline])
    with ((newline :: a) ++ trim kv ++ (b ++ [newline]))
    by (cbn [app]; now rewrite <- !app_assoc).
  rewrite trim_sandwich; [reflexivity|simpl; exact Ha| |apply trim_Trimmed].
  rewrite forallb_app, Hb; reflexivity.
Qed.

Lemma indexOf_char (x : ascii) (key r : str) :
  forallb (notChar x) key = true -> indexOf (key ++ x :: r) [x] = Some (length key).
Proof.
  induction key as [|c key IH]; intros H.
  - apply indexOf_here; unfold startsWith; simpl; now rewrite Ascii.eqb_refl.
  - cbn [forallb] in H; apply andb_true_iff in H as [Hc Hk].
    cbn [app length]; rewrite indexOf_cons, (IH Hk); [reflexivity|].
    unfold startsWith; simpl; unfold notChar in Hc.
    rewrite Ascii.eqb_sym; now destruct (Ascii.eqb c x).
Qed.

Lemma noNewline_app (a b : str) : noNewline (a ++ b) = noNewline a && noNewline b.
Proof. apply forallb_app. Qed.

(** The line of a property once trimmed: the name, the colon, and a rest
    that trims to the trimmed value. *)
Lemma property_line (key value : str) :
  isPropertyKey key = true -> noNewline value = true ->
  exists r,
    trim (key ++ lit ": " ++ value) = key ++ ":"%char :: r
    /\ trim r = trim value
    /\ noNewline (key ++ ":"%char :: r) = true.
Proof.
  unfold isPropertyKey; intros Hk Hv.
  repeat (apply andb_true_iff in Hk as [Hk ?]).
  assert (key <> []) as Hne by (destruct key; [discriminate|discriminate]).
  destruct (trim_decompose value) as (a & b & E & Ha & Hb).
  pose proof (trim_Trimmed value) as Htv.
  set (tv := trim value) in *.
  assert (noNewline (a ++ tv) = true) as Hline.
  { rewrite E, !noNewline_app in Hv; rewrite noNewline_app.
    apply andb_true_iff in Hv as [-> Hv]; now apply andb_true_iff in Hv as [-> _]. }
  assert (exists r, trim (key ++ lit ": " ++ value) = (key ++ [":"%char]) ++ r
                    /\ trim r = tv /\ noNewline r = true) as (r & Ht & Hr & Hrl).
  { destruct tv as [|c tv'] eqn:Etv.
    - exists []; split; [|split; reflexivity].
      rewrite E, app_nil_r; cbn [app].
      replace (key ++ lit ": " ++ a ++ b)
        with ([] ++ (key ++ [":"%char]) ++ (" "%char :: a ++ b))
        by (cbn [app]; rewrite <- app_assoc; reflexivity).
      apply trim_sandwich; [reflexivity| |].
      + cbn [forallb]; rewrite forallb_app, Ha, Hb; reflexivity.
      + split; [now rewrite headOk_app|].
        rewrite rev_app_distr; reflexivity.
    - exists (" "%char :: a ++ c :: tv'); split; [|split].
      + rewrite E.
        replace (key ++ lit ": " ++ a ++ (c :: tv') ++ b)
          with ([] ++ ((key ++ [":"%char]) ++ " "%char :: a ++ c :: tv') ++ b)
          by (cbn [app]; rewrite <- ?app_assoc; cbn [app]; rewrite <- ?app_assoc;
              reflexivity).
        apply trim_sandwich; [reflexivity|exact Hb|].
        split; [rewrite <- app_assoc; now rewrite headOk_app|].
        destruct Htv as [_ Htv].
        replace ((key ++ [":"%char]) ++ " "%char :: a ++ c :: tv')
          with (((key ++ [":"%char]) ++ " "%char :: a) ++ c :: tv')
          by (rewrite <- (app_assoc _ (" "%char :: a)); reflexivity).
        apply headOk_rev_app; [discriminate|exact Htv].
      + replace (" "%char :: a ++ c :: tv') with ((" "%char :: a) ++ (c :: tv') ++ [])
          by (cbn [app]; now rewrite app_nil_r).
        apply trim_sandwich; [simpl; exact Ha|reflexivity|exact Htv].
      + exact Hline. }
  exists r; rewrite Ht, <- app_assoc; cbn [app]; split; [reflexivity|]; split; [exact Hr|].
  change (key ++ ":"%char :: r) with (key ++ [":"%char] ++ r).
  rewrite !noNewline_app, Hrl; replace (noNewline key) with true by (symmetry; assumption).
  reflexivity.
Qed.

(** A header line that starts with a property name and a colon sets that
    property to what follows, trimmed. *)
Lemma frontMatterLine_property (props : list (str * str)) (key r : str) :
  isPropertyKey key = true ->
  frontMatterLine props (key ++ ":"%char :: r) = setKey props key (trim r).
Proof.
  unfold isPropertyKey; intros Hk.
  repeat (apply andb_true_iff in Hk as [Hk ?]).
  assert (Trimmed key) as Hkey by (split; assumption).
  unfold frontMatterLine.
  change (lit ":") with [":"%char].
  rewrite (indexOf_char ":" key r) by assumption.
  destruct key as [|k0 key']; [discriminate|]; cbn [length].
  rewrite firstn_exact by reflexivity.
  replace (skipn (S (S (length key'))) ((k0 :: key') ++ ":"%char :: r)) with r.
  2:{ replace ((k0 :: key') ++ ":"%char :: r) with (((k0 :: key') ++ [":"%char]) ++ r)
        by (now rewrite <- app_assoc).
      rewrite skipn_exact; [reflexivity|rewrite length_app; simpl; lia]. }
  rewrite (trim_id _ Hkey).
  unfold setProperty.
  match goal with H : negb (str_eqb _ _) = true |- _ => apply negb_true_iff in H; rewrite H end.
  reflexivity.
Qed.

(** The one line of a written header gives the property, its value trimmed. *)
Lemma header_line (key value : str) :
  isPropertyKey key = true -> noNewline value = true ->
  fold_left frontMatterLine (split (trim (key ++ lit ": " ++ value))) []
  = [(key, trim value)].
Proof.
  intros Hk Hv; destruct (property_line key value Hk Hv) as (r & -> & Hr & Hl).
  rewrite (split_single _ Hl); cbn [fold_left].
  now rewrite frontMatterLine_property, Hr.
Qed.

Variable uuidv4 : nat -> str.

Lemma parseBlocks_blank_lines (text : str) (n : nat) :
  parseBlocks uuidv4 ([newline; newline] ++ text) n = parseBlocks uuidv4 text n.
Proof.
  unfold parseBlocks.
  change ([newline; newline] ++ text) with ([] ++ newline :: [] ++ newline :: text).
  rewrite !split_line by reflexivity.
  cbn [parseLines].
  change (parseLine uuidv4 [] n) with (@None LogseqBlock, n); cbv beta iota zeta.
  change (parseLine uuidv4 [] n) with (@None LogseqBlock, n); cbv beta iota zeta.
  destruct (parseLines uuidv4 (split text) n); reflexivity.
Qed.

Variable LOGSEQ_PATH : str.

(** X15.  On a page whose file does not start with three dashes,
    [set_page_property] puts a header with the one property in front of the
    text and leaves the other files as they are.  For a property name that a
    header line can carry and a value on one line, neither holding three
    dashes in a row, the page read back has exactly that property, with the
    value trimmed, and the same name and blocks as the text had before. *)
Theorem set_page_property_read_back (fs : FileSystem) (n m : nat)
    (pageName key value text : str) (page : LogseqPage) :
  findPage pageName (pagesOf uuidv4 LOGSEQ_PATH fs n) = Some page ->
  readFileSync fs (path page) = Some text ->
  startsWith text (lit "---") = false ->
  isPropertyKey key = true -> noNewline value = true ->
  includes (key ++ lit ": " ++ value) (lit "---") = false ->
  exists fs',
    set_page_property uuidv4 LOGSEQ_PATH fs n pageName key value = (PropertySet, fs')
    /\ readFileSync fs' (path page)
       = Some (headerOf key value ++ [newline; newline] ++ text)
    /\ (forall q, q <> path page -> readFileSync fs' q = readFileSync fs q)
    /\ exists page' n',
         readPageFile uuidv4 fs' (path page) m = (Some page', n')
         /\ pageProperties page' = Some [(key, trim value)]
         /\ name page' = name page
         /\ title page'
            = (if str_eqb (lit "title") key && negb (isEmpty (trim value))
               then trim value else name page)
         /\ blocks page' = fst (parseBlocks uuidv4 text m).
Proof.
  intros Hf Hr Hs Hk Hv Hd.
  destruct (findPage_Some uuidv4 LOGSEQ_PATH _ _ _ _ Hf) as (_ & _ & Hname & _).
  unfold set_page_property; unfold pagesOf in Hf.
  destruct (getAllPages uuidv4 LOGSEQ_PATH fs n) as [pages n1]; cbn [fst] in Hf.
  rewrite Hf, Hr.
  assert (withProperty text key value = headerOf key value ++ [newline; newline] ++ text) as ->.
  { unfold withProperty, headerOf; rewrite Hs; cbn [negb]; now rewrite <- !app_assoc. }
  set (text' := headerOf key value ++ [newline; newline] ++ text).
  exists (writeFileSync fs (path page) text').
  assert (readFileSync (writeFileSync fs (path page) text') (path page) = Some text') as Hr'
    by apply read_after_write.
  split; [reflexivity|]; split; [exact Hr'|].
  split; [intros q Hq; now apply read_other_after_write|].
  destruct (readPageFile_readable uuidv4 _ _ _ m Hr') as (page' & n' & E).
  exists page', n'; split; [exact E|].
  apply readPageFile_fields in E as (t & Ht & _ & Hn & Hb & Hp & Htitle & _).
  rewrite Hr' in Ht; injection Ht as <-.
  unfold text' in Hb, Hp, Htitle.
  rewrite (frontMatter_header key value text Hd) in Hb, Hp, Htitle.
  cbn [fst snd] in Hb, Hp, Htitle.
  rewrite (header_line key value Hk Hv) in Hp, Htitle.
  rewrite parseBlocks_blank_lines in Hb.
  rewrite Hname; repeat split; auto.
  rewrite Htitle; cbn [lookupKey].
  destruct (str_eqb (lit "title") key); [|reflexivity].
  destruct (trim value); reflexivity.
Qed.

(** X16.  On a page whose file starts with three dashes that no later three
    dashes close, [set_page_property] answers that the property is set, yet
    the text it writes is the text it read: the store is as it was, and the
    page has no property, before as after. *)
Theorem set_page_property_unclosed_header (fs : FileSystem) (n : nat)
    (pageName key value text : str) (page : LogseqPage) :
  findPage pageName (pagesOf uuidv4 LOGSEQ_PATH fs n) = Some page ->
  readFileSync fs (path page) = Some text ->
  startsWith text (lit "---") = true ->
  indexOfFrom text (lit "---") 3 = None ->
  set_page_property uuidv4 LOGSEQ_PATH fs n pageName key value = (PropertySet, fs)
  /\ pageProperties page = None
  /\ get_page_properties uuidv4 LOGSEQ_PATH fs n pageName = NoProperties.
Proof.
  intros Hf Hr Hs Hi.
  destruct (findPage_Some uuidv4 LOGSEQ_PATH _ _ _ _ Hf) as (Hin & _).
  assert (pageProperties page = None) as Hnone.
  { unfold pagesOf, getAllPages in Hin; apply readPages_In in Hin as (_ & k & k' & E).
    apply readPageFile_fields in E as (t & Ht & _ & _ & _ & Hp & _).
    rewrite Hr in Ht; injection Ht as <-.
    unfold frontMatter in Hp; rewrite Hs, Hi in Hp; exact Hp. }
  unfold set_page_property, get_page_properties; unfold pagesOf in Hf.
  destruct (getAllPages uuidv4 LOGSEQ_PATH fs n) as [pages n1]; cbn [fst] in Hf.
  rewrite Hf, Hr, Hnone.
  unfold withProperty; rewrite Hs, Hi; cbn [negb].
  rewrite (write_same fs (path page) text Hr); auto.
Qed.

End PageProperties.

Section PagePropertiesSamples.

(** The page [Project] gets the property [status]. *)
Lemma set_page_property_read_back_witness :
  exists page,
    findPage (lit "project") (pagesOf sampleUuid graph projectStore 0) = Some page
    /\ readFileSync projectStore (path page)
       = Some (join [lit "- 11111111 TODO write"; lit "- 22222222 DONE read"])
    /\ startsWith (join [lit "- 11111111 TODO write"; lit "- 22222222 DONE read"]) (lit "---")
       = false
    /\ isPropertyKey (lit "status") = true /\ noNewline (lit " on-hold ") = true
    /\ includes (lit "status" ++ lit ": " ++ lit " on-hold ") (lit "---") = false
    /\ exists fs',
         set_page_property sampleUuid graph projectStore 0 (lit "project") (lit "status")
           (lit " on-hold ")
         = (PropertySet, fs')
         /\ readFileSync fs' (path page)
            = Some (join [lit "---"; lit "status:  on-hold "; lit "---"; [];
                          lit "- 11111111 TODO write"; lit "- 22222222 DONE read"])
         /\ exists page' n',
              readPageFile sampleUuid fs' (path page) 0 = (Some page', n')
              /\ pageProperties page' = Some [(lit "status", lit "on-hold")]
              /\ name page' = lit "Project" /\ title page' = lit "Project"
              /\ map content (blocks page') = [lit "write"; lit "read"].
Proof.
  destruct (findPage (lit "project") (pagesOf sampleUuid graph projectStore 0))
    as [page|] eqn:F; [|vm_compute in F; discriminate].
  pose proof F as F'; vm_compute in F'; injection F' as <-.
  eexists; split; [reflexivity|]; split; [reflexivity|]; split; [reflexivity|].
  split; [reflexivity|]; split; [reflexivity|]; split; [reflexivity|].
  destruct (set_page_property_read_back sampleUuid graph projectStore 0 0
              (lit "project") (lit "status") (lit " on-hold ") _ _ F
              eq_refl eq_refl eq_refl eq_refl eq_refl)
    as (fs' & Hc & Hr & _ & page' & n' & E & Hp & Hn & Ht & Hb).
  exists fs'; split; [exact Hc|]; split; [exact Hr|].
  exists page', n'; split; [exact E|]; split; [exact Hp|]; split; [exact Hn|].
  split; [exact Ht|]; rewrite Hb; vm_compute; reflexivity.
Defined.

(** The draft page starts a header that it does not close. *)
Lemma set_page_property_unclosed_header_witness :
  exists page,
    findPage (lit "draft") (pagesOf sampleUuid graph draftStore 0) = Some page
    /\ readFileSync draftStore (path page)
       = Some (join [lit "---"; lit "title: Draft"; lit "- body"])
    /\ startsWith (join [lit "---"; lit "title: Draft"; lit "- body"]) (lit "---") = true
    /\ indexOfFrom (join [lit "---"; lit "title: Draft"; lit "- body"]) (lit "---") 3 = None
    /\ set_page_property sampleUuid graph draftStore 0 (lit "draft") (lit "status") (lit "new")
       = (PropertySet, draftStore)
    /\ pageProperties page = None
    /\ get_page_properties sampleUuid graph draftStore 0 (lit "draft") = NoProperties.
Proof.
  destruct (findPage (lit "draft") (pagesOf sampleUuid graph draftStore 0))
    as [page|] eqn:F; [|vm_compute in F; discriminate].
  pose proof F as F'; vm_compute in F'; injection F' as <-.
  eexists; split; [reflexivity|]; split; [reflexivity|]; split; [reflexivity|].
  split; [reflexivity|].
  exact (set_page_property_unclosed_header sampleUuid graph draftStore 0
           (lit "draft") (lit "status") (lit "new") _ _ F eq_refl eq_refl eq_refl).
Defined.

End PagePropertiesSamples.

(** ** [insert_block], and the tools that take the identity it returns *)

Section InsertedBlocks.

Lemma blockContent_starts (uid : str) (todo_ priority_ : option str) (content_ : str) :
  exists rest,
    blockContent uid todo_ priority_ content_ = lit "- " ++ slice 0 8 uid ++ lit " " ++ rest.
Proof. unfold blockContent; eauto. Qed.

Lemma lineIncludesUuid_short (q line : str) :
  length q <= 8 -> lineIncludesUuid q line = includes line q.
Proof.
  intros H; unfold lineIncludesUuid, slice; cbn [skipn Nat.sub].
  rewrite (firstn_all2 (n := 8) q H).
  apply Nat.leb_le in H; rewrite H.
  destruct (includes line q), (8 <=? length q); reflexivity.
Qed.

Lemma updateLines_skip (q payload : str) (before rest : list str) :
  (forall l, In l before -> lineIncludesUuid q l = false) ->
  updateLines q payload (before ++ rest)
  = option_map (app before) (updateLines q payload rest).
Proof.
  induction before as [|l before IH]; intros H.
  - cbn [app]; destruct (updateLines q payload rest); reflexivity.
  - cbn [app updateLines]; rewrite (H l (or_introl eq_refl)).
    rewrite IH by (intros l' Hl'; apply H; now right).
    destruct (updateLines q payload rest); reflexivity.
Qed.

Lemma dotsToEnd_noNewline (s : str) : dotsToEnd s = true -> noNewline s = true.
Proof.
  unfold dotsToEnd, noNewline; induction s as [|c s IH]; simpl; [reflexivity|].
  intros H; apply andb_true_iff in H as [Hc Hs]; rewrite (IH Hs), andb_true_r.
  unfold isLineTerminator in Hc; apply negb_true_iff, orb_false_iff in Hc as [Hc _].
  destruct (Ascii.eqb c newline) eqn:E; [|reflexivity].
  apply Ascii.eqb_eq in E; subst c; discriminate.
Qed.

Lemma dashBulletMatch_dash (rest : str) :
  dotsToEnd rest = true -> dashBulletMatch (lit "- " ++ rest) = Some (lit "- ", rest).
Proof.
  intros H; unfold dashBulletMatch.
  change (span isSpace (lit "- " ++ rest)) with (@nil ascii, lit "- " ++ rest).
  cbv beta iota zeta; rewrite stripPrefix_app, H; reflexivity.
Qed.

Lemma findIndex_last (test : str -> bool) (before : list str) (x : str) :
  (forall l, In l before -> test l = false) -> test x = true ->
  findIndex test (before ++ [x]) = Some (length before).
Proof.
  intros H Hx; induction before as [|l before IH]; simpl; [now rewrite Hx|].
  rewrite (H l (or_introl eq_refl)), IH; [reflexivity|].
  intros l' Hl'; apply H; now right.
Qed.

(** When the first two strategies pass no line but the last one, which
    passes the second, one of the two selects the last line. *)
Lemma findLine_two (s1 s2 : string) (t1 t2 : str -> bool)
    (rest : list (string * (str -> bool))) (before : list str) (x : str) :
  (forall l, In l before -> t1 l = false) ->
  (forall l, In l before -> t2 l = false) ->
  t2 x = true ->
  exists strategy,
    findLine ((s1, t1) :: (s2, t2) :: rest) (before ++ [x]) = Some (length before, strategy)
    /\ (strategy = s1 \/ strategy = s2).
Proof.
  intros H1 H2 Hx; cbn [findLine].
  destruct (t1 x) eqn:E.
  - rewrite (findIndex_last t1 before x H1 E); eauto.
  - rewrite (findIndex_None t1 (before ++ [x])).
    + rewrite (findIndex_last t2 before x H2 Hx); eauto.
    + intros l Hl; apply in_app_or in Hl as [Hl|[<-|[]]]; auto.
Qed.

(** A line that starts, once trimmed, with a bullet and the identity holds
    the identity. *)
Lemma bulletThenId_includes (bullet : string) (id8 line : str) :
  startsWith (trim line) (bulletThenId bullet id8) = true -> includes line id8 = true.
Proof.
  intros H; apply startsWith_prefix in H as [r Hr].
  destruct (trim_decompose line) as (a & b & E & _).
  rewrite E, Hr; unfold bulletThenId.
  replace (a ++ ((lit bullet ++ id8 ++ lit " ") ++ r) ++ b)
    with ((a ++ lit bullet) ++ id8 ++ (lit " " ++ r ++ b))
    by (now rewrite <- !app_assoc).
  apply includes_app.
Qed.

Variable uuidv4 : nat -> str.
Variable LOGSEQ_PATH : str.

Lemma insert_block_Inserted (fs fs1 : FileSystem) (n n1 : nat)
    (pageName content_ id8 line : str) (todo_ priority_ : option str) :
  insert_block uuidv4 LOGSEQ_PATH fs n pageName content_ todo_ priority_
  = (Inserted id8 line, fs1, n1) ->
  exists page text uid,
    findPage pageName (pagesOf uuidv4 LOGSEQ_PATH fs n) = Some page
    /\ readFileSync fs (path page) = Some text
    /\ id8 = slice 0 8 uid
    /\ line = blockContent uid todo_ priority_ content_
    /\ fs1 = writeFileSync fs (path page) (text ++ newline :: line).
Proof.
  unfold insert_block, pagesOf, findPage.
  destruct (getAllPages uuidv4 LOGSEQ_PATH fs n) as [pages k]; cbn [fst].
  destruct (find _ pages) as [page|]; [|discriminate].
  unfold generateUUID.
  destruct (readFileSync fs (path page)) as [text|] eqn:R; [|discriminate].
  intros [= <- <- <- _]; exists page, text, (uuidv4 k); repeat split; exact R.
Qed.






(** The pages of a store in which one file is rewritten: [update_block] goes
    past the files without a line to rewrite and stops at the first file
    that has one. *)
Lemma updatePages_first_hit (fs1 : FileSystem) (q payload p text1 : str)
    (lines1 : list str) (files : list str) (m : nat) :
  In p files ->
  readFileSync fs1 p = Some text1 ->
  updateLines q payload (split text1) = Some lines1 ->
  (forall f, In f files -> f <> p ->
     exists t, readFileSync fs1 f = Some t /\ updateLines q payload (split t) = None) ->
  updatePages fs1 q payload (fst (readPages uuidv4 fs1 files m))
  = (Updated (pageNameOf p), writeFileSync fs1 p (join lines1)).
Proof.
  intros Hin Hr Hu Hothers; revert m; induction files as [|f files IH]; [destruct Hin|].
  intros m; cbn [readPages].
  destruct (str_eqb f p) eqn:E.
  - apply str_eqb_eq in E; subst f.
    destruct (readPageFile_readable uuidv4 fs1 p text1 m Hr) as (page0 & m1 & E0).
    rewrite E0; destruct (readPages uuidv4 fs1 files m1) as [pages m2]; cbn [fst].
    apply readPageFile_fields in E0 as (t & _ & Hp & Hn & _).
    cbn [updatePages]; rewrite Hp, Hr, Hu, Hn; reflexivity.
  - assert (f <> p) as Hne by (intros ->; now rewrite str_eqb_refl in E).
    destruct (Hothers f (or_introl eq_refl) Hne) as (t & Ht & Hnone).
    destruct (readPageFile_readable uuidv4 fs1 f t m Ht) as (page0 & m1 & E0).
    rewrite E0.
    assert (In p files) as Hin' by (destruct Hin as [->|H]; [contradiction|exact H]).
    specialize (IH Hin' (fun f' Hf' => Hothers f' (or_intror Hf')) m1).
    destruct (readPages uuidv4 fs1 files m1) as [pages m2]; cbn [fst] in *.
    apply readPageFile_fields in E0 as (t' & _ & Hp & _).
    cbn [updatePages]; rewrite Hp, Ht, Hnone; exact IH.
Qed.

(** X18.  The identity that [insert_block] returns designates the inserted
    line for [update_block]: when no file of the store held that identity
    before and the inserted line holds no line terminator, [update_block]
    with that identity rewrites the inserted line, and nothing else, to a
    dash, a blank and the new content.  The identity, the task keyword and
    the priority cookie that [insert_block] wrote are gone from the line. *)
Theorem inserted_block_is_updated_by_its_id (fs fs1 : FileSystem) (n n1 m : nat)
    (pageName content_ id8 line payload : str) (todo_ priority_ : option str) :
  insert_block uuidv4 LOGSEQ_PATH fs n pageName content_ todo_ priority_
  = (Inserted id8 line, fs1, n1) ->
  dotsToEnd line = true ->
  (forall p text, In (p, text) fs -> includes text id8 = false) ->
  exists page text,
    findPage pageName (pagesOf uuidv4 LOGSEQ_PATH fs n) = Some page
    /\ readFileSync fs (path page) = Some text
    /\ readFileSync fs1 (path page) = Some (text ++ newline :: line)
    /\ update_block uuidv4 LOGSEQ_PATH fs1 m id8 payload
       = (Updated (name page),
          writeFileSync fs1 (path page) (text ++ newline :: lit "- " ++ payload)).
Proof.
  intros Hi Hdots Hfresh.
  apply insert_block_Inserted in Hi as (page & text & uid & Hf & Hr & Hid & Hline & Hfs).
  exists page, text; split; [exact Hf|]; split; [exact Hr|].
  assert (readFileSync fs1 (path page) = Some (text ++ newline :: line)) as Hr1
    by (rewrite Hfs; apply read_after_write).
  split; [exact Hr1|].
  destruct (findPage_Some uuidv4 LOGSEQ_PATH _ _ _ _ Hf) as (Hin & _ & Hname & _).
  assert (length id8 <= 8) as Hlen
    by (rewrite Hid; unfold slice; rewrite length_firstn; lia).
  assert (forall p t l, In (p, t) fs -> In l (split t) -> lineIncludesUuid id8 l = false)
    as Hlines.
  { intros p t l Hp Hl; rewrite (lineIncludesUuid_short _ _ Hlen).
    destruct (includes l id8) eqn:E; [|reflexivity].
    rewrite <- (Hfresh p t Hp); symmetry; now apply includes_line with (l := l). }
  assert (exists rest, line = lit "- " ++ rest /\ includes line id8 = true) as (rest & Hl & Hinc).
  { destruct (blockContent_starts uid todo_ priority_ content_) as [r Hr'].
    rewrite Hline, Hr', <- Hid; eexists; split; [reflexivity|apply includes_app]. }
  assert (updateLines id8 payload (split (text ++ newline :: line))
          = Some (split text ++ [lit "- " ++ payload])) as Hu.
  { rewrite split_last by now apply dotsToEnd_noNewline.
    rewrite updateLines_skip
      by (intros l Hl'; apply (Hlines (path page) text l); [now apply readFileSync_In|exact Hl']).
    cbn [updateLines]; rewrite (lineIncludesUuid_short _ _ Hlen), Hinc.
    rewrite Hl in Hdots |- *.
    unfold dotsToEnd in Hdots; rewrite forallb_app in Hdots.
    apply andb_true_iff in Hdots as [_ Hdots].
    rewrite (dashBulletMatch_dash rest Hdots); reflexivity. }
  rewrite update_block_pages; unfold pagesOf, getAllPages.
  assert (existsSync fs (path page) = true) as Hex by (unfold existsSync; now rewrite Hr).
  rewrite Hname.
  replace (text ++ newline :: lit "- " ++ payload)
    with (join (split text ++ [lit "- " ++ payload]))
    by (rewrite join_last by apply split_not_nil; now rewrite join_split).
  apply updatePages_first_hit with (text1 := text ++ newline :: line); auto.
  - rewrite Hfs, !findMarkdownFiles_write by exact Hex.
    unfold pagesOf, getAllPages in Hin; now apply readPages_In in Hin as [Hin _].
  - intros f Hf' Hne; rewrite Hfs in Hf' |- *.
    rewrite !findMarkdownFiles_write in Hf' by exact Hex.
    destruct (noteFiles_readable LOGSEQ_PATH fs f Hf') as [t Ht].
    exists t; rewrite read_other_after_write by exact Hne.
    split; [exact Ht|].
    apply updateLines_None; intros l Hl' Hinc'.
    rewrite (Hlines f t l) in Hinc'; [discriminate|now apply readFileSync_In|exact Hl'].
Qed.

(** X19.  The identity that [insert_block] returns designates the inserted
    line for [delete_block]: when the text of the page did not hold that
    identity before, the inserted line holds no line break, and the request
    designates a block of that page with that short identity, as [get_block]
    shows it, [delete_block] removes the inserted line, by the strategy that
    looks for the identity at the start of a line or by the one that looks
    for it anywhere in a bullet line, and every file reads as it did before
    the insertion. *)
Theorem inserted_block_is_deleted_by_its_id (fs fs1 : FileSystem) (n n1 m : nat)
    (pageName content_ id8 line : str) (todo_ priority_ : option str)
    (page page' : LogseqPage) (block : LogseqBlock) :
  findPage pageName (pagesOf uuidv4 LOGSEQ_PATH fs n) = Some page ->
  insert_block uuidv4 LOGSEQ_PATH fs n pageName content_ todo_ priority_
  = (Inserted id8 line, fs1, n1) ->
  noNewline line = true ->
  (forall text, readFileSync fs (path page) = Some text -> includes text id8 = false) ->
  get_block uuidv4 LOGSEQ_PATH fs1 m id8 = Some (page', block) ->
  path page' = path page ->
  slice 0 8 (uuid block) = id8 ->
  exists text strategy verified,
    readFileSync fs (path page) = Some text
    /\ delete_block uuidv4 LOGSEQ_PATH fs1 m id8
       = (Deleted strategy (name page') (length (split text)) line verified,
          writeFileSync fs1 (path page) text)
    /\ (strategy = "UUID at start"%string \/ strategy = "UUID anywhere in bullet"%string)
    /\ forall q, readFileSync (writeFileSync fs1 (path page) text) q = readFileSync fs q.
Proof.
  intros Hf Hi Hline Hfresh Hg Hpath Hshort.
  apply insert_block_Inserted in Hi as (page0 & text & uid & Hf0 & Hr & Hid & Hl & Hfs).
  rewrite Hf in Hf0; injection Hf0 as <-.
  specialize (Hfresh text Hr).
  assert (readFileSync fs1 (path page) = Some (text ++ newline :: line)) as Hr1
    by (rewrite Hfs; apply read_after_write).
  assert (forall l, In l (split text) -> includes l id8 = false) as Hlines.
  { intros l Hin; destruct (includes l id8) eqn:E; [|reflexivity].
    rewrite <- Hfresh; symmetry; now apply includes_line with (l := l). }
  assert (includes line id8 = true /\ includes line (lit "- ") = true) as [Hinc Hdash].
  { destruct (blockContent_starts uid todo_ priority_ content_) as [r Hr'].
    rewrite Hl, Hr', <- Hid; split; [apply includes_app|].
    apply includes_startsWith, startsWith_app. }
  unfold delete_block; unfold get_block in Hg.
  destruct (getAllPages uuidv4 LOGSEQ_PATH fs1 m) as [pages1 k1].
  rewrite Hg, Hpath, Hr1; cbv zeta.
  rewrite Hshort, (split_last _ _ Hline).
  unfold searchStrategies.
  match goal with
  | |- context [findLine ((?s1, ?t1) :: (?s2, ?t2) :: ?rest) _] =>
      destruct (findLine_two s1 s2 t1 t2 rest (split text) line)
        as (strategy & Hfl & Hs)
  end.
  - intros l Hin; specialize (Hlines l Hin).
    destruct (startsWith (trim l) (bulletThenId "- " id8)) eqn:E1;
      [apply bulletThenId_includes in E1; congruence|].
    destruct (startsWith (trim l) (bulletThenId "* " id8)) eqn:E2;
      [apply bulletThenId_includes in E2; congruence|].
    destruct (startsWith (trim l) (bulletThenId "+ " id8)) eqn:E3;
      [apply bulletThenId_includes in E3; congruence|reflexivity].
  - intros l Hin; now rewrite (Hlines l Hin).
  - unfold looksBulleted; now rewrite Hinc, Hdash.
  - rewrite Hfl.
    rewrite nth_middle, splice1_middle, app_nil_r, join_split.
    exists text, strategy; eexists; split; [exact Hr|]; split; [reflexivity|].
    split; [exact Hs|].
    intros q; destruct (str_eqb q (path page)) eqn:E.
    + apply str_eqb_eq in E; subst q; now rewrite read_after_write.
    + assert (q <> path page) as Hne by (intros ->; now rewrite str_eqb_refl in E).
      rewrite read_other_after_write by exact Hne.
      rewrite Hfs; now apply read_other_after_write.
Qed.

End InsertedBlocks.

Section InsertedBlocksSamples.

Ltac store_entries H :=
  vm_compute in H;
  repeat match type of H with
         | _ \/ _ => destruct H as [H|H]
         end;
  try contradiction; try (injection H as <- <-).


(** A line that holds three dashes, added to a file whose header is open:
    the header is closed by the line, and the blocks that the page had are
    no longer blocks of the page. *)
Lemma insert_block_closes_open_header :
  insert_block sampleUuid graph openHeaderStore 0 (lit "log") (lit "see --- below") None None
  = (Inserted (lit "00000004") (lit "- 00000004 see --- below"),
     [(lit "/graph/pages/log.md",
       join [lit "---"; lit "- alpha"; lit "- beta"; lit "- 00000004 see --- below"])], 5)
  /\ noHeader (join [lit "---"; lit "- alpha"; lit "- beta"]) = true
  /\ noHeader (join [lit "---"; lit "- alpha"; lit "- beta"; lit "- 00000004 see --- below"])
     = false
  /\ option_map (fun page => map content (blocks page))
       (fst (readPageFile sampleUuid openHeaderStore (lit "/graph/pages/log.md") 0))
     = Some [lit "--"; lit "alpha"; lit "beta"]
  /\ option_map (fun page => map content (blocks page))
       (fst (readPageFile sampleUuid
               [(lit "/graph/pages/log.md",
                 join [lit "---"; lit "- alpha"; lit "- beta"; lit "- 00000004 see --- below"])]
               (lit "/graph/pages/log.md") 0))
     = Some [lit "below"].
Proof. repeat split; vm_compute; reflexivity. Qed.

(** The inserted task block, rewritten through the identity it was given. *)
Lemma inserted_block_is_updated_by_its_id_witness :
  insert_block sampleUuid graph projectStore 0 (lit "project") (lit "review notes")
    (Some (lit "TODO")) (Some (lit "A"))
  = (Inserted (lit "00000008") (lit "- 00000008 TODO [#A] review notes"),
     [(lit "/graph/pages/Project.md",
       join [lit "- 11111111 TODO write"; lit "- 22222222 DONE read";
             lit "- 00000008 TODO [#A] review notes"]);
      (lit "/graph/pages/notes.txt", lit "- not a note");
      (lit "/graph/journals/2025_01_10.md", lit "- 33333333 TODO call")], 9)
  /\ dotsToEnd (lit "- 00000008 TODO [#A] review notes") = true
  /\ (forall p text, In (p, text) projectStore -> includes text (lit "00000008") = false)
  /\ update_block sampleUuid graph
       [(lit "/graph/pages/Project.md",
         join [lit "- 11111111 TODO write"; lit "- 22222222 DONE read";
               lit "- 00000008 TODO [#A] review notes"]);
        (lit "/graph/pages/notes.txt", lit "- not a note");
        (lit "/graph/journals/2025_01_10.md", lit "- 33333333 TODO call")]
       9 (lit "00000008") (lit "DONE review notes")
     = (Updated (lit "Project"),
        [(lit "/graph/pages/Project.md",
          join [lit "- 11111111 TODO write"; lit "- 22222222 DONE read";
                lit "- DONE review notes"]);
         (lit "/graph/pages/notes.txt", lit "- not a note");
         (lit "/graph/journals/2025_01_10.md", lit "- 33333333 TODO call")]).
Proof.
  assert (forall p text, In (p, text) projectStore -> includes text (lit "00000008") = false)
    as Hfresh by (intros p text H; store_entries H; reflexivity).
  split; [reflexivity|]; split; [reflexivity|]; split; [exact Hfresh|].
  destruct (inserted_block_is_updated_by_its_id sampleUuid graph projectStore _ 0 9 9
              (lit "project") (lit "review notes") (lit "00000008")
              (lit "- 00000008 TODO [#A] review notes") (lit "DONE review notes")
              (Some (lit "TODO")) (Some (lit "A")) eq_refl eq_refl Hfresh)
    as (page & text & Hf & Hr & _ & Hu).
  vm_compute in Hf; injection Hf as <-.
  vm_compute in Hr; injection Hr as <-.
  exact Hu.
Defined.

(** The inserted task block, deleted through the identity it was given: the
    page file is back to its two lines. *)
Lemma inserted_block_is_deleted_by_its_id_witness :
  exists page page' block,
    findPage (lit "project") (pagesOf sampleUuid graph projectStore 0) = Some page
    /\ insert_block sampleUuid graph projectStore 0 (lit "project") (lit "review notes")
         (Some (lit "TODO")) (Some (lit "A"))
       = (Inserted (lit "00000008") (lit "- 00000008 TODO [#A] review notes"),
          writeFileSync projectStore (lit "/graph/pages/Project.md")
            (join [lit "- 11111111 TODO write"; lit "- 22222222 DONE read";
                   lit "- 00000008 TODO [#A] review notes"]), 9)
    /\ noNewline (lit "- 00000008 TODO [#A] review notes") = true
    /\ (forall text, readFileSync projectStore (path page) = Some text ->
          includes text (lit "00000008") = false)
    /\ get_block sampleUuid graph
         (writeFileSync projectStore (lit "/graph/pages/Project.md")
            (join [lit "- 11111111 TODO write"; lit "- 22222222 DONE read";
                   lit "- 00000008 TODO [#A] review notes"])) 9 (lit "00000008")
       = Some (page', block)
    /\ path page' = path page
    /\ slice 0 8 (uuid block) = lit "00000008"
    /\ exists strategy verified,
         delete_block sampleUuid graph
           (writeFileSync projectStore (lit "/graph/pages/Project.md")
              (join [lit "- 11111111 TODO write"; lit "- 22222222 DONE read";
                     lit "- 00000008 TODO [#A] review notes"])) 9 (lit "00000008")
         = (Deleted strategy (lit "Project") 2
              (lit "- 00000008 TODO [#A] review notes") verified,
            projectStore)
         /\ (strategy = "UUID at start"%string
             \/ strategy = "UUID anywhere in bullet"%string).
Proof.
  destruct (findPage (lit "project") (pagesOf sampleUuid graph projectStore 0))
    as [page|] eqn:F; [|vm_compute in F; discriminate].
  destruct (get_block sampleUuid graph
              (writeFileSync projectStore (lit "/graph/pages/Project.md")
                 (join [lit "- 11111111 TODO write"; lit "- 22222222 DONE read";
                        lit "- 00000008 TODO [#A] review notes"])) 9 (lit "00000008"))
    as [[page' block]|] eqn:G; [|vm_compute in G; discriminate].
  exists page, page', block.
  pose proof F as F'; vm_compute in F'; injection F' as <-.
  pose proof G as G'; vm_compute in G'; injection G' as <- <-.
  assert (forall text,
            readFileSync projectStore (lit "/graph/pages/Project.md") = Some text ->
            includes text (lit "00000008") = false) as Hfresh
    by (intros text H; vm_compute in H; injection H as <-; reflexivity).
  split; [reflexivity|]; split; [reflexivity|]; split; [reflexivity|].
  split; [exact Hfresh|]; split; [reflexivity|]; split; [reflexivity|].
  split; [reflexivity|].
  destruct (inserted_block_is_deleted_by_its_id sampleUuid graph projectStore _ 0 9 9
              (lit "project") (lit "review notes") (lit "00000008")
              (lit "- 00000008 TODO [#A] review notes")
              (Some (lit "TODO")) (Some (lit "A")) _ _ _
              F eq_refl eq_refl Hfresh G eq_refl eq_refl)
    as (text & strategy & verified & Hr & Hd & Hs & _).
  vm_compute in Hr; injection Hr as <-.
  exists strategy, verified; split; [exact Hd|exact Hs].
Defined.

End InsertedBlocksSamples.

(** ** Journal files named by Logseq *)

Section NativeJournals.

Lemma digit_value (d : nat) : (code (digit d) - 48)%N = N.of_nat (d mod 10).
Proof.
  unfold digit; pose proof (Nat.mod_upper_bound d 10 ltac:(lia)) as H.
  remember (d mod 10) as k eqn:E; clear E.
  do 10 (destruct k as [|k]; [reflexivity|]); lia.
Qed.

(** [parseInt] on a run of padded digits, started from an accumulator. *)
Lemma parseInt_pad (w n a : nat) :
  fold_left (fun acc c => 10 * acc + (code c - 48))%N (pad w n) (N.of_nat a)
  = N.of_nat (a * 10 ^ w + n mod 10 ^ w).
Proof.
  revert n a; induction w as [|w IH]; intros n a.
  - cbn [pad fold_left]; f_equal; rewrite Nat.pow_0_r, Nat.mod_1_r; lia.
  - cbn [pad]; rewrite fold_left_app, IH; cbn [fold_left].
    rewrite digit_value.
    change 10%N with (N.of_nat 10); rewrite <- Nat2N.inj_mul, <- Nat2N.inj_add.
    f_equal; rewrite Nat.pow_succ_r', (Nat.Div0.mod_mul_r n 10 (10 ^ w)).
    set (p := 10 ^ w); lia.
Qed.

Lemma journalNameMatch_padded (y m d : nat) :
  journalNameMatch (underscoreDate y m d) = Some (pad 4 y, pad 2 m, pad 2 d).
Proof.
  unfold journalNameMatch, underscoreDate.
  rewrite (takeN_exact 4 isDigit) by (apply pad_length || apply pad_digits).
  rewrite stripPrefix_app.
  rewrite (takeN_exact 2 isDigit) by (apply pad_length || apply pad_digits).
  rewrite stripPrefix_app.
  rewrite <- (app_nil_r (pad 2 d)).
  rewrite (takeN_exact 2 isDigit) by (apply pad_length || apply pad_digits).
  reflexivity.
Qed.

Lemma journalDayOf_padded (y m d : nat) :
  y < 10 ^ 4 -> m < 10 ^ 2 -> d < 10 ^ 2 ->
  journalDayOf (underscoreDate y m d)
  = Some (N.of_nat y * 10000 + N.of_nat m * 100 + N.of_nat d)%N.
Proof.
  intros Hy Hm Hd; unfold journalDayOf; rewrite journalNameMatch_padded.
  unfold parseInt; rewrite !fold_left_app.
  change 0%N with (N.of_nat 0); rewrite !parseInt_pad.
  rewrite !Nat.mod_small by assumption.
  repeat first [rewrite Nat2N.inj_add | rewrite Nat2N.inj_mul | rewrite Nat2N.inj_pow].
  change (N.of_nat 10 ^ N.of_nat 2)%N with 100%N.
  change (N.of_nat 10 ^ N.of_nat 4)%N with 10000%N.
  change (N.of_nat 0) with 0%N.
  f_equal; lia.
Qed.

Lemma digits_no_slash (s : str) : forallb isDigit s = true -> forallb (notChar "/") s = true.
Proof.
  intros H; apply (dateChars_no "/" s eq_refl); now apply isDigit_isDateChar.
Qed.

Lemma pad_not_nil (w n : nat) : pad (S w) n <> [].
Proof. cbn [pad]; destruct (pad w (n / 10)); discriminate. Qed.

Lemma underscoreDate_fileName (y m d : nat) : isFileName (underscoreDate y m d) = true.
Proof.
  unfold isFileName, underscoreDate; apply andb_true_iff; split.
  - pose proof (pad_not_nil 3 y) as H; destruct (pad 4 y); [congruence|reflexivity].
  - rewrite !forallb_app.
    rewrite (digits_no_slash (pad 4 y)), (digits_no_slash (pad 2 m)),
      (digits_no_slash (pad 2 d)) by apply pad_digits.
    reflexivity.
Qed.

Variable uuidv4 : nat -> str.
Variable LOGSEQ_PATH : str.

Lemma readPageFile_journalDay (fs : FileSystem) (p : str) (n n' : nat) (page : LogseqPage) :
  readPageFile uuidv4 fs p n = (Some page, n') ->
  journalDay page
  = if includes p (lit "/journals/") then journalDayOf (pageNameOf p) else None.
Proof.
  unfold readPageFile.
  destruct (readFileSync fs p) as [text|]; [|discriminate].
  destruct (frontMatter text) as [props md].
  destruct (parseBlocks uuidv4 md n) as [bs n1]; simpl.
  intros [= <- _]; reflexivity.
Qed.

(** X20.  A file of the journals directory that carries the name Logseq gives
    to the journal of a day (four, two and two digits separated by
    underscores) is read as a journal page of that name whose [journalDay] is
    the number that the eight digits write: the year times 10000, plus the
    month times 100, plus the day. *)
Theorem native_journal_file_has_journalDay (fs : FileSystem) (y m d n : nat) (text : str) :
  y < 10 ^ 4 -> m < 10 ^ 2 -> d < 10 ^ 2 ->
  readFileSync fs (pathJoin (journalsDir LOGSEQ_PATH) (underscoreDate y m d ++ lit ".md"))
  = Some text ->
  exists page n',
    readPageFile uuidv4 fs
      (pathJoin (journalsDir LOGSEQ_PATH) (underscoreDate y m d ++ lit ".md")) n
    = (Some page, n')
    /\ name page = underscoreDate y m d
    /\ isJournal page = true
    /\ journalDay page = Some (N.of_nat y * 10000 + N.of_nat m * 100 + N.of_nat d)%N.
Proof.
  intros Hy Hm Hd Hr.
  destruct (readPageFile_readable uuidv4 fs _ text n Hr) as (page & n' & E).
  exists page, n'; split; [exact E|].
  pose proof (readPageFile_journalDay _ _ _ _ _ E) as Hj.
  apply readPageFile_fields in E as (t & _ & _ & Hn & _ & _ & _ & _ & Hi).
  rewrite note_file_name in Hn, Hj by apply underscoreDate_fileName.
  assert (includes (pathJoin (journalsDir LOGSEQ_PATH) (underscoreDate y m d ++ lit ".md"))
            (lit "/journals/") = true) as Hinc
    by (rewrite journal_path; apply includes_app).
  rewrite Hinc in Hi, Hj.
  rewrite (journalDayOf_padded y m d Hy Hm Hd) in Hj; auto.
Qed.

End NativeJournals.

Section NativeJournalsSamples.

Lemma native_journal_file_has_journalDay_witness :
  2025 < 10 ^ 4 /\ 1 < 10 ^ 2 /\ 10 < 10 ^ 2
  /\ readFileSync projectStore (lit "/graph/journals/2025_01_10.md")
     = Some (lit "- 33333333 TODO call")
  /\ exists page n',
       readPageFile sampleUuid projectStore (lit "/graph/journals/2025_01_10.md") 0
       = (Some page, n')
       /\ name page = lit "2025_01_10"
       /\ isJournal page = true
       /\ journalDay page = Some 20250110%N.
Proof.
  assert (2025 < 10 ^ 4) as Hy by (apply Nat.ltb_lt; vm_compute; reflexivity).
  assert (1 < 10 ^ 2) as Hm by (apply Nat.ltb_lt; vm_compute; reflexivity).
  assert (10 < 10 ^ 2) as Hd by (apply Nat.ltb_lt; vm_compute; reflexivity).
  split; [exact Hy|]; split; [exact Hm|]; split; [exact Hd|]; split; [reflexivity|].
  exact (native_journal_file_has_journalDay sampleUuid graph projectStore 2025 1 10 0
           (lit "- 33333333 TODO call") Hy Hm Hd eq_refl).
Defined.

End NativeJournalsSamples.

(** ** A page created and deleted *)

Section CreatedAndDeleted.

Lemma write_paths_In (fs : FileSystem) (p q text : str) :
  In q (map fst (writeFileSync fs p text)) -> q = p \/ In q (map fst fs).
Proof.
  induction fs as [|[q0 old] fs IH]; simpl; [intuition|].
  destruct (str_eqb p q0) eqn:E; simpl; [tauto|].
  intros [H|H]; [auto|destruct (IH H); auto].
Qed.

Lemma find_exists {A : Type} (f : A -> bool) (l : list A) (x : A) :
  In x l -> f x = true -> exists y, find f l = Some y.
Proof.
  intros Hin Hx; destruct (find f l) as [y|] eqn:E; [eauto|].
  rewrite (find_none f l E x Hin) in Hx; discriminate.
Qed.

Variable uuidv4 : nat -> str.
Variable LOGSEQ_PATH : str.

(** The file of a page, once written, is among the files that [getAllPages]
    reads. *)
Lemma written_page_listed (fs : FileSystem) (pageName text : str) (n : nat) :
  exists page,
    In page (pagesOf uuidv4 LOGSEQ_PATH
               (writeFileSync fs (pageFile LOGSEQ_PATH pageName) text) n)
    /\ path page = pageFile LOGSEQ_PATH pageName.
Proof.
  set (p := pageFile LOGSEQ_PATH pageName).
  assert (In p (map path (pagesOf uuidv4 LOGSEQ_PATH (writeFileSync fs p text) n))) as H.
  { rewrite pagesOf_paths.
    apply in_or_app; left; unfold findMarkdownFiles; apply filter_In; split.
    - apply readable_In with (text := text), read_after_write.
    - apply andb_true_iff; split.
      + unfold p; rewrite <- pageFile_path; unfold pathJoin at 1.
        rewrite app_assoc; apply startsWith_app.
      + unfold p, pageFile, endsWith.
        rewrite !app_assoc, rev_app_distr, startsWith_app; reflexivity. }
  apply in_map_iff in H as (page & Hp & Hin); eauto.
Qed.

(** No page answers to a name that, lower-cased, no file of the store
    carries. *)
Lemma findPage_absent (fs : FileSystem) (pageName : str) (n : nat) :
  (forall p, In p (map fst fs) ->
     str_eqb (toLowerCase (pageNameOf p)) (toLowerCase pageName) = false) ->
  findPage pageName (pagesOf uuidv4 LOGSEQ_PATH fs n) = None.
Proof.
  intros H; apply find_None; intros page Hin.
  destruct (pagesOf_named uuidv4 LOGSEQ_PATH fs n page Hin) as (Hn & _ & text & Hr).
  rewrite Hn; apply H; now apply readable_In with (text := text).
Qed.

(** X21.  A page created under a plain file name, without a NUL character,
    that, lower-cased, no file of the store carries is the page that
    [delete_page] finds by that name:
    when [create_page] has created the file, the deletion removes it, and
    every file reads as it did before the page was created.  When
    [create_page] has answered an error, nothing was written and
    [delete_page] finds no page of that name. *)
Theorem created_page_is_deleted_by_its_name (dirs : Directories) (fs fs' : FileSystem)
    (pageName : str) (content_ : option str) (localeDate : str) (n : nat) :
  isFileName pageName = true -> hasNul pageName = false ->
  (forall p, In p (map fst fs) ->
     str_eqb (toLowerCase (pageNameOf p)) (toLowerCase pageName) = false) ->
  (forall filePath,
     create_page LOGSEQ_PATH dirs fs pageName content_ localeDate
     = (PageCreated filePath, fs') ->
     filePath = pageFile LOGSEQ_PATH pageName
     /\ isDirectory dirs (pagesDir LOGSEQ_PATH) = true
     /\ delete_page uuidv4 LOGSEQ_PATH fs' n pageName
        = (PageDeleted filePath, unlinkSync fs' filePath)
     /\ forall q, readFileSync (unlinkSync fs' filePath) q = readFileSync fs q)
  /\ (create_page LOGSEQ_PATH dirs fs pageName content_ localeDate = (PageError, fs') ->
      fs' = fs /\ delete_page uuidv4 LOGSEQ_PATH fs' n pageName = (PageMissing, fs)).
Proof.
  intros Hname Hnul Hnew; unfold create_page; rewrite pageFile_path.
  rewrite (write_page_file LOGSEQ_PATH _ _ _ _ Hname Hnul).
  set (p := pageFile LOGSEQ_PATH pageName).
  set (text := pageText pageName (createdBody content_ localeDate)).
  destruct (negb (isDirectory dirs p) && isDirectory dirs (pagesDir LOGSEQ_PATH)) eqn:W;
    (split; [intros filePath|]); intros H; try discriminate.
  - injection H as <- <-.
    apply andb_true_iff in W as [_ Hd]; split; [reflexivity|]; split; [exact Hd|].
    assert (pageNameOf p = pageName) as Hp
      by (unfold p; rewrite <- pageFile_path; now apply note_file_name).
    assert (readFileSync fs p = None) as Hnone.
    { destruct (readFileSync fs p) as [t|] eqn:R; [|reflexivity].
      apply readable_In in R; specialize (Hnew p R).
      now rewrite Hp, str_eqb_refl in Hnew. }
    destruct (written_page_listed fs pageName text n) as (page1 & Hin1 & Hpath1);
      fold p in Hin1, Hpath1.
    assert (exists page,
              findPage pageName (pagesOf uuidv4 LOGSEQ_PATH (writeFileSync fs p text) n)
              = Some page) as [page Hf].
    { apply find_exists with (x := page1); [exact Hin1|].
      destruct (pagesOf_named uuidv4 LOGSEQ_PATH _ n page1 Hin1) as (Hn & _).
      rewrite Hn, Hpath1, Hp; apply str_eqb_refl. }
    assert (path page = p) as Hpath.
    { destruct (findPage_Some uuidv4 LOGSEQ_PATH _ _ _ _ Hf) as (_ & Heq & Hn & t & Ht).
      apply readable_In, write_paths_In in Ht as [Ht|Ht]; [exact Ht|].
      specialize (Hnew _ Ht); rewrite <- Hn, Heq, str_eqb_refl in Hnew; discriminate. }
    split.
    + now rewrite (delete_page_found uuidv4 LOGSEQ_PATH _ n pageName page Hf), Hpath.
    + intros q; destruct (str_eqb q p) eqn:E.
      * apply str_eqb_eq in E; subst q; now rewrite read_after_unlink.
      * assert (q <> p) as Hne by (intros ->; now rewrite str_eqb_refl in E).
        rewrite read_other_after_unlink by exact Hne.
        now apply read_other_after_write.
  - injection H as <-; split; [reflexivity|].
    pose proof (findPage_absent fs pageName n Hnew) as Hf.
    unfold delete_page; unfold pagesOf in Hf.
    destruct (getAllPages uuidv4 LOGSEQ_PATH fs n) as [pages n1]; cbn [fst] in Hf.
    now rewrite Hf.
Qed.

End CreatedAndDeleted.

Section CreatedAndDeletedSamples.

Ltac store_paths H :=
  vm_compute in H;
  repeat match type of H with
         | _ \/ _ => destruct H as [H|H]
         end;
  try contradiction; try subst.

(** The page [Ideas] created in the project graph, then deleted; and asked
    for in a graph without the pages folder. *)
Lemma created_page_is_deleted_by_its_name_witness :
  isFileName (lit "Ideas") = true /\ hasNul (lit "Ideas") = false
  /\ (forall p, In p (map fst projectStore) ->
        str_eqb (toLowerCase (pageNameOf p)) (toLowerCase (lit "Ideas")) = false)
  /\ (exists fs',
        create_page graph graphDirs projectStore (lit "Ideas") None (lit "1/10/2025")
        = (PageCreated (lit "/graph/pages/Ideas.md"), fs')
        /\ delete_page sampleUuid graph fs' 0 (lit "Ideas")
           = (PageDeleted (lit "/graph/pages/Ideas.md"), projectStore)
        /\ forall q,
             readFileSync (unlinkSync fs' (lit "/graph/pages/Ideas.md")) q
             = readFileSync projectStore q)
  /\ (forall p, In p (map fst journalStore) ->
        str_eqb (toLowerCase (pageNameOf p)) (toLowerCase (lit "Ideas")) = false)
  /\ create_page graph journalsOnlyDirs journalStore (lit "Ideas") None (lit "1/10/2025")
     = (PageError, journalStore)
  /\ delete_page sampleUuid graph journalStore 0 (lit "Ideas") = (PageMissing, journalStore).
Proof.
  assert (forall p, In p (map fst projectStore) ->
            str_eqb (toLowerCase (pageNameOf p)) (toLowerCase (lit "Ideas")) = false) as H
    by (intros p Hp; store_paths Hp; vm_compute; reflexivity).
  assert (forall p, In p (map fst journalStore) ->
            str_eqb (toLowerCase (pageNameOf p)) (toLowerCase (lit "Ideas")) = false) as H'
    by (intros p Hp; store_paths Hp; vm_compute; reflexivity).
  split; [reflexivity|]; split; [reflexivity|]; split; [exact H|].
  destruct (create_page graph graphDirs projectStore (lit "Ideas") None (lit "1/10/2025"))
    as [outcome fs'] eqn:C.
  pose proof C as C'; vm_compute in C'; injection C' as <- Hfs.
  destruct (created_page_is_deleted_by_its_name sampleUuid graph graphDirs projectStore fs'
              (lit "Ideas") None (lit "1/10/2025") 0 eq_refl eq_refl H) as [Hcreated _].
  destruct (Hcreated _ C) as (_ & _ & Hd & Hq).
  split.
  - exists fs'; split; [reflexivity|]; split; [|exact Hq].
    rewrite Hd; f_equal; rewrite <- Hfs; reflexivity.
  - split; [exact H'|].
    destruct (created_page_is_deleted_by_its_name sampleUuid graph journalsOnlyDirs
                journalStore journalStore (lit "Ideas") None (lit "1/10/2025") 0 eq_refl
                eq_refl H')
      as [_ Herror].
    destruct (Herror eq_refl) as [_ Hd']; split; [reflexivity|exact Hd'].
Defined.

(** A page file in a folder of the pages directory: the page is named after
    the file alone. *)
Lemma namespace_is_never_set_witness :
  exists page,
    In page (pagesOf sampleUuid graph nestedStore 0)
    /\ path page = lit "/graph/pages/projects/alpha.md"
    /\ name page = lit "alpha"
    /\ namespace page = None /\ includes (name page) (lit "/") = false.
Proof.
  assert (exists page,
            In page (pagesOf sampleUuid graph nestedStore 0)
            /\ path page = lit "/graph/pages/projects/alpha.md"
            /\ name page = lit "alpha") as (page & Hin & Hp & Hn)
    by (vm_compute; eexists; split; [left; reflexivity|split; reflexivity]).
  exists page; split; [exact Hin|]; split; [exact Hp|]; split; [exact Hn|].
  exact (namespace_is_never_set sampleUuid graph nestedStore 0 page Hin).
Defined.

End CreatedAndDeletedSamples.

(** ** A property added to a header *)

Section HeaderGrowth.

Ltac app_normal := repeat (progress (rewrite <- ?app_assoc; cbn [app])).

Lemma indexOf_le (s sub : str) (k : nat) : indexOf s sub = Some k -> k <= length s.
Proof.
  revert k; induction s as [|c s IH]; intros k; simpl.
  - destruct (startsWith [] sub); [intros [= <-]; lia|discriminate].
  - destruct (startsWith (c :: s) sub); [intros [= <-]; lia|].
    destruct (indexOf s sub) as [k'|]; [|discriminate].
    intros [= <-]; specialize (IH k' eq_refl); lia.
Qed.

(** The text cut at the first run of three dashes. *)
Lemma indexOf_cut (s sub : str) (k : nat) :
  indexOf s sub = Some k -> s = firstn k s ++ sub ++ skipn (k + length sub) s.
Proof.
  revert k; induction s as [|c s IH]; intros k; simpl.
  - destruct (startsWith [] sub) eqn:E; [|discriminate].
    intros [= <-]; apply startsWith_prefix in E as [r Hr]; simpl.
    destruct sub; [reflexivity|discriminate].
  - destruct (startsWith (c :: s) sub) eqn:E.
    + intros [= <-]; apply startsWith_prefix in E as [r Hr]; cbn [firstn app Nat.add].
      rewrite Hr at 2; now rewrite skipn_exact.
    + destruct (indexOf s sub) as [k'|]; [|discriminate].
      intros [= <-]; cbn [firstn Nat.add skipn app]; f_equal; now apply IH.
Qed.

(** When a text is cut at its first run of three dashes and continued by a
    line break, no run starts before the break. *)
Lemma indexOf_before_break (s X : str) (k : nat) :
  indexOf s (lit "---") = Some k ->
  indexOf (firstn k s ++ newline :: X) (lit "---")
  = option_map (Nat.add k) (indexOf (newline :: X) (lit "---")).
Proof.
  revert k; induction s as [|c s IH]; intros k H.
  - simpl in H; discriminate.
  - cbn [indexOf] in H.
    destruct (startsWith (c :: s) (lit "---")) eqn:E.
    + injection H as <-; cbn [firstn app].
      destruct (indexOf (newline :: X) (lit "---")); reflexivity.
    + destruct (indexOf s (lit "---")) as [k'|] eqn:I; [|discriminate].
      injection H as <-; cbn [firstn app].
      rewrite indexOf_cons.
      * rewrite (IH k' eq_refl).
        destruct (indexOf (newline :: X) (lit "---")); reflexivity.
      * destruct (startsWith (c :: firstn k' s ++ newline :: X) (lit "---")) eqn:E';
          [|reflexivity].
        apply (dashes_before_break (c :: firstn k' s)) in E'.
        apply (startsWith_app_l _ (skipn k' s)) in E'.
        cbn [app] in E'; rewrite firstn_skipn in E'; congruence.
Qed.

Lemma indexOf_none_char (x : ascii) (s : str) :
  forallb (notChar x) s = true -> indexOf s [x] = None.
Proof.
  induction s as [|c s IH]; intros H; [reflexivity|].
  cbn [forallb] in H; apply andb_true_iff in H as [Hc Hs].
  rewrite indexOf_cons, (IH Hs); [reflexivity|].
  unfold startsWith; simpl; unfold notChar in Hc.
  rewrite Ascii.eqb_sym; now destruct (Ascii.eqb c x).
Qed.

Lemma blank_no_colon (s : str) : forallb isSpace s = true -> forallb (notChar ":") s = true.
Proof.
  induction s as [|c s IH]; simpl; [reflexivity|].
  intros H; apply andb_true_iff in H as [Hc Hs]; rewrite (IH Hs), andb_true_r.
  unfold notChar; destruct (Ascii.eqb c ":") eqn:E; [|reflexivity].
  apply Ascii.eqb_eq in E; subst c; discriminate.
Qed.

(** The first colon of a text followed by blanks is the first colon of the
    text. *)
Lemma indexOf_colon_blanks (l b : str) :
  forallb isSpace b = true -> indexOf (l ++ b) [":"%char] = indexOf l [":"%char].
Proof.
  intros Hb; induction l as [|c l IH].
  - cbn [app]; now rewrite !indexOf_none_char by (now apply blank_no_colon || reflexivity).
  - cbn [app indexOf].
    replace (startsWith (c :: l ++ b) [":"%char]) with (startsWith (c :: l) [":"%char])
      by (unfold startsWith; simpl; now destruct (Ascii.eqb ":" c)).
    now rewrite IH.
Qed.

Lemma trim_blank (s : str) : forallb isSpace s = true -> trim s = [].
Proof.
  intros H; rewrite <- (app_nil_r s).
  change (s ++ []) with (s ++ [] ++ []); apply trim_sandwich; [exact H|reflexivity|].
  split; reflexivity.
Qed.

Lemma trim_app_blank (x b : str) : forallb isSpace b = true -> trim (x ++ b) = trim x.
Proof.
  intros Hb; destruct (trim_decompose x) as (a & b' & E & Ha & Hb').
  rewrite E at 1; rewrite <- !app_assoc.
  apply trim_sandwich; [exact Ha| |apply trim_Trimmed].
  rewrite forallb_app, Hb', Hb; reflexivity.
Qed.

(** Blanks behind a header line do not change what the line sets. *)
Lemma frontMatterLine_blanks (props : list (str * str)) (l b : str) :
  forallb isSpace b = true -> frontMatterLine props (l ++ b) = frontMatterLine props l.
Proof.
  intros Hb; unfold frontMatterLine; change (lit ":") with [":"%char].
  rewrite (indexOf_colon_blanks l b Hb).
  destruct (indexOf l [":"%char]) as [[|k]|] eqn:I; try reflexivity.
  pose proof (indexOf_cut _ _ _ I) as Hcut; cbn [length] in Hcut.
  assert (S (S k) <= length l) as Hlen.
  { apply (f_equal (@length ascii)) in Hcut.
    rewrite !length_app in Hcut; cbn [length] in Hcut.
    pose proof (indexOf_le _ _ _ I) as Hle.
    rewrite length_firstn, Nat.min_l in Hcut by exact Hle; lia. }
  rewrite firstn_app, skipn_app.
  replace (S k - length l) with 0 by lia.
  replace (S (S k) - length l) with 0 by lia.
  cbn [firstn skipn]; rewrite app_nil_r.
  now rewrite (trim_app_blank _ b Hb).
Qed.

Lemma frontMatterLine_blank (props : list (str * str)) (l : str) :
  forallb isSpace l = true -> frontMatterLine props l = props.
Proof.
  intros H; unfold frontMatterLine; change (lit ":") with [":"%char].
  now rewrite indexOf_none_char by now apply blank_no_colon.
Qed.

Lemma fold_blank_lines (props : list (str * str)) (ls : list str) :
  Forall (fun l => forallb isSpace l = true) ls ->
  fold_left frontMatterLine ls props = props.
Proof.
  induction 1 as [|l ls Hl _ IH]; [reflexivity|].
  cbn [fold_left]; now rewrite (frontMatterLine_blank props l Hl).
Qed.

Lemma split_blank (b : str) :
  forallb isSpace b = true -> Forall (fun l => forallb isSpace l = true) (split b).
Proof.
  intros Hb; apply Forall_forall; intros l Hl.
  apply split_part in Hl as (x & y & E); rewrite E, !forallb_app in Hb.
  apply andb_true_iff in Hb as [_ Hb]; now apply andb_true_iff in Hb as [Hb _].
Qed.

(** The lines of a text continued by another: the last line of the first
    runs into the first line of the second. *)
Lemma split_app (s t : str) :
  exists init lst h tl,
    split s = init ++ [lst] /\ split t = h :: tl
    /\ split (s ++ t) = init ++ (lst ++ h) :: tl.
Proof.
  pose proof (split_not_nil t) as Ht.
  destruct (split t) as [|h tl] eqn:Et; [congruence|].
  induction s as [|c s IH].
  - exists [], [], h, tl; cbn [app]; rewrite Et; auto.
  - destruct IH as (init & lst & h' & tl' & Es & [= <- <-] & Est).
    cbn [app split].
    destruct (Ascii.eqb c newline).
    + exists ([] :: init), lst, h, tl; rewrite Es, Est; auto.
    + rewrite Es, Est; destruct init as [|l0 init]; cbn [app].
      * exists [], (c :: lst), h, tl; auto.
      * exists ((c :: l0) :: init), lst, h, tl; auto.
Qed.

(** Blanks behind a header do not change the properties it gives. *)
Lemma header_blanks (F b : str) (props : list (str * str)) :
  forallb isSpace b = true ->
  fold_left frontMatterLine (split (F ++ b)) props
  = fold_left frontMatterLine (split F) props.
Proof.
  intros Hb; destruct (split_app F b) as (init & lst & h & tl & -> & Eb & ->).
  pose proof (split_blank b Hb) as Hall; rewrite Eb in Hall.
  inversion Hall as [|? ? Hh Htl]; subst.
  rewrite !fold_left_app; cbn [fold_left].
  rewrite (frontMatterLine_blanks _ lst h Hh).
  apply fold_blank_lines, Htl.
Qed.

Lemma setKey_not_nil (props : list (str * str)) (key value : str) :
  setKey props key value <> [].
Proof.
  unfold setKey; destruct props as [|[k v] props]; cbn; [discriminate|].
  destruct (str_eqb key k); cbn; [discriminate|].
  destruct (existsb _ props); [discriminate|].
  destruct (arrayIndex key) as [i|]; [|discriminate].
  destruct (arrayIndex k) as [j|]; [|discriminate].
  destruct (i <? j)%N; discriminate.
Qed.

Lemma lookupKey_replaceKey (props : list (str * str)) (key value k : str) :
  hasKey props key = true ->
  lookupKey (replaceKey props key value) k
  = if str_eqb k key then Some value else lookupKey props k.
Proof.
  induction props as [|[k0 v0] props IH]; cbn; [discriminate|].
  destruct (str_eqb key k0) eqn:E; cbn.
  - intros _; apply str_eqb_eq in E; subst k0; now destruct (str_eqb k key).
  - intros H; destruct (str_eqb k k0) eqn:E'; [|exact (IH H)].
    apply str_eqb_eq in E'; subst k0.
    now rewrite (str_eqb_sym k key), E.
Qed.

Lemma lookupKey_addKey (props : list (str * str)) (key value k : str) :
  hasKey props key = false ->
  lookupKey (addKey props key value) k
  = if str_eqb k key then Some value else lookupKey props k.
Proof.
  induction props as [|[k0 v0] props IH]; cbn; [reflexivity|].
  intros H; apply orb_false_iff in H as [E H].
  assert (lookupKey ((k0, v0) :: addKey props key value) k
          = if str_eqb k key then Some value
            else if str_eqb k k0 then Some v0 else lookupKey props k) as Hskip.
  { cbn; destruct (str_eqb k k0) eqn:E'; [|exact (IH H)].
    apply str_eqb_eq in E'; subst k0.
    now rewrite (str_eqb_sym k key), E. }
  destruct (arrayIndex key) as [i|]; [|exact Hskip].
  destruct (arrayIndex k0) as [j|]; [|reflexivity].
  destruct (i <? j)%N; [reflexivity|exact Hskip].
Qed.

Lemma lookupKey_setKey (props : list (str * str)) (key value k : str) :
  lookupKey (setKey props key value) k
  = if str_eqb k key then Some value else lookupKey props k.
Proof.
  unfold setKey; destruct (hasKey props key) eqn:H.
  - now apply lookupKey_replaceKey.
  - now apply lookupKey_addKey.
Qed.

(** The properties of a header to which the line of a property is added. *)
Lemma header_grown (fm key value : str) :
  isPropertyKey key = true -> noNewline value = true ->
  fold_left frontMatterLine
    (split (trim (fm ++ newline :: (key ++ lit ": " ++ value) ++ [newline]))) []
  = setKey (fold_left frontMatterLine (split (trim fm)) []) key (trim value).
Proof.
  intros Hk Hv; set (kv := key ++ lit ": " ++ value).
  destruct (property_line key value Hk Hv) as (r & HK & Hr & Hl); fold kv in HK.
  destruct (trim_decompose kv) as (a' & b' & Ekv & Ha' & Hb').
  destruct (trim_decompose fm) as (a & b & Efm & Ha & Hb).
  pose proof (trim_Trimmed kv) as HtK; pose proof (trim_Trimmed fm) as HtF.
  set (K := trim kv) in *; set (F := trim fm) in *.
  assert (K <> []) as HKne by (rewrite HK; destruct key; discriminate).
  destruct F as [|f0 F'] eqn:EF.
  - replace (fm ++ newline :: kv ++ [newline])
      with ((fm ++ newline :: a') ++ K ++ (b' ++ [newline]))
      by (rewrite Ekv at 1; cbn [app]; rewrite <- !app_assoc; reflexivity).
    rewrite trim_sandwich; [|rewrite forallb_app; cbn [forallb];
                              rewrite Efm, !forallb_app, Ha, Hb, Ha'; reflexivity
                            |rewrite forallb_app, Hb'; reflexivity|exact HtK].
    rewrite HK, (split_single _ Hl); cbn [fold_left split].
    now rewrite frontMatterLine_property, Hr.
  - assert (a' = []) as ->.
    { destruct a' as [|x a']; [reflexivity|].
      unfold isPropertyKey in Hk; repeat (apply andb_true_iff in Hk as [Hk ?]).
      unfold kv in Ekv; destruct key as [|k0 key']; [discriminate|].
      cbn [app] in Ekv; injection Ekv as <- _.
      simpl in Ha'; match goal with H : headOk (k0 :: _) = true |- _ => simpl in H end.
      destruct (isSpace k0); discriminate. }
    cbn [app] in Ekv.
    replace (fm ++ newline :: kv ++ [newline])
      with (a ++ (((f0 :: F') ++ b) ++ newline :: K) ++ (b' ++ [newline]))
      by (rewrite Efm at 1; rewrite Ekv at 1; cbn [app]; rewrite <- !app_assoc;
          cbn [app]; rewrite <- ?app_assoc; reflexivity).
    rewrite trim_sandwich; [|exact Ha|rewrite forallb_app, Hb'; reflexivity|].
    + rewrite split_last by (rewrite HK; exact Hl).
      rewrite fold_left_app, (header_blanks (f0 :: F') b [] Hb); cbn [fold_left].
      now rewrite HK, frontMatterLine_property, Hr.
    + destruct HtF as [H1 _], HtK as [_ H2]; split.
      * rewrite <- !app_assoc; now rewrite headOk_app.
      * change (newline :: K) with ([newline] ++ K); rewrite app_assoc.
        now apply headOk_rev_app.
Qed.

Variable uuidv4 : nat -> str.
Variable LOGSEQ_PATH : str.

(** X22.  On a page whose file starts with a closed header, [set_page_property]
    adds the line of the property at the end of the header and changes
    nothing else of the file.  For a property name that a header line can
    carry and a value on one line, neither holding three dashes in a row, the
    page read back has the properties it had, with that property assigned
    the trimmed value as an object takes it: in its former place when the
    name was there; otherwise behind the other names, or, for a name that is
    an array index, among the names that are array indices, which come first
    in the order of their numbers.  The property reads as the trimmed value,
    every other name reads as before, and the name and the blocks of the
    page are the same. *)
Theorem set_page_property_grows_header (fs : FileSystem) (n m endIndex : nat)
    (pageName key value text : str) (page : LogseqPage) :
  findPage pageName (pagesOf uuidv4 LOGSEQ_PATH fs n) = Some page ->
  readFileSync fs (path page) = Some text ->
  startsWith text (lit "---") = true ->
  indexOfFrom text (lit "---") 3 = Some endIndex ->
  isPropertyKey key = true -> noNewline value = true ->
  includes (key ++ lit ": " ++ value) (lit "---") = false ->
  exists fs',
    set_page_property uuidv4 LOGSEQ_PATH fs n pageName key value = (PropertySet, fs')
    /\ readFileSync fs' (path page)
       = Some (lit "---" ++ slice 3 endIndex text ++ [newline] ++ key ++ lit ": " ++ value
               ++ [newline] ++ lit "---" ++ sliceFrom (endIndex + 3) text)
    /\ (forall q, q <> path page -> readFileSync fs' q = readFileSync fs q)
    /\ exists page' n' props',
         readPageFile uuidv4 fs' (path page) m = (Some page', n')
         /\ pageProperties page' = Some props'
         /\ props' = setKey (fst (frontMatter text)) key (trim value)
         /\ lookupKey props' key = Some (trim value)
         /\ (forall k, k <> key -> lookupKey props' k = lookupKey (fst (frontMatter text)) k)
         /\ name page' = name page
         /\ blocks page' = fst (parseBlocks uuidv4 (snd (frontMatter text)) m).
Proof.
  intros Hf Hr Hs Hi Hk Hv Hd.
  destruct (findPage_Some uuidv4 LOGSEQ_PATH _ _ _ _ Hf) as (_ & _ & Hname & _).
  unfold set_page_property; unfold pagesOf in Hf.
  destruct (getAllPages uuidv4 LOGSEQ_PATH fs n) as [pages n1]; cbn [fst] in Hf.
  rewrite Hf, Hr; clear Hf pages n1.
  unfold withProperty; rewrite Hs, Hi; cbn [negb]; cbv zeta.
  (* the parts of the old text *)
  pose proof Hs as Hpre; apply startsWith_prefix in Hpre as [t3 Ht3].
  unfold indexOfFrom in Hi; rewrite Ht3 in Hi.
  change (skipn 3 (lit "---" ++ t3)) with t3 in Hi.
  destruct (indexOf t3 (lit "---")) as [k|] eqn:I; [|discriminate].
  injection Hi as <-.
  pose proof (indexOf_le _ _ _ I) as Hle.
  set (fm := slice 3 (3 + k) text); set (rest0 := sliceFrom (3 + k + 3) text).
  assert (fm = firstn k t3) as Efm
    by (unfold fm, slice; rewrite Ht3; replace (3 + k - 3) with k by lia; reflexivity).
  assert (rest0 = skipn (k + 3) t3) as Erest.
  { unfold rest0, sliceFrom; rewrite Ht3.
    replace (3 + k + 3) with (3 + (k + 3)) by lia.
    change (lit "---" ++ t3) with ("-"%char :: "-"%char :: "-"%char :: t3).
    reflexivity. }
  assert (frontMatter text = (fold_left frontMatterLine (split (trim fm)) [], rest0)) as Hold.
  { unfold frontMatter; rewrite Hs; unfold indexOfFrom; rewrite Ht3.
    change (skipn 3 (lit "---" ++ t3)) with t3; rewrite I; cbn [option_map].
    rewrite <- Ht3; reflexivity. }
  set (kv := key ++ lit ": " ++ value) in *.
  set (text' := lit "---" ++ fm ++ [newline] ++ key ++ lit ": " ++ value
                ++ [newline] ++ lit "---" ++ rest0).
  assert (text' = lit "---" ++ (fm ++ newline :: kv ++ [newline]) ++ lit "---" ++ rest0)
    as Etext' by (unfold text', kv; repeat (progress (rewrite <- ?app_assoc; cbn [app]));
                  reflexivity).
  assert (frontMatter text'
          = (fold_left frontMatterLine (split (trim (fm ++ newline :: kv ++ [newline]))) [],
             rest0)) as Hnew.
  { rewrite Etext'; unfold frontMatter; rewrite startsWith_app.
    unfold indexOfFrom.
    change (skipn 3 (lit "---" ++ (fm ++ newline :: kv ++ [newline]) ++ lit "---" ++ rest0))
      with ((fm ++ newline :: kv ++ [newline]) ++ lit "---" ++ rest0).
    replace ((fm ++ newline :: kv ++ [newline]) ++ lit "---" ++ rest0)
      with (firstn k t3 ++ newline :: kv ++ newline :: lit "---" ++ rest0)
      by (rewrite Efm; app_normal; reflexivity).
    rewrite (indexOf_before_break t3 _ k I).
    rewrite indexOf_cons by (now vm_compute).
    rewrite (indexOf_marker kv rest0 Hd); cbn [option_map].
    unfold slice, sliceFrom.
    change (skipn 3 (lit "---" ++ firstn k t3 ++ newline :: kv ++ newline :: lit "---" ++ rest0))
      with (firstn k t3 ++ newline :: kv ++ newline :: lit "---" ++ rest0).
    replace (3 + (k + S (S (length kv))) - 3) with (k + S (S (length kv))) by lia.
    replace (firstn k t3 ++ newline :: kv ++ newline :: lit "---" ++ rest0)
      with ((firstn k t3 ++ newline :: kv ++ [newline]) ++ lit "---" ++ rest0)
      by (app_normal; reflexivity).
    rewrite firstn_exact
      by (rewrite length_app, length_firstn, Nat.min_l by exact Hle;
          cbn [length]; rewrite length_app; cbn [length]; lia).
    replace (lit "---" ++ (firstn k t3 ++ newline :: kv ++ [newline]) ++ lit "---" ++ rest0)
      with ((lit "---" ++ (firstn k t3 ++ newline :: kv ++ [newline]) ++ lit "---") ++ rest0)
      by (now rewrite <- !app_assoc).
    rewrite skipn_exact; [now rewrite Efm|].
    rewrite !length_app, length_firstn, Nat.min_l by exact Hle.
    cbn [length]; rewrite length_app; cbn [length].
    change (length (lit "---")) with 3; lia. }
  match goal with
  | |- context [writeFileSync fs (path page) ?t] =>
      replace t with text' by (unfold text', fm, rest0, kv; app_normal; reflexivity)
  end.
  exists (writeFileSync fs (path page) text').
  assert (readFileSync (writeFileSync fs (path page) text') (path page) = Some text') as Hr'
    by apply read_after_write.
  split; [reflexivity|]; split; [exact Hr'|].
  split; [intros q Hq; now apply read_other_after_write|].
  destruct (readPageFile_readable uuidv4 _ _ _ m Hr') as (page' & n' & E).
  exists page', n', (setKey (fst (frontMatter text)) key (trim value)).
  split; [exact E|].
  apply readPageFile_fields in E as (t & Ht & _ & Hn & Hb & Hp & _).
  rewrite Hr' in Ht; injection Ht as <-.
  rewrite Hnew in Hb, Hp; rewrite Hold; cbn [fst snd] in *.
  pose proof (header_grown fm key value Hk Hv) as Hg; fold kv in Hg; rewrite Hg in Hp.
  split.
  - rewrite Hp; unfold orUndefined.
    pose proof (setKey_not_nil (fold_left frontMatterLine (split (trim fm)) []) key
                  (trim value)) as Hne.
    destruct (setKey _ key (trim value)); [congruence|reflexivity].
  - split; [reflexivity|].
    split; [now rewrite lookupKey_setKey, str_eqb_refl|].
    split; [intros k0 Hk0; now rewrite lookupKey_setKey, (str_eqb_neq _ _ Hk0)|].
    rewrite Hname; auto.
Qed.

End HeaderGrowth.

Section HeaderGrowthSamples.

(** The property [status] put on the headed page goes under its title, one
    empty line below it, and both are read back. *)
Lemma set_page_property_grows_header_witness :
  exists page,
    findPage (lit "headed") (pagesOf sampleUuid graph headedStore 0) = Some page
    /\ readFileSync headedStore (path page) = Some headedText
    /\ startsWith headedText (lit "---") = true
    /\ indexOfFrom headedText (lit "---") 3 = Some 18
    /\ isPropertyKey (lit "status") = true /\ noNewline (lit "new") = true
    /\ includes (lit "status" ++ lit ": " ++ lit "new") (lit "---") = false
    /\ exists fs',
         set_page_property sampleUuid graph headedStore 0 (lit "headed") (lit "status")
           (lit "new") = (PropertySet, fs')
         /\ readFileSync fs' (path page)
            = Some (join [lit "---"; lit "title: Headed"; []; lit "status: new"; lit "---";
                          lit "- body"])
         /\ exists page' n',
              readPageFile sampleUuid fs' (path page) 0 = (Some page', n')
              /\ pageProperties page'
                 = Some [(lit "title", lit "Headed"); (lit "status", lit "new")].
Proof.
  destruct (findPage (lit "headed") (pagesOf sampleUuid graph headedStore 0))
    as [page|] eqn:F; [|vm_compute in F; discriminate].
  pose proof F as F'; vm_compute in F'; injection F' as <-.
  eexists; split; [reflexivity|]; split; [reflexivity|]; split; [reflexivity|].
  split; [reflexivity|]; split; [reflexivity|]; split; [reflexivity|].
  split; [reflexivity|].
  destruct (set_page_property_grows_header sampleUuid graph headedStore 0 0 18
              (lit "headed") (lit "status") (lit "new") headedText _ F
              eq_refl eq_refl eq_refl eq_refl eq_refl eq_refl)
    as (fs' & Hset & Hread & _ & page' & n' & props' & Hpage & Hprops & -> & _).
  exists fs'; split; [exact Hset|]; split; [exact Hread|].
  exists page', n'; split; [exact Hpage|exact Hprops].
Defined.

(** The property [7] put on the headed page: its line is the last of the
    header, and the page read back lists it before the title. *)
Lemma set_page_property_lists_index_first :
  set_page_property sampleUuid graph headedStore 0 (lit "headed") (lit "7") (lit "x")
  = (PropertySet,
     [(lit "/graph/pages/headed.md",
       join [lit "---"; lit "title: Headed"; []; lit "7: x"; lit "---"; lit "- body"])])
  /\ option_map pageProperties
       (fst (readPageFile sampleUuid
               (snd (set_page_property sampleUuid graph headedStore 0 (lit "headed")
                       (lit "7") (lit "x")))
               (lit "/graph/pages/headed.md") 0))
     = Some (Some [(lit "7", lit "x"); (lit "title", lit "Headed")]).
Proof. split; vm_compute; reflexivity. Qed.

End HeaderGrowthSamples.
